(** * ComponentManager: the validation and persistence layer of piselfhosting_gui

    A shallow embedding of [component_manager.py].  Python values are an
    inductive type, dictionaries are insertion-ordered association lists,
    exceptions are a result type, and the methods of [ComponentManager] are
    computations in a small state-and-exception monad over the manager's
    attributes and the file system it persists to. *)

From Stdlib Require Import String Ascii List ZArith Bool Lia.
From Stdlib Require Import Decimal DecimalString DecimalZ.
Import ListNotations.

Set Warnings "-register-all".
Local Open Scope list_scope.
Local Open Scope string_scope.

(** ** Python dictionaries

    A [dict] keeps its keys in insertion order; [d[k] = v] overwrites in place
    when [k] is present and appends otherwise.  Keys are unique in every
    Python dict; here that is the predicate [uniq]. *)

Module Dict.
Section Ops.
Context {V : Type}.

Definition dict := list (string * V).

(** [d.get(k)] without its default. *)
Fixpoint get (k : string) (d : dict) : option V :=
  match d with
  | [] => None
  | (k', v) :: rest => if String.eqb k' k then Some v else get k rest
  end.

(** [k in d] *)
Definition mem (k : string) (d : dict) : bool :=
  match get k d with Some _ => true | None => false end.

(** [d[k] = v] *)
Fixpoint set (k : string) (v : V) (d : dict) : dict :=
  match d with
  | [] => [(k, v)]
  | (k', v') :: rest =>
      if String.eqb k' k then (k, v) :: rest else (k', v') :: set k v rest
  end.

(** [del d[k]] *)
Fixpoint del (k : string) (d : dict) : dict :=
  match d with
  | [] => []
  | (k', v') :: rest =>
      if String.eqb k' k then rest else (k', v') :: del k rest
  end.

Definition keys (d : dict) : list string := map fst d.

Definition uniq (d : dict) : Prop := NoDup (keys d).
End Ops.
Arguments dict : clear implicits.
End Dict.

(** ** Python values

    The values a component record or a JSON document is made of.  Numbers
    with a fraction or an exponent (Python [float]) are outside this universe:
    no recognised field of a component is one. *)

Inductive pyval : Type :=
| PNone
| PBool (b : bool)
| PInt (n : Z)
| PStr (s : string)
| PList (items : list pyval)
| PDict (items : Dict.dict pyval).

(** Induction over values, with the hypothesis for the items of a list and
    the values of a dict. *)
Fixpoint pyval_induction (P : pyval -> Prop)
    (HNone : P PNone) (HBool : forall b, P (PBool b)) (HInt : forall n, P (PInt n))
    (HStr : forall s, P (PStr s))
    (HList : forall l, Forall P l -> P (PList l))
    (HDict : forall d, Forall (fun kv => P (snd kv)) d -> P (PDict d))
    (v : pyval) {struct v} : P v :=
  match v with
  | PNone => HNone
  | PBool b => HBool b
  | PInt n => HInt n
  | PStr s => HStr s
  | PList l =>
      HList l ((fix all (l : list pyval) : Forall P l :=
                  match l with
                  | [] => Forall_nil P
                  | x :: rest =>
                      Forall_cons x
                        (pyval_induction P HNone HBool HInt HStr HList HDict x) (all rest)
                  end) l)
  | PDict d =>
      HDict d ((fix all (d : Dict.dict pyval) : Forall (fun kv => P (snd kv)) d :=
                  match d with
                  | [] => Forall_nil _
                  | kv :: rest =>
                      Forall_cons kv
                        (pyval_induction P HNone HBool HInt HStr HList HDict (snd kv))
                        (all rest)
                  end) d)
  end.

(** [bool(v)]: the truth value Python's [if], [not] and [and] test. *)
Definition truthy (v : pyval) : bool :=
  match v with
  | PNone => false
  | PBool b => b
  | PInt n => negb (Z.eqb n 0)
  | PStr s => negb (String.eqb s "")
  | PList l => match l with [] => false | _ => true end
  | PDict d => match d with [] => false | _ => true end
  end.

(** [a == b].  [bool] is a subclass of [int], so [True == 1]; lists compare
    elementwise; dicts compare as mappings, whatever the order of the keys. *)
Fixpoint py_eq (a b : pyval) {struct a} : bool :=
  match a, b with
  | PNone, PNone => true
  | PBool x, PBool y => Bool.eqb x y
  | PBool x, PInt n => Z.eqb (Z.b2z x) n
  | PInt n, PBool x => Z.eqb n (Z.b2z x)
  | PInt n, PInt m => Z.eqb n m
  | PStr s, PStr t => String.eqb s t
  | PList l, PList m =>
      (fix elems (l m : list pyval) {struct l} : bool :=
         match l, m with
         | [], [] => true
         | x :: l', y :: m' => py_eq x y && elems l' m'
         | _, _ => false
         end) l m
  | PDict d, PDict e =>
      Nat.eqb (length d) (length e) &&
      (fix entries (d : Dict.dict pyval) : bool :=
         match d with
         | [] => true
         | (k, v) :: d' =>
             match Dict.get k e with
             | Some w => py_eq v w
             | None => false
             end && entries d'
         end) d
  | _, _ => false
  end.

(** [isinstance(v, int)]: true of [bool] values too. *)
Definition isinstance_int (v : pyval) : bool :=
  match v with
  | PInt _ | PBool _ => true
  | _ => false
  end.

(** The integer an [int] instance denotes in a comparison. *)
Definition int_value (v : pyval) : Z :=
  match v with
  | PInt n => n
  | PBool b => Z.b2z b
  | _ => 0%Z
  end.

(** ** Exceptions

    Every [raise] of the module is a [ValueError] built from an f-string.  A
    message is kept as its template together with the values formatted into
    it; the comment at each constructor is the Python text. *)

Inductive message : Type :=
| IdEmpty
    (* "Component ID cannot be empty." *)
| IdCharset
    (* "Component ID can only contain lowercase letters, numbers, and hyphens." *)
| IdExists (component_id : string)
    (* f"Component ID '{component_id}' already exists." *)
| IdUnknown (component_id : string)
    (* f"Component ID '{component_id}' does not exist." *)
| PortInUse (new_ui_port : pyval) (comp_id : string)
    (* f"UI port {new_ui_port} is already in use by component '{comp_id}'. Ports must be unique." *)
| ProxyTaken (comp_id : string)
    (* f"Component '{comp_id}' is already selected as a reverse proxy. Maximum one reverse proxy allowed." *)
| PortRequired
    (* "UI Port is required if 'Has Web Interface' is selected." *)
| PortRange
    (* "UI Port must be an integer between 1 and 65535." *)
| ProtocolRequired
    (* "Protocol is required if 'Has Web Interface' is selected." *)
| ProtocolChoice
    (* "Protocol must be 'http' or 'https'." *)
| IconRequired
    (* "Icon is required if 'Has Web Interface' is selected." *)
| SectionRequired
    (* "Dashy Section is required if 'Has Web Interface' is selected." *)
| SuffixRequired
    (* "Dashy URL Suffix is required if 'Has Web Interface' is selected." *)
| NameRequired
    (* "Component name is required." *)
| DeleteUnknown (component_id : string)
    (* f"Component ID '{component_id}' not found for deletion." *)
| NotADictionary
    (* "File does not contain a valid JSON dictionary." *)
| ParseFailed (filepath : string)
    (* f"Error parsing JSON file '{self.filepath}': {e}" *)
| LoadFailed (filepath : string) (cause : message)
    (* f"Error loading file '{self.filepath}': {e}" *)
| SaveFailed (filepath : string)
    (* f"Error saving file '{self.filepath}': {e}" *).

Inductive exn : Type :=
| ValueError (msg : message)
| AttributeError (receiver : pyval) (attribute : string)
    (* f"'{type(receiver).__name__}' object has no attribute '{attribute}'" *).

Inductive result (A : Type) : Type :=
| Ok (a : A)
| Raise (e : exn).
Arguments Ok {A} a.
Arguments Raise {A} e.

(** [v.get(key)]: the value under [key], [None] when the key is absent, and
    an [AttributeError] when [v] is not a dict. *)
Definition py_get (v : pyval) (key : string) : result pyval :=
  match v with
  | PDict d =>
      match Dict.get key d with
      | Some x => Ok x
      | None => Ok PNone
      end
  | _ => Raise (AttributeError v "get")
  end.

(** [v is None] *)
Definition is_none (v : pyval) : bool :=
  match v with PNone => true | _ => false end.

(** [v in l] for a list literal [l]. *)
Definition py_in (v : pyval) (l : list pyval) : bool :=
  existsb (fun x => py_eq x v) l.

Definition and_then {A B : Type} (r : result A) (k : A -> result B) : result B :=
  match r with
  | Ok a => k a
  | Raise e => Raise e
  end.

Notation "'do' x <- r ; k" := (and_then r (fun x => k))
  (at level 10, x name, r at level 100, k at level 200).

(** ** The identifier pattern

    [re.match(r"^[a-z0-9-]+$", component_id)], with no flags.  [^] holds at
    the start of the string; the class is matched greedily; [$] holds at the
    end of the string and also just before a newline that is the last
    character.  Giving back characters of the greedy run never helps: the
    position after a shorter run is followed by a character of the class, where
    [$] cannot hold. *)

Definition newline : ascii := ascii_of_nat 10.

Definition id_char (c : ascii) : bool :=
  let n := nat_of_ascii c in
  ((97 <=? n) && (n <=? 122) || (48 <=? n) && (n <=? 57) || (n =? 45))%nat.

(** What is left of the string after the longest run of class characters. *)
Fixpoint skip_id_chars (s : string) : string :=
  match s with
  | String c rest => if id_char c then skip_id_chars rest else s
  | EmptyString => s
  end.

(** [$] at the position where [rest] begins. *)
Definition at_dollar (rest : string) : bool :=
  match rest with
  | EmptyString => true
  | String c EmptyString => Ascii.eqb c newline
  | _ => false
  end.

Definition re_match_id (s : string) : bool :=
  match s with
  | String c rest => id_char c && at_dollar (skip_id_chars rest)
  | EmptyString => false
  end.

(** ** The file system and the JSON library

    A file system is the text stored under each path, together with the paths
    that cannot be written (a full disk, missing permissions): opening such a
    path for writing, or replacing it, raises [OSError]. *)

Record filesystem : Type := mkFs {
  files : Dict.dict string;
  unwritable : list string
}.

Definition writable (path : string) (w : filesystem) : bool :=
  negb (existsb (String.eqb path) (unwritable w)).

(** [with open(path, 'w') as f: f.write(text)] *)
Definition write_file (path text : string) (w : filesystem) : option filesystem :=
  if writable path w
  then Some (mkFs (Dict.set path text (files w)) (unwritable w))
  else None.

(** [os.replace(src, dst)] *)
Definition os_replace (src dst : string) (w : filesystem) : option filesystem :=
  match Dict.get src (files w) with
  | Some text =>
      if writable dst w
      then Some (mkFs (Dict.set dst text (Dict.del src (files w))) (unwritable w))
      else None
  | None => None
  end.

(** What [json.dump(obj, f, indent=2)] does to the file it is handed: it
    writes the whole text and returns, or it raises -- on an integer too long
    to be printed, on nesting deeper than the interpreter allows -- after
    having written some of it. *)
Inductive dumped : Type :=
| Dumped (text : string)
| DumpRaised (written : string).

(** The two entry points of Python's [json] module the manager calls:
    [json.dump(obj, f, indent=2)] as what it writes, and [json.load(f)]
    on the text of a file, [None] standing for [json.JSONDecodeError]. *)
Class JsonLib : Type := {
  json_dump : pyval -> dumped;
  json_load : string -> option pyval
}.

(** [json.dump] returns on the value. *)
Definition dumps {json : JsonLib} (v : pyval) : Prop :=
  exists text, json_dump v = Dumped text.

(** ** The manager *)

(** The attributes of a [ComponentManager] instance, and the file system it
    runs against. *)
Record state : Type := mkState {
  filepath : string;
  components_data : Dict.dict pyval;
  fs : filesystem
}.

(** A method body: it reads and updates the state and either returns or
    raises; what it changed before raising stays changed. *)
Definition M (A : Type) : Type := state -> result A * state.

Definition ret {A : Type} (a : A) : M A := fun st => (Ok a, st).

Definition raise {A : Type} (e : exn) : M A := fun st => (Raise e, st).

Definition bind {A B : Type} (m : M A) (k : A -> M B) : M B :=
  fun st =>
    match m st with
    | (Ok a, st') => k a st'
    | (Raise e, st') => (Raise e, st')
    end.

(** A computation that only reads [self.components_data]. *)
Definition reading {A : Type} (f : Dict.dict pyval -> result A) : M A :=
  fun st => (f (components_data st), st).

(** A computation that touches no attribute at all. *)
Definition lift {A : Type} (r : result A) : M A := fun st => (r, st).

Notation "x <- m ;; k" := (bind m (fun x => k))
  (at level 61, m at next level, right associativity).
Notation "m ;; k" := (bind m (fun _ => k))
  (at level 61, right associativity).

(** [self.components_data[component_id] = data] *)
Definition setitem (component_id : string) (data : pyval) : M unit :=
  fun st =>
    (Ok tt, mkState (filepath st)
                    (Dict.set component_id data (components_data st)) (fs st)).

(** [del self.components_data[component_id]] *)
Definition delitem (component_id : string) : M unit :=
  fun st =>
    (Ok tt, mkState (filepath st)
                    (Dict.del component_id (components_data st)) (fs st)).

(** [comp_id == component_id_being_edited], the latter [None] on the add path. *)
Definition is_edited (comp_id : string) (component_id_being_edited : option string) : bool :=
  match component_id_being_edited with
  | Some edited => String.eqb comp_id edited
  | None => false
  end.

Section Manager.
Context {json : JsonLib}.

(** [_load_data], run by [__init__] on the path it was given.  The
    [ValueError] raised for a document that is not a dict is caught by the
    method's own [except Exception] and wrapped again. *)
Definition _load_data (filepath : string) (w : filesystem) : result (Dict.dict pyval) :=
  match Dict.get filepath (files w) with
  | None => Ok []              (* not os.path.exists(self.filepath) *)
  | Some text =>
      match json_load text with
      | Some (PDict data) => Ok data
      | Some _ => Raise (ValueError (LoadFailed filepath NotADictionary))
      | None => Raise (ValueError (ParseFailed filepath))
      end
  end.

(** [ComponentManager(filepath)]: no instance exists when loading raises. *)
Definition __init__ (filepath : string) (w : filesystem) : result state :=
  do data <- _load_data filepath w;
  Ok (mkState filepath data w).

(** [_save_data]: the document goes to [filepath + '.tmp'], which then
    replaces [filepath]; any exception on the way -- of [open], of
    [json.dump], of [os.replace] -- becomes a [ValueError].  When [open]
    raises nothing is written; when [json.dump] raises, the side file holds
    what was written until then and [os.replace] is not reached. *)
Definition _save_data : M unit :=
  fun st =>
    let temp_filepath := filepath st ++ ".tmp" in
    match json_dump (PDict (components_data st)) with
    | Dumped text =>
        match write_file temp_filepath text (fs st) with
        | Some w1 =>
            match os_replace temp_filepath (filepath st) w1 with
            | Some w2 => (Ok tt, mkState (filepath st) (components_data st) w2)
            | None =>
                (Raise (ValueError (SaveFailed (filepath st))),
                 mkState (filepath st) (components_data st) w1)
            end
        | None => (Raise (ValueError (SaveFailed (filepath st))), st)
        end
    | DumpRaised written =>
        match write_file temp_filepath written (fs st) with
        | Some w1 =>
            (Raise (ValueError (SaveFailed (filepath st))),
             mkState (filepath st) (components_data st) w1)
        | None => (Raise (ValueError (SaveFailed (filepath st))), st)
        end
    end.

(** [get_component]: [None] for an unknown identifier. *)
Definition get_component (component_id : string) : M pyval :=
  reading (fun components_data =>
    match Dict.get component_id components_data with
    | Some data => Ok data
    | None => Ok PNone
    end).

Definition _validate_component_id (component_id : string) (is_new : bool) : M unit :=
  reading (fun components_data =>
    if String.eqb component_id "" then
      Raise (ValueError IdEmpty)
    else if negb (re_match_id component_id) then
      Raise (ValueError IdCharset)
    else if is_new && Dict.mem component_id components_data then
      Raise (ValueError (IdExists component_id))
    else if negb is_new && negb (Dict.mem component_id components_data) then
      Raise (ValueError (IdUnknown component_id))
    else Ok tt).

(** The [for] loop of [_validate_ui_port_uniqueness] over
    [self.components_data.items()]. *)
Fixpoint ui_port_loop (items : Dict.dict pyval) (new_ui_port : pyval)
    (component_id_being_edited : option string) : result unit :=
  match items with
  | [] => Ok tt
  | (comp_id, comp_data) :: rest =>
      if is_edited comp_id component_id_being_edited then
        ui_port_loop rest new_ui_port component_id_being_edited
      else
        do has_ui <- py_get comp_data "has_ui";
        if truthy has_ui then
          do ui_port <- py_get comp_data "ui_port";
          if py_eq ui_port new_ui_port then
            Raise (ValueError (PortInUse new_ui_port comp_id))
          else ui_port_loop rest new_ui_port component_id_being_edited
        else ui_port_loop rest new_ui_port component_id_being_edited
  end.

Definition _validate_ui_port_uniqueness (new_ui_port : pyval)
    (component_id_being_edited : option string) : M unit :=
  reading (fun components_data =>
    if is_none new_ui_port then Ok tt
    else ui_port_loop components_data new_ui_port component_id_being_edited).

(** The [for] loop of [_validate_single_reverse_proxy]. *)
Fixpoint reverse_proxy_loop (items : Dict.dict pyval)
    (component_id_being_edited : option string) : result unit :=
  match items with
  | [] => Ok tt
  | (comp_id, comp_data) :: rest =>
      if is_edited comp_id component_id_being_edited then
        reverse_proxy_loop rest component_id_being_edited
      else
        do is_reverse_proxy <- py_get comp_data "is_reverse_proxy";
        if truthy is_reverse_proxy then
          Raise (ValueError (ProxyTaken comp_id))
        else reverse_proxy_loop rest component_id_being_edited
  end.

Definition _validate_single_reverse_proxy (new_is_reverse_proxy_value : pyval)
    (component_id_being_edited : option string) : M unit :=
  reading (fun components_data =>
    if negb (truthy new_is_reverse_proxy_value) then Ok tt
    else reverse_proxy_loop components_data component_id_being_edited).

Definition _validate_dashy_tile_fields (component_data : pyval) : result unit :=
  do has_ui <- py_get component_data "has_ui";
  if truthy has_ui then
    do ui_port <- py_get component_data "ui_port";
    if is_none ui_port then
      Raise (ValueError PortRequired)
    else if negb (isinstance_int ui_port)
            || negb ((1 <=? int_value ui_port)%Z && (int_value ui_port <=? 65535)%Z) then
      Raise (ValueError PortRange)
    else
      do protocol <- py_get component_data "protocol";
      if negb (truthy protocol) then
        Raise (ValueError ProtocolRequired)
      else if negb (py_in protocol [PStr "http"; PStr "https"]) then
        Raise (ValueError ProtocolChoice)
      else
        do icon <- py_get component_data "icon";
        if negb (truthy icon) then
          Raise (ValueError IconRequired)
        else
          do dashy_tile_section <- py_get component_data "dashy_tile_section";
          if negb (truthy dashy_tile_section) then
            Raise (ValueError SectionRequired)
          else
            do dashy_tile_url_suffix <- py_get component_data "dashy_tile_url_suffix";
            if is_none dashy_tile_url_suffix then
              Raise (ValueError SuffixRequired)
            else Ok tt
  else Ok tt.

(** [temp_data], the copy of the store with the new record in it, is built
    and never read: the checks look at [self.components_data]. *)
Definition add_component (component_id : string) (data : pyval) : M unit :=
  _validate_component_id component_id true ;;
  temp_data <- reading (fun components_data =>
                 Ok (Dict.set component_id data components_data)) ;;
  has_ui <- lift (py_get data "has_ui") ;;
  (if truthy has_ui then
     ui_port <- lift (py_get data "ui_port") ;;
     _validate_ui_port_uniqueness ui_port None ;;
     lift (_validate_dashy_tile_fields data)
   else ret tt) ;;
  is_reverse_proxy <- lift (py_get data "is_reverse_proxy") ;;
  (if truthy is_reverse_proxy then
     _validate_single_reverse_proxy is_reverse_proxy None
   else ret tt) ;;
  name <- lift (py_get data "name") ;;
  (if negb (truthy name) then raise (ValueError NameRequired) else ret tt) ;;
  setitem component_id data ;;
  _save_data.

(** [update_component] replaces the record wholesale; its checks pass the
    identifier as [component_id_being_edited]. *)
Definition update_component (component_id : string) (data : pyval) : M unit :=
  _validate_component_id component_id false ;;
  has_ui <- lift (py_get data "has_ui") ;;
  (if truthy has_ui then
     ui_port <- lift (py_get data "ui_port") ;;
     _validate_ui_port_uniqueness ui_port (Some component_id) ;;
     lift (_validate_dashy_tile_fields data)
   else ret tt) ;;
  is_reverse_proxy <- lift (py_get data "is_reverse_proxy") ;;
  (if truthy is_reverse_proxy then
     _validate_single_reverse_proxy is_reverse_proxy (Some component_id)
   else ret tt) ;;
  name <- lift (py_get data "name") ;;
  (if negb (truthy name) then raise (ValueError NameRequired) else ret tt) ;;
  setitem component_id data ;;
  _save_data.

Definition delete_component (component_id : string) : M unit :=
  known <- reading (fun components_data => Ok (Dict.mem component_id components_data)) ;;
  (if negb known then raise (ValueError (DeleteUnknown component_id)) else ret tt) ;;
  delitem component_id ;;
  _save_data.

End Manager.

(** ** References

    [get_all_components] hands out an object, not a value.  A caller holds
    either the very dict bound to [self.components_data] or a dict of its own
    (what a [.copy()] would give), and can write through what it holds. *)

Inductive dictref : Type :=
| ManagerData                       (* the object [self.components_data] *)
| Detached (d : Dict.dict pyval)    (* a dict no attribute of the manager refers to *).

(** [get_all_components]: [return self.components_data]. *)
Definition get_all_components : M dictref := ret ManagerData.

(** The mapping a reference currently denotes. *)
Definition deref (r : dictref) : M (Dict.dict pyval) :=
  match r with
  | ManagerData => reading (fun components_data => Ok components_data)
  | Detached d => ret d
  end.

(** [r[key] = value], executed by the holder of [r]. *)
Definition ref_setitem (r : dictref) (key : string) (value : pyval) : M dictref :=
  match r with
  | ManagerData => setitem key value ;; ret ManagerData
  | Detached d => ret (Detached (Dict.set key value d))
  end.

(** ** The checks as functions of the store

    The validation steps of [add_component] and [update_component], which
    only read [self.components_data], written as one function of it. *)

Definition id_checks (component_id : string) (is_new : bool)
    (components_data : Dict.dict pyval) : result unit :=
  if String.eqb component_id "" then Raise (ValueError IdEmpty)
  else if negb (re_match_id component_id) then Raise (ValueError IdCharset)
  else if is_new && Dict.mem component_id components_data then
    Raise (ValueError (IdExists component_id))
  else if negb is_new && negb (Dict.mem component_id components_data) then
    Raise (ValueError (IdUnknown component_id))
  else Ok tt.

Section Checks.
Context {json : JsonLib}.

Definition record_checks (data : pyval) (component_id_being_edited : option string)
    (components_data : Dict.dict pyval) : result unit :=
  do has_ui <- py_get data "has_ui";
  do _ <- (if truthy has_ui then
             do ui_port <- py_get data "ui_port";
             do _ <- (if is_none ui_port then Ok tt
                      else ui_port_loop components_data ui_port component_id_being_edited);
             _validate_dashy_tile_fields data
           else Ok tt);
  do is_reverse_proxy <- py_get data "is_reverse_proxy";
  do _ <- (if truthy is_reverse_proxy then
             reverse_proxy_loop components_data component_id_being_edited
           else Ok tt);
  do name <- py_get data "name";
  if negb (truthy name) then Raise (ValueError NameRequired) else Ok tt.

Definition add_checks (component_id : string) (data : pyval)
    (components_data : Dict.dict pyval) : result unit :=
  do _ <- id_checks component_id true components_data;
  record_checks data None components_data.

Definition update_checks (component_id : string) (data : pyval)
    (components_data : Dict.dict pyval) : result unit :=
  do _ <- id_checks component_id false components_data;
  record_checks data (Some component_id) components_data.

Definition delete_checks (component_id : string)
    (components_data : Dict.dict pyval) : result unit :=
  if negb (Dict.mem component_id components_data)
  then Raise (ValueError (DeleteUnknown component_id))
  else Ok tt.

(** The state after the assignment or [del] that follows the checks. *)
Definition with_data (st : state) (d : Dict.dict pyval) : state :=
  mkState (filepath st) d (fs st).

(** The three mutating calls of the API. *)
Inductive call : Type :=
| Create (component_id : string) (data : pyval)
| Update (component_id : string) (data : pyval)
| Delete (component_id : string).

Definition run (c : call) : M unit :=
  match c with
  | Create component_id data => add_component component_id data
  | Update component_id data => update_component component_id data
  | Delete component_id => delete_component component_id
  end.

(** The states a manager goes through when it starts with an empty store. *)
Inductive reachable : state -> Prop :=
| reach_empty : forall path w, reachable (mkState path [] w)
| reach_call : forall st c r st',
    reachable st -> run c st = (r, st') -> reachable st'.
End Checks.

(** ** The invariants of the data model *)

(** A field of a record as [.get] reads it. *)
Definition field (key : string) (record : pyval) : pyval :=
  match py_get record key with
  | Ok v => v
  | Raise _ => PNone
  end.

Definition is_dict (v : pyval) : bool :=
  match v with PDict _ => true | _ => false end.

Definition has_ui (record : pyval) : bool := truthy (field "has_ui" record).

Definition is_reverse_proxy (record : pyval) : bool :=
  truthy (field "is_reverse_proxy" record).

(** Every character is a lowercase letter, a digit or a hyphen. *)
Definition all_id_chars (s : string) : bool :=
  forallb id_char (list_ascii_of_string s).

(** The constraints of the UI group, field by field. *)
Definition port_ok (v : pyval) : Prop :=
  isinstance_int v = true /\ (1 <= int_value v <= 65535)%Z.

Definition protocol_ok (v : pyval) : Prop := v = PStr "http" \/ v = PStr "https".

Record ui_group_ok (record : pyval) : Prop := {
  ui_port_ok : port_ok (field "ui_port" record);
  ui_protocol_ok : protocol_ok (field "protocol" record);
  ui_icon_ok : truthy (field "icon" record) = true;
  ui_section_ok : truthy (field "dashy_tile_section" record) = true;
  ui_suffix_ok : field "dashy_tile_url_suffix" record <> PNone
}.

Section Invariants.
Variable d : Dict.dict pyval.

(** Every value of the store is a record. *)
Definition records_only : Prop :=
  forall i r, In (i, r) d -> is_dict r = true.

(** I1 as the data model words it. *)
Definition I1 : Prop :=
  Dict.uniq d /\
  forall i, In i (Dict.keys d) -> i <> "" /\ all_id_chars i = true.

(** I1 with the identifier rule as [_validate_component_id] tests it. *)
Definition I1_matched : Prop :=
  Dict.uniq d /\ forall i, In i (Dict.keys d) -> re_match_id i = true.

Definition I2 : Prop :=
  forall i j ri rj, In (i, ri) d -> In (j, rj) d -> i <> j ->
    has_ui ri = true -> has_ui rj = true ->
    py_eq (field "ui_port" ri) (field "ui_port" rj) = false.

Definition I3 : Prop :=
  forall i j ri rj, In (i, ri) d -> In (j, rj) d ->
    is_reverse_proxy ri = true -> is_reverse_proxy rj = true -> i = j.

Definition I4 : Prop :=
  forall i r, In (i, r) d -> has_ui r = true -> ui_group_ok r.

Definition I5 : Prop :=
  forall i r, In (i, r) d -> truthy (field "name" r) = true.

(** What every reachable store satisfies. *)
Record store_ok : Prop := {
  ok_records : records_only;
  ok_ids : I1_matched;
  ok_ports : I2;
  ok_proxy : I3;
  ok_ui : I4;
  ok_name : I5
}.
End Invariants.

(** ** Python's [json] module

    [json.dump(obj, f, indent=2)] and [json.load(f)] on the values above, with
    the defaults the manager leaves in place ([ensure_ascii=True], strict
    strings).  A character is a code point below 256; a document holding a
    float, or an escape for a code point from 256 on, decodes to nothing in
    this universe and is reported as undecodable.  The dump raises on an
    integer of more than 4300 digits, the interpreter's default limit, and
    leaves in the file the chunks written until then.  The interpreter's
    recursion limit, which depends on the stack at the moment of the call, is
    not part of this instance: it is the library on values nested less deep
    than that. *)

Module PyJson.

Definition dquote : ascii := ascii_of_nat 34.
Definition backslash : ascii := ascii_of_nat 92.

(** *** Encoding *)

Definition hex_digit (n : nat) : ascii :=
  if (n <? 10)%nat then ascii_of_nat (48 + n) else ascii_of_nat (87 + n).

(** [ESCAPE_ASCII]: the quote, the backslash and everything outside
    [' '..'~'] are escaped. *)
Definition escape_char (c : ascii) : string :=
  let n := nat_of_ascii c in
  if (n =? 34)%nat then String backslash (String dquote "")
  else if (n =? 92)%nat then String backslash (String backslash "")
  else if (n =? 10)%nat then String backslash "n"
  else if (n =? 13)%nat then String backslash "r"
  else if (n =? 9)%nat then String backslash "t"
  else if (n =? 8)%nat then String backslash "b"
  else if (n =? 12)%nat then String backslash "f"
  else if (n <? 32)%nat || (126 <? n)%nat then
    String backslash
      ("u00" ++ String (hex_digit (n / 16)) (String (hex_digit (n mod 16)) ""))
  else String c "".

Fixpoint escape (s : string) : string :=
  match s with
  | EmptyString => ""
  | String c rest => escape_char c ++ escape rest
  end.

Definition dump_str (s : string) : string :=
  String dquote (escape s ++ String dquote "").

Fixpoint spaces (n : nat) : string :=
  match n with
  | O => ""
  | S n' => String " " (spaces n')
  end.

(** The newline and indentation written before an item at depth [level]. *)
Definition nl (level : nat) : string := String newline (spaces (2 * level)).

Definition dump_int (n : Z) : string :=
  DecimalString.NilZero.string_of_int (Z.to_int n).

(** The items after the first one, each behind its separator, and the
    closing bracket. *)
Definition joined {A : Type} (item : A -> string) (sep close : string) : list A -> string :=
  fix more (xs : list A) : string :=
    match xs with
    | [] => close
    | y :: ys => sep ++ item y ++ more ys
    end.

Fixpoint dump (level : nat) (v : pyval) : string :=
  match v with
  | PNone => "null"
  | PBool true => "true"
  | PBool false => "false"
  | PInt n => dump_int n
  | PStr s => dump_str s
  | PList [] => "[]"
  | PList (x :: xs) =>
      "[" ++ nl (S level) ++ dump (S level) x ++
      joined (dump (S level)) ("," ++ nl (S level)) (nl level ++ "]") xs
  | PDict [] => "{}"
  | PDict ((k, x) :: xs) =>
      "{" ++ nl (S level) ++ dump_str k ++ ": " ++ dump (S level) x ++
      joined (fun kv => dump_str (fst kv) ++ ": " ++ dump (S level) (snd kv))
             ("," ++ nl (S level)) (nl level ++ "}") xs
  end.

(** [int.__repr__] raises on an integer of more than 4300 digits, the
    interpreter's default limit. *)
Definition int_too_long (n : Z) : bool :=
  (4300 <? Z.of_nat (String.length (dump_int (Z.abs n))))%Z.

Definition is_container (v : pyval) : bool :=
  match v with PList _ | PDict _ => true | _ => false end.

(** What has been written when the encoder raises on an integer that is too
    long, [None] when it does not raise.  The encoder writes chunk by chunk:
    a dict writes the key and the colon before it turns to the value; a list
    writes the bracket or the separator together with a scalar item, and
    ahead of an item that is a list or a dict. *)
Fixpoint stops (level : nat) (v : pyval) : option string :=
  match v with
  | PInt n => if int_too_long n then Some "" else None
  | PList items =>
      (fix more (buf : string) (xs : list pyval) : option string :=
         match xs with
         | [] => None
         | x :: rest =>
             match stops (S level) x with
             | Some written => Some (if is_container x then buf ++ written else "")
             | None =>
                 match more ("," ++ nl (S level)) rest with
                 | Some written => Some (buf ++ dump (S level) x ++ written)
                 | None => None
                 end
             end
         end) ("[" ++ nl (S level)) items
  | PDict items =>
      (fix more (buf : string) (xs : list (string * pyval)) : option string :=
         match xs with
         | [] => None
         | (k, x) :: rest =>
             match stops (S level) x with
             | Some written => Some (buf ++ dump_str k ++ ": " ++ written)
             | None =>
                 match more ("," ++ nl (S level)) rest with
                 | Some written =>
                     Some (buf ++ dump_str k ++ ": " ++ dump (S level) x ++ written)
                 | None => None
                 end
             end
         end) ("{" ++ nl (S level)) items
  | _ => None
  end.

(** [json.dump(v, f, indent=2)] *)
Definition dump_to_file (v : pyval) : dumped :=
  match stops 0 v with
  | Some written => DumpRaised written
  | None => Dumped (dump 0 v)
  end.

(** *** Decoding *)

Definition is_ws (c : ascii) : bool :=
  let n := nat_of_ascii c in
  ((n =? 32) || (n =? 9) || (n =? 10) || (n =? 13))%nat.

Fixpoint skip_ws (s : string) : string :=
  match s with
  | String c rest => if is_ws c then skip_ws rest else s
  | EmptyString => s
  end.

Definition is_digit (c : ascii) : bool :=
  let n := nat_of_ascii c in ((48 <=? n) && (n <=? 57))%nat.

Fixpoint span_digits (s : string) : string * string :=
  match s with
  | String c rest =>
      if is_digit c
      then let (ds, tail) := span_digits rest in (String c ds, tail)
      else ("", s)
  | EmptyString => ("", "")
  end.

(** A fraction [\.\d+] or an exponent [[eE][-+]?\d+] follows the integer
    part: the number is a float. *)
Definition starts_float (rest : string) : bool :=
  match rest with
  | String a (String b tail) =>
      if Ascii.eqb a "." then is_digit b
      else if Ascii.eqb a "e" || Ascii.eqb a "E" then
        if Ascii.eqb b "+" || Ascii.eqb b "-" then
          match tail with
          | String c _ => is_digit c
          | EmptyString => false
          end
        else is_digit b
      else false
  | _ => false
  end.

(** The integer part [0|[1-9]\d*]. *)
Definition parse_int_part (s : string) : option (Z * string) :=
  match s with
  | String c rest =>
      if Ascii.eqb c "0" then Some (0%Z, rest)
      else if is_digit c then
        let (ds, tail) := span_digits s in
        match DecimalString.NilEmpty.uint_of_string ds with
        | Some u => Some (Z.of_uint u, tail)
        | None => None
        end
      else None
  | EmptyString => None
  end.

Definition parse_number (s : string) : option (pyval * string) :=
  let (negative, body) :=
    match s with
    | String c rest => if Ascii.eqb c "-" then (true, rest) else (false, s)
    | EmptyString => (false, s)
    end in
  match parse_int_part body with
  | Some (n, rest) =>
      if starts_float rest then None
      else Some (PInt (if negative then (- n)%Z else n), rest)
  | None => None
  end.

Definition hex_value (c : ascii) : option nat :=
  let n := nat_of_ascii c in
  if ((48 <=? n) && (n <=? 57))%nat then Some (n - 48)
  else if ((97 <=? n) && (n <=? 102))%nat then Some (n - 87)
  else if ((65 <=? n) && (n <=? 70))%nat then Some (n - 55)
  else None.

Definition hex4 (a b c d : ascii) : option nat :=
  match hex_value a, hex_value b, hex_value c, hex_value d with
  | Some x, Some y, Some z, Some t => Some (((x * 16 + y) * 16 + z) * 16 + t)
  | _, _, _, _ => None
  end.

(** The character a one-letter escape stands for. *)
Definition unescape (e : ascii) : option ascii :=
  if Ascii.eqb e dquote then Some dquote
  else if Ascii.eqb e backslash then Some backslash
  else if Ascii.eqb e "/" then Some "/"%char
  else if Ascii.eqb e "b" then Some (ascii_of_nat 8)
  else if Ascii.eqb e "f" then Some (ascii_of_nat 12)
  else if Ascii.eqb e "n" then Some (ascii_of_nat 10)
  else if Ascii.eqb e "r" then Some (ascii_of_nat 13)
  else if Ascii.eqb e "t" then Some (ascii_of_nat 9)
  else None.

Definition prepend (c : ascii) (r : option (string * string)) : option (string * string) :=
  match r with
  | Some (s, rest) => Some (String c s, rest)
  | None => None
  end.

(** [scanstring], from the character after the opening quote. *)
Fixpoint parse_string_body (s : string) : option (string * string) :=
  match s with
  | EmptyString => None
  | String c rest =>
      if Ascii.eqb c dquote then Some ("", rest)
      else if Ascii.eqb c backslash then
        match rest with
        | String e rest1 =>
            if Ascii.eqb e "u" then
              match rest1 with
              | String h1 (String h2 (String h3 (String h4 rest2))) =>
                  match hex4 h1 h2 h3 h4 with
                  | Some n =>
                      if (n <? 256)%nat
                      then prepend (ascii_of_nat n) (parse_string_body rest2)
                      else None
                  | None => None
                  end
              | _ => None
              end
            else
              match unescape e with
              | Some ch => prepend ch (parse_string_body rest1)
              | None => None
              end
        | EmptyString => None
        end
      else if (nat_of_ascii c <? 32)%nat then None
      else prepend c (parse_string_body rest)
  end.

(** The rest of [s] after the literal [word], when [s] starts with it. *)
Fixpoint expect (word : string) (s : string) : option string :=
  match word with
  | EmptyString => Some s
  | String c word' =>
      match s with
      | String c' s' => if Ascii.eqb c c' then expect word' s' else None
      | EmptyString => None
      end
  end.

(** [scan_once] at a position already past the white space, and the loops
    of [JSONArray] and [JSONObject] after their opening bracket.  [fuel]
    bounds the nesting and the number of items: every unit of it is spent on
    at least one character of the text. *)
Fixpoint parse_value (fuel : nat) (s : string) : option (pyval * string) :=
  match fuel with
  | O => None
  | S fuel' =>
      match s with
      | EmptyString => None
      | String c rest =>
          if Ascii.eqb c dquote then
            match parse_string_body rest with
            | Some (str, tail) => Some (PStr str, tail)
            | None => None
            end
          else if Ascii.eqb c "{" then
            match skip_ws rest with
            | String c1 rest1 =>
                if Ascii.eqb c1 "}" then Some (PDict [], rest1)
                else if Ascii.eqb c1 dquote then
                  match parse_members fuel' rest1 with
                  | Some (pairs, tail) =>
                      Some (PDict (fold_left (fun d kv => Dict.set (fst kv) (snd kv) d)
                                             pairs []), tail)
                  | None => None
                  end
                else None
            | EmptyString => None
            end
          else if Ascii.eqb c "[" then
            match skip_ws rest with
            | String c1 rest1 =>
                if Ascii.eqb c1 "]" then Some (PList [], rest1)
                else
                  match parse_elements fuel' (String c1 rest1) with
                  | Some (items, tail) => Some (PList items, tail)
                  | None => None
                  end
            | EmptyString => None
            end
          else if Ascii.eqb c "n" then
            match expect "ull" rest with
            | Some tail => Some (PNone, tail)
            | None => None
            end
          else if Ascii.eqb c "t" then
            match expect "rue" rest with
            | Some tail => Some (PBool true, tail)
            | None => None
            end
          else if Ascii.eqb c "f" then
            match expect "alse" rest with
            | Some tail => Some (PBool false, tail)
            | None => None
            end
          else parse_number s
      end
  end
(** From the first item of a non-empty array to its closing bracket. *)
with parse_elements (fuel : nat) (s : string) : option (list pyval * string) :=
  match fuel with
  | O => None
  | S fuel' =>
      match parse_value fuel' s with
      | Some (v, tail) =>
          match skip_ws tail with
          | String c rest =>
              if Ascii.eqb c "]" then Some ([v], rest)
              else if Ascii.eqb c "," then
                match parse_elements fuel' (skip_ws rest) with
                | Some (vs, tail') => Some (v :: vs, tail')
                | None => None
                end
              else None
          | EmptyString => None
          end
      | None => None
      end
  end
(** From the character after the opening quote of a key to the closing
    brace of the object. *)
with parse_members (fuel : nat) (s : string) : option (list (string * pyval) * string) :=
  match fuel with
  | O => None
  | S fuel' =>
      match parse_string_body s with
      | Some (key, tail) =>
          match skip_ws tail with
          | String c rest =>
              if Ascii.eqb c ":" then
                match parse_value fuel' (skip_ws rest) with
                | Some (v, tail1) =>
                    match skip_ws tail1 with
                    | String c1 rest1 =>
                        if Ascii.eqb c1 "}" then Some ([(key, v)], rest1)
                        else if Ascii.eqb c1 "," then
                          match skip_ws rest1 with
                          | String c2 rest2 =>
                              if Ascii.eqb c2 dquote then
                                match parse_members fuel' rest2 with
                                | Some (kvs, tail2) => Some ((key, v) :: kvs, tail2)
                                | None => None
                                end
                              else None
                          | EmptyString => None
                          end
                        else None
                    | EmptyString => None
                    end
                | None => None
                end
              else None
          | EmptyString => None
          end
      | None => None
      end
  end.

(** [JSONDecoder.decode]: white space, one value, white space, end. *)
Definition load (text : string) : option pyval :=
  match parse_value (S (String.length text)) (skip_ws text) with
  | Some (v, tail) =>
      match skip_ws tail with
      | EmptyString => Some v
      | String _ _ => None
      end
  | None => None
  end.

(** The text ends here as far as a number is concerned: no digit, fraction
    or exponent can follow. *)
Definition delimited (rest : string) : bool :=
  match rest with
  | EmptyString => true
  | String c _ => Ascii.eqb c "," || Ascii.eqb c newline
  end.

(** The fuel decoding a value takes. *)
Fixpoint size (v : pyval) : nat :=
  match v with
  | PList l => S (fold_right (fun x acc => S (size x) + acc) 0 l)
  | PDict d => S (fold_right (fun kv acc => S (size (snd kv)) + acc) 0 d)
  | _ => 1
  end.

End PyJson.

#[export] Instance py_json : JsonLib := {
  json_dump := PyJson.dump_to_file;
  json_load := PyJson.load
}.

(** ** What the checks establish *)

(** No record other than the one being edited shows a web interface on [port]. *)
Definition no_port_clash (d : Dict.dict pyval) (port : pyval) (edited : option string) : Prop :=
  forall k v, In (k, v) d -> is_edited k edited = false ->
    is_dict v = true /\ (has_ui v = true -> py_eq (field "ui_port" v) port = false).

(** No record other than the one being edited is a reverse proxy. *)
Definition no_other_proxy (d : Dict.dict pyval) (edited : option string) : Prop :=
  forall k v, In (k, v) d -> is_edited k edited = false ->
    is_dict v = true /\ is_reverse_proxy v = false.

(** A record that passes every check made on the record itself and against
    the other records. *)
Record accepted (data : pyval) (edited : option string) (d : Dict.dict pyval) : Prop := {
  acc_dict : is_dict data = true;
  acc_ui : has_ui data = true ->
           no_port_clash d (field "ui_port" data) edited /\ ui_group_ok data;
  acc_proxy : is_reverse_proxy data = true -> no_other_proxy d edited;
  acc_name : truthy (field "name" data) = true
}.

(** The field of the UI group an error message is about. *)
Definition message_field (m : message) : option string :=
  match m with
  | PortRequired | PortRange => Some "ui_port"
  | ProtocolRequired | ProtocolChoice => Some "protocol"
  | IconRequired => Some "icon"
  | SectionRequired => Some "dashy_tile_section"
  | SuffixRequired => Some "dashy_tile_url_suffix"
  | _ => None
  end.

(** The messages of the checks on the record, as against those on the
    identifier, the file and the save. *)
Definition about_record (m : message) : bool :=
  match m with
  | PortInUse _ _ | ProxyTaken _
  | PortRequired | PortRange | ProtocolRequired | ProtocolChoice
  | IconRequired | SectionRequired | SuffixRequired | NameRequired => true
  | _ => false
  end.

(** A field of the UI group that breaks its constraint in the data model. *)
Inductive violates (data : pyval) : string -> Prop :=
| violates_port : ~ port_ok (field "ui_port" data) -> violates data "ui_port"
| violates_protocol : ~ protocol_ok (field "protocol" data) -> violates data "protocol"
| violates_icon : truthy (field "icon" data) = false -> violates data "icon"
| violates_section :
    truthy (field "dashy_tile_section" data) = false -> violates data "dashy_tile_section"
| violates_suffix :
    field "dashy_tile_url_suffix" data = PNone -> violates data "dashy_tile_url_suffix".

(** The faults of a record with a web interface: a required field is
    missing, the protocol is not one of the two, the port is not an integer
    of the range. *)
Inductive ui_fault (data : pyval) : Prop :=
| fault_port_missing : field "ui_port" data = PNone -> ui_fault data
| fault_protocol_missing : field "protocol" data = PNone -> ui_fault data
| fault_icon_missing : field "icon" data = PNone -> ui_fault data
| fault_section_missing : field "dashy_tile_section" data = PNone -> ui_fault data
| fault_suffix_absent : field "dashy_tile_url_suffix" data = PNone -> ui_fault data
| fault_protocol_choice : ~ protocol_ok (field "protocol" data) -> ui_fault data
| fault_port_range : ~ port_ok (field "ui_port" data) -> ui_fault data.

(** ** Calls *)

Section Calls.
Context {json : JsonLib}.

(** The checks a call makes before it changes anything. *)
Definition checks_of (c : call) (d : Dict.dict pyval) : result unit :=
  match c with
  | Create component_id data => add_checks component_id data d
  | Update component_id data => update_checks component_id data d
  | Delete component_id => delete_checks component_id d
  end.

(** The identifier a call is about. *)
Definition target (c : call) : string :=
  match c with
  | Create component_id _ | Update component_id _ | Delete component_id => component_id
  end.

(** The record handed to a call is a record. *)
Definition record_call (c : call) : Prop :=
  match c with
  | Create _ data | Update _ data => is_dict data = true
  | Delete _ => True
  end.
End Calls.

(** Both paths [_save_data] writes to accept the write. *)
Definition can_persist (st : state) : Prop :=
  writable (filepath st ++ ".tmp") (fs st) = true /\
  writable (filepath st) (fs st) = true.

(** ** Persisting and loading again *)

Fixpoint distinct (l : list string) : bool :=
  match l with
  | [] => true
  | x :: rest => negb (existsb (String.eqb x) rest) && distinct rest
  end.

(** The keys of every dict inside a value are distinct, as they are in every
    Python dict. *)
Fixpoint well_keyed (v : pyval) : bool :=
  match v with
  | PList l => forallb well_keyed l
  | PDict d => distinct (Dict.keys d) && forallb (fun kv => well_keyed (snd kv)) d
  | _ => true
  end.

(** What [json.load] owes [json.dump]: the text written for a value, when
    the dump returned, decodes to that value. *)
Class JsonRoundTrip (json : JsonLib) : Prop :=
  load_dump : forall v text,
    well_keyed v = true -> json_dump v = Dumped text -> json_load text = Some v.

(** What the round trip asks of one value: printed at any depth and followed
    by a delimiter, it is scanned back, and the scan stops at the delimiter. *)
Definition decodes (v : pyval) : Prop :=
  well_keyed v = true ->
  forall level rest fuel,
    PyJson.delimited rest = true -> PyJson.size v <= fuel ->
    PyJson.parse_value fuel (PyJson.dump level v ++ rest) = Some (v, rest).

(** ** Sample managers and records *)

(** A manager that found no file at its path. *)
Definition empty_manager : state :=
  mkState "components_metadata.json" [] (mkFs [] []).

Definition nginx : pyval :=
  PDict [("name", PStr "Nginx"); ("has_ui", PBool true); ("ui_port", PInt 80);
         ("protocol", PStr "http"); ("icon", PStr "nginx.png");
         ("dashy_tile_section", PStr "Infra"); ("dashy_tile_url_suffix", PStr "");
         ("is_reverse_proxy", PBool true)].

(** [nginx] renamed, port and proxy flag kept. *)
Definition nginx_renamed : pyval :=
  PDict [("name", PStr "Nginx proxy"); ("has_ui", PBool true); ("ui_port", PInt 80);
         ("protocol", PStr "http"); ("icon", PStr "nginx.png");
         ("dashy_tile_section", PStr "Infra"); ("dashy_tile_url_suffix", PStr "");
         ("is_reverse_proxy", PBool true)].

(** A record without a web interface that still carries a port. *)
Definition backup : pyval :=
  PDict [("name", PStr "Backup"); ("has_ui", PBool false); ("ui_port", PInt 8080)].

Definition grafana : pyval :=
  PDict [("name", PStr "Grafana"); ("has_ui", PBool true); ("ui_port", PInt 8080);
         ("protocol", PStr "https"); ("icon", PStr "grafana.png");
         ("dashy_tile_section", PStr "Monitoring"); ("dashy_tile_url_suffix", PStr "/login")].

(** [grafana] listening on another port. *)
Definition grafana_on (port : pyval) : pyval :=
  PDict [("name", PStr "Grafana"); ("has_ui", PBool true); ("ui_port", port);
         ("protocol", PStr "https"); ("icon", PStr "grafana.png");
         ("dashy_tile_section", PStr "Monitoring"); ("dashy_tile_url_suffix", PStr "/login")].

(** [grafana] without its protocol. *)
Definition grafana_no_protocol : pyval :=
  PDict [("name", PStr "Grafana"); ("has_ui", PBool true); ("ui_port", PInt 8080);
         ("icon", PStr "grafana.png");
         ("dashy_tile_section", PStr "Monitoring"); ("dashy_tile_url_suffix", PStr "/login")].

Definition plain : pyval := PDict [("name", PStr "Svc")].

(** A manager holding [nginx] and [backup]. *)
Definition sample_manager : state :=
  mkState "components_metadata.json" [("nginx", nginx); ("backup", backup)] (mkFs [] []).

(** ["svc"] followed by a newline. *)
Definition svc_newline : string := "svc" ++ String newline "".

(** ** The store a call commits *)

Section Commit.
Context {json : JsonLib}.

(** What [self.components_data] is after the assignment or the [del] of a
    call whose checks passed. *)
Definition committed (c : call) (d : Dict.dict pyval) : Dict.dict pyval :=
  match c with
  | Create component_id data | Update component_id data => Dict.set component_id data d
  | Delete component_id => Dict.del component_id d
  end.

(** The state after a series of calls, each one made whatever the one before
    it returned or raised. *)
Fixpoint run_all (cs : list call) (st : state) : state :=
  match cs with
  | [] => st
  | c :: rest => run_all rest (snd (run c st))
  end.
End Commit.

(** ** The web application ([app.py])

    The three routes that change the store, the index page and the start of
    the process.  A request is its method and its form; [flash] appends to the
    flashed messages; a response is the redirect or the template with the
    values handed to it.  An exception that leaves a view function is a
    crash: Flask answers it with status 500. *)

(** [int(text)] as the views call it on a form value, [None] standing for its
    [ValueError]. *)
Class IntLib : Type := {
  py_int : string -> option Z
}.

Definition COMPONENTS_METADATA_FILE : string := "components_metadata.json".

Inductive http_method : Type := GET | POST.

Record request : Type := mkRequest {
  method : http_method;
  form : Dict.dict string
}.

(** [request.form.get(key)] as a Python value. *)
Definition form_get (key : string) (form : Dict.dict string) : pyval :=
  match Dict.get key form with
  | Some text => PStr text
  | None => PNone
  end.

(** The text of a flashed message; the comment at each constructor is the
    Python f-string. *)
Inductive flash_text : Type :=
| Added (component_id : pyval)
    (* f"Component '{component_id}' successfully added." *)
| AddFailed (e : message)
    (* f"Error adding component: {e}" *)
| NotFound (component_id : string)
    (* f"Component '{component_id}' not found." *)
| Updated (component_id : string)
    (* f"Component '{component_id}' successfully updated." *)
| UpdateFailed (e : message)
    (* f"Error updating component: {e}" *)
| Deleted (component_id : string)
    (* f"Component '{component_id}' successfully deleted." *)
| DeleteFailed (e : message)
    (* f"Error deleting component: {e}" *).

Record flashed : Type := mkFlash {
  flash_message : flash_text;
  flash_category : string
}.

Inductive response : Type :=
| Redirect (endpoint : string)
    (* redirect(url_for(endpoint)) *)
| RenderIndex (components : dictref)
    (* render_template('index.html', components=components) *)
| RenderForm (component : pyval) (component_id : pyval) (mode : string)
    (* render_template('component_form.html', component=..., component_id=...,
                       mode=..., manager=manager) *).

(** What leaves a view function instead of a response. *)
Inductive crash : Type :=
| ManagerRaised (e : exn)          (* an exception of the manager no [except] catches *)
| IntRaised (literal : string)     (* the [ValueError] of [int(literal)] *)
| OSRaised (path : string)         (* the [OSError] of [open(path, 'w')] *)
| JsonRaised (path : string)       (* an exception of [json.dump] into [path] *).

Inductive outcome : Type :=
| Responded (r : response)
| Crashed (c : crash).

(** The module-level [manager] and the messages flashed so far, oldest first. *)
Record app : Type := mkApp {
  manager : state;
  flashes : list flashed
}.

Definition flash (text : flash_text) (category : string) (a : app) : app :=
  mkApp (manager a) (flashes a ++ [mkFlash text category]).

(** The record a view builds from the form, or the literal [int] refused. *)
Inductive built : Type :=
| Built (component_data : pyval)
| BadInt (literal : string).

(** The identifier as the manager's checks see it: [None] is as empty as the
    empty string for [not component_id], the first of them. *)
Definition id_arg (component_id : pyval) : string :=
  match component_id with
  | PStr text => text
  | _ => ""
  end.

Section Views.
Context {json : JsonLib} {ints : IntLib}.

(** The dict literal of [add_component] and [edit_component], the fields of
    the UI group assigned after it when [has_ui] is ticked, and the [pop]s of
    absent keys when it is not. *)
Definition form_component_data (form : Dict.dict string) : built :=
  let component_data :=
    [("name", form_get "name" form);
     ("description", form_get "description" form);
     ("default_selected", PBool (Dict.mem "default_selected" form));
     ("has_ui", PBool (Dict.mem "has_ui" form));
     ("is_reverse_proxy", PBool (Dict.mem "is_reverse_proxy" form))] in
  if Dict.mem "has_ui" form then
    let rest (ui_port : pyval) :=
      Built (PDict
        (Dict.set "status_check" (PBool (Dict.mem "status_check" form))
        (Dict.set "dashy_tile_url_suffix" (form_get "dashy_tile_url_suffix" form)
        (Dict.set "dashy_tile_section" (form_get "dashy_tile_section" form)
        (Dict.set "icon" (form_get "icon" form)
        (Dict.set "protocol" (form_get "protocol" form)
        (Dict.set "ui_port" ui_port component_data))))))) in
    match Dict.get "ui_port" form with
    | Some literal =>
        if truthy (PStr literal) then
          match py_int literal with
          | Some n => rest (PInt n)
          | None => BadInt literal
          end
        else rest PNone
    | None => rest PNone
    end
  else
    Built (PDict
      (Dict.del "status_check"
      (Dict.del "dashy_tile_url_suffix"
      (Dict.del "dashy_tile_section"
      (Dict.del "icon"
      (Dict.del "protocol"
      (Dict.del "ui_port" component_data))))))).

(** [index] *)
Definition index (a : app) : outcome * app :=
  match get_all_components (manager a) with
  | (Ok components, m) => (Responded (RenderIndex components), mkApp m (flashes a))
  | (Raise e, m) => (Crashed (ManagerRaised e), mkApp m (flashes a))
  end.

(** [add_component], the view of [/add]. *)
Definition add_view (req : request) (a : app) : outcome * app :=
  match method req with
  | POST =>
      let component_id := form_get "component_id" (form req) in
      match form_component_data (form req) with
      | BadInt literal => (Crashed (IntRaised literal), a)
      | Built component_data =>
          match add_component (id_arg component_id) component_data (manager a) with
          | (Ok _, m) =>
              (Responded (Redirect "index"),
               flash (Added component_id) "success" (mkApp m (flashes a)))
          | (Raise (ValueError e), m) =>
              (Responded (RenderForm component_data component_id "add"),
               flash (AddFailed e) "danger" (mkApp m (flashes a)))
          | (Raise e, m) => (Crashed (ManagerRaised e), mkApp m (flashes a))
          end
      end
  | GET => (Responded (RenderForm (PDict []) PNone "add"), a)
  end.

(** [edit_component], the view of [/edit/<component_id>]. *)
Definition edit_view (component_id : string) (req : request) (a : app) : outcome * app :=
  match get_component component_id (manager a) with
  | (Raise e, m) => (Crashed (ManagerRaised e), mkApp m (flashes a))
  | (Ok component, m) =>
      if negb (truthy component) then
        (Responded (Redirect "index"),
         flash (NotFound component_id) "danger" (mkApp m (flashes a)))
      else
        match method req with
        | POST =>
            match form_component_data (form req) with
            | BadInt literal => (Crashed (IntRaised literal), mkApp m (flashes a))
            | Built updated_data =>
                match update_component component_id updated_data m with
                | (Ok _, m') =>
                    (Responded (Redirect "index"),
                     flash (Updated component_id) "success" (mkApp m' (flashes a)))
                | (Raise (ValueError e), m') =>
                    (Responded (RenderForm updated_data (PStr component_id) "edit"),
                     flash (UpdateFailed e) "danger" (mkApp m' (flashes a)))
                | (Raise e, m') => (Crashed (ManagerRaised e), mkApp m' (flashes a))
                end
            end
        | GET =>
            (Responded (RenderForm component (PStr component_id) "edit"),
             mkApp m (flashes a))
        end
  end.

(** [delete_component], the view of [/delete/<component_id>], for GET and
    POST alike. *)
Definition delete_view (component_id : string) (a : app) : outcome * app :=
  match delete_component component_id (manager a) with
  | (Ok _, m) =>
      (Responded (Redirect "index"),
       flash (Deleted component_id) "success" (mkApp m (flashes a)))
  | (Raise (ValueError e), m) =>
      (Responded (Redirect "index"),
       flash (DeleteFailed e) "danger" (mkApp m (flashes a)))
  | (Raise e, m) => (Crashed (ManagerRaised e), mkApp m (flashes a))
  end.

(** How the process starts. *)
Inductive boot : Type :=
| Serving (a : app)          (* [app.run] is reached *)
| Exited (status : nat)      (* [sys.exit(status)] *)
| Aborted (c : crash)        (* an exception no handler catches *).

(** The module body, run on import: the manager is constructed, and any
    exception of that ends the process with status 1. *)
Definition module_body (w : filesystem) : result app :=
  match __init__ COMPONENTS_METADATA_FILE w with
  | Ok m => Ok (mkApp m [])
  | Raise e => Raise e
  end.

(** The module body followed by the [__main__] block, which writes an empty
    document when there is none before it serves. *)
Definition start (w : filesystem) : boot :=
  match module_body w with
  | Raise _ => Exited 1
  | Ok a =>
      if negb (Dict.mem COMPONENTS_METADATA_FILE (files (fs (manager a)))) then
        match json_dump (PDict []) with
        | Dumped text =>
            match write_file COMPONENTS_METADATA_FILE text (fs (manager a)) with
            | Some w' =>
                Serving (mkApp (mkState (filepath (manager a))
                                        (components_data (manager a)) w')
                               (flashes a))
            | None => Aborted (OSRaised COMPONENTS_METADATA_FILE)
            end
        | DumpRaised written =>
            match write_file COMPONENTS_METADATA_FILE written (fs (manager a)) with
            | Some _ => Aborted (JsonRaised COMPONENTS_METADATA_FILE)
            | None => Aborted (OSRaised COMPONENTS_METADATA_FILE)
            end
        end
      else Serving a
  end.

End Views.

(** A form value of the type its field has in the data model. *)
Definition text_or_none (v : pyval) : Prop := v = PNone \/ exists s, v = PStr s.

Definition is_flag (v : pyval) : Prop := exists b, v = PBool b.

(** A record as the views build it. *)
Record form_typed (data : pyval) : Prop := {
  typed_dict : is_dict data = true;
  typed_name : text_or_none (field "name" data);
  typed_description : text_or_none (field "description" data);
  typed_has_ui : is_flag (field "has_ui" data);
  typed_proxy : is_flag (field "is_reverse_proxy" data);
  typed_port : field "ui_port" data = PNone \/ exists n, field "ui_port" data = PInt n;
  typed_protocol : text_or_none (field "protocol" data);
  typed_icon : text_or_none (field "icon" data);
  typed_section : text_or_none (field "dashy_tile_section" data);
  typed_suffix : text_or_none (field "dashy_tile_url_suffix" data)
}.

(** The UI group with the types of the data model: an integer port of the
    range, one of the two protocols, a non-empty icon and section, a suffix
    that is a string. *)
Record ui_group_typed (data : pyval) : Prop := {
  strict_port : exists n, field "ui_port" data = PInt n /\ (1 <= n <= 65535)%Z;
  strict_protocol : protocol_ok (field "protocol" data);
  strict_icon : exists s, field "icon" data = PStr s /\ s <> "";
  strict_section : exists s, field "dashy_tile_section" data = PStr s /\ s <> "";
  strict_suffix : exists s, field "dashy_tile_url_suffix" data = PStr s
}.

(** [int] on decimal text of code points below 256: white space around
    the literal, one sign, digits with single underscores between them, 4300
    digits at most (the interpreter's default limit). *)
Module PyInt.

(** The white space [int] strips: tab to carriage return, the space, and of
    the code points from 128 on the next-line control and the no-break
    space.  The separators 28 to 31 are not stripped. *)
Definition is_space (c : ascii) : bool :=
  let n := nat_of_ascii c in
  ((9 <=? n) && (n <=? 13) || (n =? 32) || (n =? 133) || (n =? 160))%nat.

Fixpoint lstrip (s : string) : string :=
  match s with
  | String c rest => if is_space c then lstrip rest else s
  | EmptyString => s
  end.

Fixpoint rstrip (s : string) : string :=
  match s with
  | String c rest =>
      match rstrip rest with
      | EmptyString => if is_space c then "" else String c ""
      | rest' => String c rest'
      end
  | EmptyString => s
  end.

Definition digit_value (c : ascii) : option Z :=
  let n := nat_of_ascii c in
  if ((48 <=? n) && (n <=? 57))%nat then Some (Z.of_nat (n - 48)) else None.

(** The digits after the sign; [count] is the number of digits read so far
    and [after_digit] tells that the previous character was a digit, the only
    place an underscore may stand. *)
Fixpoint digits (acc count : Z) (after_digit : bool) (s : string) : option Z :=
  match s with
  | EmptyString => if after_digit && (count <=? 4300)%Z then Some acc else None
  | String c rest =>
      match digit_value c with
      | Some d => digits (acc * 10 + d) (count + 1) true rest
      | None =>
          if Ascii.eqb c "_" && after_digit then digits acc count false rest else None
      end
  end.

Definition parse (text : string) : option Z :=
  match rstrip (lstrip text) with
  | String c rest =>
      if Ascii.eqb c "-" then option_map Z.opp (digits 0 0 false rest)
      else if Ascii.eqb c "+" then digits 0 0 false rest
      else digits 0 0 false (String c rest)
  | EmptyString => None
  end.

End PyInt.

#[export] Instance py_int_decimal : IntLib := {
  py_int := PyInt.parse
}.

(** ** Sample requests *)

(** A manager whose document cannot be written. *)
Definition readonly_manager : state :=
  mkState "components_metadata.json" [] (mkFs [] ["components_metadata.json"]).

(** A record with a field [json.dump] raises on: an integer of 4301 digits. *)
Definition oversized : pyval :=
  PDict [("name", PStr "Svc"); ("x", PInt (10 ^ 4300))].

Definition traefik : pyval :=
  PDict [("name", PStr "Traefik"); ("is_reverse_proxy", PBool true)].

Definition nameless : pyval := PDict [("name", PStr "")].

(** The form of [grafana], as the browser sends it. *)
Definition grafana_form : Dict.dict string :=
  [("component_id", "grafana"); ("name", "Grafana"); ("has_ui", "on");
   ("ui_port", "8080"); ("protocol", "https"); ("icon", "grafana.png");
   ("dashy_tile_section", "Monitoring"); ("dashy_tile_url_suffix", "/login")].

(** The same form with a port that is no number. *)
Definition bad_port_form : Dict.dict string :=
  [("component_id", "grafana"); ("name", "Grafana"); ("has_ui", "on");
   ("ui_port", "eighty"); ("protocol", "https"); ("icon", "grafana.png");
   ("dashy_tile_section", "Monitoring"); ("dashy_tile_url_suffix", "/login")].

(** The record the views build from [grafana_form]. *)
Definition grafana_form_record : pyval :=
  PDict [("name", PStr "Grafana"); ("description", PNone);
         ("default_selected", PBool false); ("has_ui", PBool true);
         ("is_reverse_proxy", PBool false); ("ui_port", PInt 8080);
         ("protocol", PStr "https"); ("icon", PStr "grafana.png");
         ("dashy_tile_section", PStr "Monitoring");
         ("dashy_tile_url_suffix", PStr "/login");
         ("status_check", PBool false)].

Definition sample_app : app := mkApp sample_manager [].

(** * Facts *)

(** ** Dictionaries *)

Module DictFacts.
Section Facts.
Context {V : Type}.
Implicit Types (d : Dict.dict V) (k : string) (v : V).

Lemma get_set_same k v d : Dict.get k (Dict.set k v d) = Some v.
Proof.
  induction d as [|[k' v'] d IH]; simpl.
  - now rewrite String.eqb_refl.
  - destruct (String.eqb k' k) eqn:E; simpl.
    + now rewrite String.eqb_refl.
    + now rewrite E.
Qed.

Lemma get_set_other k k' v d :
  k' <> k -> Dict.get k' (Dict.set k v d) = Dict.get k' d.
Proof.
  intros Hne. induction d as [|[k0 v0] d IH]; simpl.
  - destruct (String.eqb_spec k k'); congruence.
  - destruct (String.eqb_spec k0 k) as [->|Hk]; simpl.
    + destruct (String.eqb_spec k k'); congruence.
    + now rewrite IH.
Qed.

Lemma get_del_other k k' d :
  k' <> k -> Dict.get k' (Dict.del k d) = Dict.get k' d.
Proof.
  intros Hne. induction d as [|[k0 v0] d IH]; simpl; trivial.
  destruct (String.eqb_spec k0 k) as [->|Hk]; simpl.
  - destruct (String.eqb_spec k k'); congruence.
  - now rewrite IH.
Qed.

Lemma get_in k v d : Dict.get k d = Some v -> In (k, v) d.
Proof.
  induction d as [|[k0 v0] d IH]; simpl; [discriminate|].
  destruct (String.eqb_spec k0 k) as [->|Hk].
  - intros [= ->]. now left.
  - intros H. right. now apply IH.
Qed.

Lemma in_keys k v d : In (k, v) d -> In k (Dict.keys d).
Proof. intros H. apply (in_map fst) in H. exact H. Qed.

Lemma keys_in k d : In k (Dict.keys d) -> exists v, In (k, v) d.
Proof.
  unfold Dict.keys. rewrite in_map_iff. intros [[k0 v0] [E H]].
  simpl in E. subst. now exists v0.
Qed.

Lemma mem_true_in k d : Dict.mem k d = true -> In k (Dict.keys d).
Proof.
  unfold Dict.mem. destruct (Dict.get k d) eqn:E; [|discriminate].
  intros _. eapply in_keys, get_in, E.
Qed.

Lemma mem_false_not_in k d : Dict.mem k d = false -> ~ In k (Dict.keys d).
Proof.
  unfold Dict.mem. induction d as [|[k0 v0] d IH]; simpl; [tauto|].
  destruct (String.eqb_spec k0 k) as [->|Hk]; [discriminate|].
  intros H [E|Hin]; [congruence|]. now apply IH.
Qed.

Lemma in_get k v d : Dict.uniq d -> In (k, v) d -> Dict.get k d = Some v.
Proof.
  unfold Dict.uniq. induction d as [|[k0 v0] d IH]; simpl; [tauto|].
  intros Hu [E|Hin].
  - injection E as -> ->. now rewrite String.eqb_refl.
  - inversion Hu as [|? ? Hnot Hu']; subst.
    destruct (String.eqb_spec k0 k) as [->|Hk].
    + exfalso. apply Hnot. eapply in_keys, Hin.
    + now apply IH.
Qed.

Lemma in_set k v k' v' d :
  Dict.uniq d -> In (k', v') (Dict.set k v d) ->
  (k' = k /\ v' = v) \/ (k' <> k /\ In (k', v') d).
Proof.
  unfold Dict.uniq.
  induction d as [|[k0 v0] d IH]; simpl; intros Hu.
  - intros [[= <- <-]|[]]. now left.
  - inversion Hu as [|? ? Hnot Hu']; subst.
    destruct (String.eqb_spec k0 k) as [->|Hk]; simpl.
    + intros [[= <- <-]|Hin]; [now left|].
      right. split; [|now right].
      intros ->. apply Hnot. eapply in_keys, Hin.
    + intros [[= <- <-]|Hin].
      * right. split; [exact Hk|now left].
      * destruct (IH Hu' Hin) as [?|[? ?]]; [now left|].
        right. split; [assumption|now right].
Qed.

Lemma keys_set k v d :
  forall k', In k' (Dict.keys (Dict.set k v d)) -> k' = k \/ In k' (Dict.keys d).
Proof.
  induction d as [|[k0 v0] d IH]; simpl; intros k'.
  - intros [<-|[]]. now left.
  - destruct (String.eqb_spec k0 k) as [->|Hk]; simpl.
    + intros [<-|Hin]; [now left|right; now right].
    + intros [<-|Hin]; [right; now left|].
      destruct (IH _ Hin); [now left|right; now right].
Qed.

Lemma uniq_set k v d : Dict.uniq d -> Dict.uniq (Dict.set k v d).
Proof.
  unfold Dict.uniq.
  induction d as [|[k0 v0] d IH]; simpl; intros Hu.
  - constructor; [intros []|constructor].
  - inversion Hu as [|? ? Hnot Hu']; subst.
    destruct (String.eqb_spec k0 k) as [->|Hk]; simpl.
    + now constructor.
    + constructor; [|now apply IH].
      intros Hin. apply keys_set in Hin. destruct Hin; congruence.
Qed.

Lemma in_del k k' v' d :
  Dict.uniq d -> In (k', v') (Dict.del k d) -> k' <> k /\ In (k', v') d.
Proof.
  unfold Dict.uniq.
  induction d as [|[k0 v0] d IH]; simpl; intros Hu; [tauto|].
  inversion Hu as [|? ? Hnot Hu']; subst.
  destruct (String.eqb_spec k0 k) as [->|Hk]; simpl.
  - intros Hin. split; [|now right].
    intros ->. apply Hnot. eapply in_keys, Hin.
  - intros [[= <- <-]|Hin].
    + split; [exact Hk|now left].
    + destruct (IH Hu' Hin). split; [assumption|now right].
Qed.

Lemma keys_del k d :
  forall k', In k' (Dict.keys (Dict.del k d)) -> In k' (Dict.keys d).
Proof.
  induction d as [|[k0 v0] d IH]; simpl; intros k'; [tauto|].
  destruct (String.eqb_spec k0 k) as [->|Hk]; simpl.
  - intros Hin. now right.
  - intros [<-|Hin]; [now left|right; now apply IH].
Qed.

Lemma uniq_del k d : Dict.uniq d -> Dict.uniq (Dict.del k d).
Proof.
  unfold Dict.uniq.
  induction d as [|[k0 v0] d IH]; simpl; intros Hu; [constructor|].
  inversion Hu as [|? ? Hnot Hu']; subst.
  destruct (String.eqb_spec k0 k) as [->|Hk]; simpl; [assumption|].
  constructor; [|now apply IH].
  intros Hin. apply Hnot. eapply keys_del, Hin.
Qed.

Lemma get_del_same k d : Dict.uniq d -> Dict.get k (Dict.del k d) = None.
Proof.
  intros Hu. destruct (Dict.get k (Dict.del k d)) eqn:E; [|reflexivity].
  apply get_in, (in_del _ _ _ _ Hu) in E. now destruct E.
Qed.

End Facts.
End DictFacts.

(** ** Values *)

Lemma py_eq_int_sym a b : isinstance_int a = true -> py_eq a b = py_eq b a.
Proof.
  destruct a; try discriminate; intros _; destruct b; simpl; trivial;
    try apply Z.eqb_sym.
  destruct b, b0; reflexivity.
Qed.

Lemma py_eq_int_refl a : isinstance_int a = true -> py_eq a a = true.
Proof.
  destruct a; try discriminate; intros _; simpl.
  - now destruct b.
  - apply Z.eqb_refl.
Qed.

Lemma py_eq_str s v : py_eq (PStr s) v = true -> v = PStr s.
Proof.
  destruct v; simpl; try discriminate.
  intros H. apply String.eqb_eq in H. now subst.
Qed.

Lemma py_in_protocol v :
  py_in v [PStr "http"; PStr "https"] = true <-> protocol_ok v.
Proof.
  unfold py_in, protocol_ok. simpl. rewrite !orb_true_iff. split.
  - intros [H|[H|H]]; [left|right|discriminate]; now apply py_eq_str.
  - intros [-> | ->]; [left|right; left]; reflexivity.
Qed.

Lemma is_none_true v : is_none v = true <-> v = PNone.
Proof. destruct v; simpl; split; congruence. Qed.

Lemma py_get_field r key v : py_get r key = Ok v -> field key r = v.
Proof. unfold field. now intros ->. Qed.

Lemma py_get_dict r key v : py_get r key = Ok v -> is_dict r = true.
Proof. destruct r; simpl; congruence. Qed.

Lemma py_get_of_dict r key : is_dict r = true -> py_get r key = Ok (field key r).
Proof.
  destruct r; try discriminate. intros _. unfold field. simpl.
  now destruct (Dict.get key items).
Qed.

Lemma has_ui_is_dict r : has_ui r = true -> is_dict r = true.
Proof. destruct r; unfold has_ui, field; simpl; congruence. Qed.

(** ** The identifier pattern *)

Lemma newline_not_id_char : id_char newline = false.
Proof. reflexivity. Qed.

Lemma skip_id_chars_all s : all_id_chars s = true -> skip_id_chars s = "".
Proof.
  unfold all_id_chars. induction s as [|c s IH]; simpl; trivial.
  rewrite andb_true_iff. intros [-> H]. now apply IH.
Qed.

(** Identifiers made of class characters only are matched. *)
Lemma re_match_id_complete s :
  s <> "" -> all_id_chars s = true -> re_match_id s = true.
Proof.
  destruct s as [|c s]; [congruence|]. intros _. unfold all_id_chars. simpl.
  rewrite andb_true_iff. intros [-> H].
  now rewrite (skip_id_chars_all s H).
Qed.

Lemma skip_id_chars_split s :
  exists w, all_id_chars w = true /\ s = w ++ skip_id_chars s.
Proof.
  induction s as [|c s [w [Hw E]]]; simpl.
  - now exists "".
  - destruct (id_char c) eqn:Hc.
    + exists (String c w). split.
      * unfold all_id_chars in *. simpl. now rewrite Hc.
      * simpl. now f_equal.
    + now exists "".
Qed.

(** What [re.match] accepts: a non-empty run of class characters, followed
    by nothing or by one final newline. *)
Lemma re_match_id_shape s :
  re_match_id s = true ->
  exists w, w <> "" /\ all_id_chars w = true /\
            (s = w \/ s = w ++ String newline "").
Proof.
  destruct s as [|c s]; [discriminate|]. simpl.
  rewrite andb_true_iff. intros [Hc Hd].
  destruct (skip_id_chars_split s) as [w [Hw E]].
  exists (String c w). split; [discriminate|]. split.
  - unfold all_id_chars in *. simpl. now rewrite Hc.
  - destruct (skip_id_chars s) as [|c1 [|c2 t]]; simpl in Hd; try discriminate.
    + left. rewrite E at 1. simpl. f_equal.
      clear. induction w; simpl; congruence.
    + right. apply Ascii.eqb_eq in Hd. subst c1. simpl. now f_equal.
Qed.

Lemma re_match_id_nonempty s : re_match_id s = true -> s <> "".
Proof. destruct s; [discriminate|congruence]. Qed.

(** ** The methods as checks followed by a commit *)

Section Runs.
Context {json : JsonLib}.

Ltac run_step :=
  match goal with
  | |- context [match ?x with _ => _ end] =>
      lazymatch x with
      | context [match _ with _ => _ end] => fail
      | _ => destruct x eqn:?
      end
  end.

Lemma add_component_run component_id data st :
  add_component component_id data st =
    match add_checks component_id data (components_data st) with
    | Raise e => (Raise e, st)
    | Ok _ => _save_data (with_data st (Dict.set component_id data (components_data st)))
    end.
Proof.
  unfold add_component, add_checks, record_checks, id_checks,
    _validate_component_id, _validate_ui_port_uniqueness,
    _validate_single_reverse_proxy, bind, reading, lift, ret, raise,
    setitem, and_then, with_data.
  repeat (run_step; simpl; try reflexivity; try congruence).
Qed.

Lemma update_component_run component_id data st :
  update_component component_id data st =
    match update_checks component_id data (components_data st) with
    | Raise e => (Raise e, st)
    | Ok _ => _save_data (with_data st (Dict.set component_id data (components_data st)))
    end.
Proof.
  unfold update_component, update_checks, record_checks, id_checks,
    _validate_component_id, _validate_ui_port_uniqueness,
    _validate_single_reverse_proxy, bind, reading, lift, ret, raise,
    setitem, and_then, with_data.
  repeat (run_step; simpl; try reflexivity; try congruence).
Qed.

Lemma delete_component_run component_id st :
  delete_component component_id st =
    match delete_checks component_id (components_data st) with
    | Raise e => (Raise e, st)
    | Ok _ => _save_data (with_data st (Dict.del component_id (components_data st)))
    end.
Proof.
  unfold delete_component, delete_checks, bind, reading, ret, raise, delitem, with_data.
  destruct (Dict.mem component_id (components_data st)); reflexivity.
Qed.
End Runs.

Lemma ui_port_loop_ok d port edited :
  ui_port_loop d port edited = Ok tt <-> no_port_clash d port edited.
Proof.
  unfold no_port_clash. induction d as [|[k0 v0] d IH]; simpl.
  - split; [intros _ ? ? []|trivial].
  - destruct (is_edited k0 edited) eqn:He.
    + rewrite IH. split.
      * intros H k v [[= <- <-]|Hin] Hk; [congruence|eauto].
      * intros H k v Hin. apply H. now right.
    + destruct v0; simpl;
        try (split; [discriminate|];
             intros H; destruct (H k0 _ (or_introl eq_refl) He); discriminate).
      fold (field "has_ui" (PDict items)) (field "ui_port" (PDict items)).
      assert (Hh : match Dict.get "has_ui" items with Some x => Ok x | None => Ok PNone end
                   = Ok (field "has_ui" (PDict items))).
      { unfold field. simpl. now destruct (Dict.get "has_ui" items). }
      assert (Hp : match Dict.get "ui_port" items with Some x => Ok x | None => Ok PNone end
                   = Ok (field "ui_port" (PDict items))).
      { unfold field. simpl. now destruct (Dict.get "ui_port" items). }
      rewrite Hh. simpl.
      destruct (truthy (field "has_ui" (PDict items))) eqn:Hui.
      * rewrite Hp. simpl.
        destruct (py_eq (field "ui_port" (PDict items)) port) eqn:Heq.
        -- split; [discriminate|]. intros H.
           destruct (H k0 _ (or_introl eq_refl) He) as [_ H'].
           specialize (H' Hui). congruence.
        -- rewrite IH. split.
           ++ intros H k v [[= <- <-]|Hin] Hk; [now split|eauto].
           ++ intros H k v Hin. apply H. now right.
      * rewrite IH. split.
        -- intros H k v [[= <- <-]|Hin] Hk; [|eauto].
           split; [reflexivity|]. unfold has_ui. congruence.
        -- intros H k v Hin. apply H. now right.
Qed.

Lemma reverse_proxy_loop_ok d edited :
  reverse_proxy_loop d edited = Ok tt <-> no_other_proxy d edited.
Proof.
  unfold no_other_proxy. induction d as [|[k0 v0] d IH]; simpl.
  - split; [intros _ ? ? []|trivial].
  - destruct (is_edited k0 edited) eqn:He.
    + rewrite IH. split.
      * intros H k v [[= <- <-]|Hin] Hk; [congruence|eauto].
      * intros H k v Hin. apply H. now right.
    + destruct v0; simpl;
        try (split; [discriminate|];
             intros H; destruct (H k0 _ (or_introl eq_refl) He); discriminate).
      assert (Hh : match Dict.get "is_reverse_proxy" items with
                   | Some x => Ok x | None => Ok PNone end
                   = Ok (field "is_reverse_proxy" (PDict items))).
      { unfold field. simpl. now destruct (Dict.get "is_reverse_proxy" items). }
      rewrite Hh. simpl.
      destruct (truthy (field "is_reverse_proxy" (PDict items))) eqn:Hp.
      * split; [discriminate|]. intros H.
        destruct (H k0 _ (or_introl eq_refl) He) as [_ H'].
        unfold is_reverse_proxy in H'. congruence.
      * rewrite IH. split.
        -- intros H k v [[= <- <-]|Hin] Hk; [now split|eauto].
           -- intros H k v Hin. apply H. now right.
Qed.

#[local] Arguments py_in : simpl never.

Lemma port_ok_dec v :
  (isinstance_int v && ((1 <=? int_value v)%Z && (int_value v <=? 65535)%Z)) = true
  <-> port_ok v.
Proof.
  unfold port_ok. rewrite !andb_true_iff, !Z.leb_le. tauto.
Qed.

(** The error [_validate_dashy_tile_fields] raises names a field that breaks
    its constraint, and it raises one as soon as some field does. *)
Lemma dashy_cases data :
  is_dict data = true -> has_ui data = true ->
  (_validate_dashy_tile_fields data = Ok tt /\ ui_group_ok data) \/
  (exists m f, _validate_dashy_tile_fields data = Raise (ValueError m) /\
               message_field m = Some f /\ violates data f).
Proof.
  intros Hd Hui. unfold _validate_dashy_tile_fields.
  rewrite !(py_get_of_dict _ _ Hd). simpl.
  unfold has_ui in Hui. rewrite Hui.
  destruct (is_none (field "ui_port" data)) eqn:Hn.
  { right. exists PortRequired, "ui_port". repeat split.
    constructor. apply is_none_true in Hn. rewrite Hn. intros [H _]. discriminate. }
  destruct (isinstance_int (field "ui_port" data)
            && ((1 <=? int_value (field "ui_port" data))%Z
                && (int_value (field "ui_port" data) <=? 65535)%Z)) eqn:Hp.
  2:{ right. exists PortRange, "ui_port".
      assert (Hr : negb (isinstance_int (field "ui_port" data))
                   || negb ((1 <=? int_value (field "ui_port" data))%Z
                            && (int_value (field "ui_port" data) <=? 65535)%Z) = true).
      { rewrite <- negb_andb. now rewrite Hp. }
      rewrite Hr. repeat split. constructor. rewrite <- port_ok_dec. congruence. }
  assert (Hr : negb (isinstance_int (field "ui_port" data))
               || negb ((1 <=? int_value (field "ui_port" data))%Z
                        && (int_value (field "ui_port" data) <=? 65535)%Z) = false).
  { rewrite <- negb_andb. now rewrite Hp. }
  rewrite Hr. apply port_ok_dec in Hp.
  destruct (truthy (field "protocol" data)) eqn:Hpr; simpl.
  2:{ right. exists ProtocolRequired, "protocol". repeat split. constructor.
      intros [E|E]; rewrite E in Hpr; discriminate. }
  destruct (py_in (field "protocol" data) [PStr "http"; PStr "https"]) eqn:Hin; simpl.
  2:{ right. exists ProtocolChoice, "protocol". repeat split. constructor.
      rewrite <- py_in_protocol. congruence. }
  apply py_in_protocol in Hin.
  destruct (truthy (field "icon" data)) eqn:Hi; simpl.
  2:{ right. exists IconRequired, "icon". repeat split. now constructor. }
  destruct (truthy (field "dashy_tile_section" data)) eqn:Hs; simpl.
  2:{ right. exists SectionRequired, "dashy_tile_section". repeat split. now constructor. }
  destruct (is_none (field "dashy_tile_url_suffix" data)) eqn:Hx; simpl.
  { right. exists SuffixRequired, "dashy_tile_url_suffix". repeat split.
    constructor. now apply is_none_true. }
  left. split; [reflexivity|]. constructor; trivial.
  rewrite <- is_none_true. congruence.
Qed.

Lemma violates_not_ok data f : violates data f -> ~ ui_group_ok data.
Proof.
  intros Hv [Hp Hpr Hi Hs Hx]. destruct Hv; try tauto; congruence.
Qed.

Lemma dashy_ok data :
  _validate_dashy_tile_fields data = Ok tt <->
  is_dict data = true /\ (has_ui data = true -> ui_group_ok data).
Proof.
  split.
  - intros H. assert (Hd : is_dict data = true).
    { destruct data; try discriminate. reflexivity. }
    split; [exact Hd|]. intros Hui.
    destruct (dashy_cases data Hd Hui) as [[_ ?]|[m [f [E _]]]]; [assumption|congruence].
  - intros [Hd H]. destruct (has_ui data) eqn:Hui.
    + destruct (dashy_cases data Hd Hui) as [[? _]|[m [f [_ [_ Hv]]]]]; [assumption|].
      exfalso. eapply violates_not_ok; eauto.
    + unfold _validate_dashy_tile_fields. rewrite (py_get_of_dict _ _ Hd). simpl.
      unfold has_ui in Hui. now rewrite Hui.
Qed.

Lemma record_checks_ok data edited d :
  record_checks data edited d = Ok tt <-> accepted data edited d.
Proof.
  unfold record_checks. split.
  - intros H. assert (Hd : is_dict data = true).
    { destruct data; try discriminate. reflexivity. }
    rewrite !(py_get_of_dict _ _ Hd) in H. simpl in H.
    fold (has_ui data) (is_reverse_proxy data) in H.
    constructor; trivial.
    + intros Hui. rewrite Hui in H.
      destruct (is_none (field "ui_port" data)) eqn:Hn.
      * exfalso. simpl in H.
        destruct (dashy_cases data Hd Hui) as [[_ [[Hp _] _ _ _ _]]|[m [f [E _]]]].
        -- apply is_none_true in Hn. rewrite Hn in Hp. discriminate.
        -- rewrite E in H. discriminate.
      * destruct (ui_port_loop d (field "ui_port" data) edited) as [[]|] eqn:Hl;
          [|discriminate]. simpl in H.
        split; [now apply ui_port_loop_ok|].
        destruct (_validate_dashy_tile_fields data) as [[]|] eqn:Hv; [|discriminate].
        apply dashy_ok in Hv. now apply Hv.
    + intros Hp.
      destruct (if has_ui data then _ else _) as [[]|]; [|discriminate]. simpl in H.
      rewrite Hp in H.
      destruct (reverse_proxy_loop d edited) as [[]|] eqn:Hl; [|discriminate].
      now apply reverse_proxy_loop_ok.
    + destruct (if has_ui data then _ else _) as [[]|]; [|discriminate]. simpl in H.
      destruct (if is_reverse_proxy data then _ else _) as [[]|]; [|discriminate].
      simpl in H. destruct (truthy (field "name" data)); [reflexivity|discriminate].
  - intros [Hd Hui Hp Hn].
    rewrite !(py_get_of_dict _ _ Hd). simpl.
    fold (has_ui data) (is_reverse_proxy data).
    assert (E1 : (if has_ui data
                  then do _ <- (if is_none (field "ui_port" data) then Ok tt
                                else ui_port_loop d (field "ui_port" data) edited);
                       _validate_dashy_tile_fields data
                  else Ok tt) = Ok tt).
    { destruct (has_ui data) eqn:E; [|reflexivity].
      destruct (Hui eq_refl) as [Hc Hg].
      apply ui_port_loop_ok in Hc. rewrite Hc.
      destruct (is_none (field "ui_port" data)); simpl; apply dashy_ok; split; trivial. }
    rewrite E1. simpl.
    assert (E2 : (if is_reverse_proxy data then reverse_proxy_loop d edited else Ok tt)
                 = Ok tt).
    { destruct (is_reverse_proxy data) eqn:E; [|reflexivity].
      now apply reverse_proxy_loop_ok, Hp. }
    rewrite E2. simpl. now rewrite Hn.
Qed.

Lemma id_checks_ok component_id is_new d :
  id_checks component_id is_new d = Ok tt <->
  component_id <> "" /\ re_match_id component_id = true /\
  Dict.mem component_id d = negb is_new.
Proof.
  unfold id_checks.
  destruct (String.eqb_spec component_id ""); [split; [discriminate|tauto]|].
  destruct (re_match_id component_id); simpl; [|split; [discriminate|intuition congruence]].
  destruct is_new, (Dict.mem component_id d); simpl; split; try discriminate;
    intuition congruence.
Qed.

(** ** Preservation of the invariants *)

Lemma store_ok_nil : store_ok [].
Proof.
  constructor; unfold records_only, I1_matched, I2, I3, I4, I5; simpl;
    try (intros; contradiction).
  split; [constructor|intros ? []].
Qed.

Lemma store_ok_set d component_id data edited :
  store_ok d -> accepted data edited d -> re_match_id component_id = true ->
  (forall k, k <> component_id -> is_edited k edited = false) ->
  store_ok (Dict.set component_id data d).
Proof.
  intros [Hrec [Hu Hid] H2 H3 H4 H5] [Hd Hui Hp Hn] Hm He.
  assert (Hin : forall k v, In (k, v) (Dict.set component_id data d) ->
                  (k = component_id /\ v = data) \/ (k <> component_id /\ In (k, v) d)).
  { intros k v. now apply DictFacts.in_set. }
  constructor.
  - intros i r Hi. destruct (Hin _ _ Hi) as [[_ ->]|[_ Hi']]; eauto.
  - split; [now apply DictFacts.uniq_set|].
    intros i Hi. apply DictFacts.keys_set in Hi. destruct Hi as [->|Hi]; auto.
  - intros i j ri rj Hi Hj Hne Hri Hrj.
    destruct (Hin _ _ Hi) as [[-> ->]|[Hi1 Hi2]], (Hin _ _ Hj) as [[-> ->]|[Hj1 Hj2]].
    + congruence.
    + destruct (Hui Hri) as [Hc Hg].
      rewrite py_eq_int_sym by apply Hg.
      now apply (Hc j rj Hj2 (He _ Hj1)).
    + destruct (Hui Hrj) as [Hc Hg].
      now apply (Hc i ri Hi2 (He _ Hi1)).
    + eapply H2; eauto.
  - intros i j ri rj Hi Hj Hri Hrj.
    destruct (Hin _ _ Hi) as [[-> ->]|[Hi1 Hi2]], (Hin _ _ Hj) as [[-> ->]|[Hj1 Hj2]].
    + reflexivity.
    + destruct (Hp Hri j rj Hj2 (He _ Hj1)). congruence.
    + destruct (Hp Hrj i ri Hi2 (He _ Hi1)). congruence.
    + eapply H3; eauto.
  - intros i r Hi Hr. destruct (Hin _ _ Hi) as [[_ ->]|[_ Hi']]; [now apply Hui|eauto].
  - intros i r Hi. destruct (Hin _ _ Hi) as [[_ ->]|[_ Hi']]; eauto.
Qed.

Lemma store_ok_del d component_id : store_ok d -> store_ok (Dict.del component_id d).
Proof.
  intros [Hrec [Hu Hid] H2 H3 H4 H5].
  assert (Hin : forall k v, In (k, v) (Dict.del component_id d) -> In (k, v) d).
  { intros k v H. now apply (DictFacts.in_del _ _ _ _ Hu) in H. }
  constructor.
  - intros i r Hi. eauto.
  - split; [now apply DictFacts.uniq_del|].
    intros i Hi. apply Hid. eapply DictFacts.keys_del, Hi.
  - intros i j ri rj Hi Hj. eauto.
  - intros i j ri rj Hi Hj. eauto.
  - intros i r Hi. eauto.
  - intros i r Hi. eauto.
Qed.

Section Preservation.
Context {json : JsonLib}.

(** Persisting touches nothing but the file system. *)
Lemma save_data_frame st r st' :
  _save_data st = (r, st') ->
  components_data st' = components_data st /\ filepath st' = filepath st.
Proof.
  unfold _save_data.
  destruct (json_dump _) as [text|written];
    (destruct (write_file _ _ _) as [w1|]; [|intros [= _ <-]; auto]).
  - destruct (os_replace _ _ _) as [w2|]; intros [= _ <-]; auto.
  - intros [= _ <-]; auto.
Qed.

(** When the dump returns and both the side file and the document can be
    written, persisting succeeds and leaves the document at [filepath]. *)
Lemma save_data_ok st text :
  json_dump (PDict (components_data st)) = Dumped text ->
  writable (filepath st ++ ".tmp") (fs st) = true ->
  writable (filepath st) (fs st) = true ->
  exists w, _save_data st = (Ok tt, mkState (filepath st) (components_data st) w) /\
            Dict.get (filepath st) (files w) = Some text.
Proof.
  intros Hd Ht Hp. unfold _save_data, write_file, os_replace. rewrite Hd, Ht. simpl.
  rewrite DictFacts.get_set_same.
  unfold writable in *. simpl. rewrite Hp.
  eexists. split; [reflexivity|]. simpl. apply DictFacts.get_set_same.
Qed.

(** Every failure of [_save_data] is the one [ValueError], and the document
    at [filepath] is then the one that was there. *)
Lemma save_data_raises st e st' :
  _save_data st = (Raise e, st') -> e = ValueError (SaveFailed (filepath st)).
Proof.
  unfold _save_data.
  destruct (json_dump _) as [text|written];
    (destruct (write_file _ _ _) as [w1|]; [|now intros [= <- _]]).
  - destruct (os_replace _ _ _) as [w2|]; [discriminate|now intros [= <- _]].
  - now intros [= <- _].
Qed.

Lemma run_store_ok c st r st' :
  store_ok (components_data st) -> run c st = (r, st') ->
  store_ok (components_data st').
Proof.
  intros Hok. destruct c as [id data|id data|id]; simpl.
  - rewrite add_component_run. unfold add_checks.
    destruct (id_checks id true (components_data st)) as [[]|] eqn:Hid; simpl;
      [|intros [= _ <-]; assumption].
    destruct (record_checks data None (components_data st)) as [[]|] eqn:Hr;
      [|intros [= _ <-]; assumption].
    intros H. apply save_data_frame in H. destruct H as [-> _]. simpl.
    apply id_checks_ok in Hid. apply record_checks_ok in Hr.
    eapply store_ok_set; eauto. apply Hid.
  - rewrite update_component_run. unfold update_checks.
    destruct (id_checks id false (components_data st)) as [[]|] eqn:Hid; simpl;
      [|intros [= _ <-]; assumption].
    destruct (record_checks data (Some id) (components_data st)) as [[]|] eqn:Hr;
      [|intros [= _ <-]; assumption].
    intros H. apply save_data_frame in H. destruct H as [-> _]. simpl.
    apply id_checks_ok in Hid. apply record_checks_ok in Hr.
    eapply store_ok_set; eauto; [apply Hid|].
    intros k Hk. simpl. now apply String.eqb_neq.
  - rewrite delete_component_run.
    destruct (delete_checks id (components_data st)); [|intros [= _ <-]; assumption].
    intros H. apply save_data_frame in H. destruct H as [-> _]. simpl.
    now apply store_ok_del.
Qed.

(** Every store reached from the empty one has unique identifiers accepted
    by the pattern, distinct ports among the records with a web interface, at
    most one reverse proxy, a complete UI group wherever [has_ui] holds, and a
    name in every record. *)
Theorem reachable_store_ok st : reachable st -> store_ok (components_data st).
Proof.
  induction 1 as [path w|st c r st' _ IH Hrun].
  - apply store_ok_nil.
  - eapply run_store_ok; eauto.
Qed.

End Preservation.

(** ** Success and failure of the calls *)

Lemma py_eq_int_congr a b v :
  isinstance_int a = true -> isinstance_int b = true -> py_eq a b = true ->
  py_eq v a = py_eq v b.
Proof.
  destruct a; try discriminate; destruct b; try discriminate; intros _ _; simpl.
  - intros H. apply Bool.eqb_prop in H. now subst.
  - intros H. apply Z.eqb_eq in H. subst. destruct v; simpl; trivial.
    now destruct b0, b.
  - intros H. apply Z.eqb_eq in H. subst. destruct v; simpl; trivial.
    now destruct b0, b.
  - intros H. apply Z.eqb_eq in H. now subst.
Qed.

Lemma ui_port_loop_error d port edited e :
  records_only d -> ui_port_loop d port edited = Raise e ->
  exists comp_id, e = ValueError (PortInUse port comp_id).
Proof.
  unfold records_only. induction d as [|[k0 v0] d IH]; simpl; [discriminate|].
  intros Hrec. assert (Hd : is_dict v0 = true) by (eapply Hrec; now left).
  assert (Hrec' : forall i r, In (i, r) d -> is_dict r = true) by eauto.
  destruct (is_edited k0 edited); [now apply IH|].
  rewrite !(py_get_of_dict _ _ Hd). simpl.
  destruct (truthy (field "has_ui" v0)); [|now apply IH].
  destruct (py_eq (field "ui_port" v0) port); [|now apply IH].
  intros [= <-]. now exists k0.
Qed.

Lemma reverse_proxy_loop_error d edited e :
  records_only d -> reverse_proxy_loop d edited = Raise e ->
  exists comp_id, e = ValueError (ProxyTaken comp_id).
Proof.
  unfold records_only. induction d as [|[k0 v0] d IH]; simpl; [discriminate|].
  intros Hrec. assert (Hd : is_dict v0 = true) by (eapply Hrec; now left).
  assert (Hrec' : forall i r, In (i, r) d -> is_dict r = true) by eauto.
  destruct (is_edited k0 edited); [now apply IH|].
  rewrite !(py_get_of_dict _ _ Hd). simpl.
  destruct (truthy (field "is_reverse_proxy" v0)); [|now apply IH].
  intros [= <-]. now exists k0.
Qed.

Lemma dashy_error data e :
  is_dict data = true -> _validate_dashy_tile_fields data = Raise e ->
  exists m, e = ValueError m.
Proof.
  intros Hd. destruct (has_ui data) eqn:Hui.
  - destruct (dashy_cases data Hd Hui) as [[E _]|[m [f [E _]]]]; rewrite E.
    + discriminate.
    + intros [= <-]. now exists m.
  - unfold _validate_dashy_tile_fields. rewrite (py_get_of_dict _ _ Hd). simpl.
    unfold has_ui in Hui. rewrite Hui. discriminate.
Qed.

Lemma id_checks_error component_id is_new d e :
  id_checks component_id is_new d = Raise e -> exists m, e = ValueError m.
Proof.
  unfold id_checks.
  repeat match goal with
         | |- context [if ?b then _ else _] => destruct b
         end; intros [= <-]; eauto.
Qed.

Lemma record_checks_error data edited d e :
  records_only d -> is_dict data = true ->
  record_checks data edited d = Raise e -> exists m, e = ValueError m.
Proof.
  intros Hrec Hd. unfold record_checks.
  rewrite !(py_get_of_dict _ _ Hd). simpl.
  destruct (truthy (field "has_ui" data)).
  - destruct (is_none (field "ui_port" data)); simpl.
    + destruct (_validate_dashy_tile_fields data) as [[]|] eqn:Hv; simpl.
      * destruct (truthy (field "is_reverse_proxy" data)).
        -- destruct (reverse_proxy_loop d edited) as [[]|] eqn:Hl; simpl.
           ++ destruct (truthy (field "name" data)); simpl; [discriminate|].
              intros [= <-]; eauto.
           ++ intros [= <-].
              destruct (reverse_proxy_loop_error _ _ _ Hrec Hl) as [c ->]; eauto.
        -- simpl. destruct (truthy (field "name" data)); simpl; [discriminate|].
           intros [= <-]; eauto.
      * intros [= <-]. eapply dashy_error; eauto.
    + destruct (ui_port_loop d (field "ui_port" data) edited) as [[]|] eqn:Hu; simpl.
      * destruct (_validate_dashy_tile_fields data) as [[]|] eqn:Hv; simpl.
        -- destruct (truthy (field "is_reverse_proxy" data)).
           ++ destruct (reverse_proxy_loop d edited) as [[]|] eqn:Hl; simpl.
              ** destruct (truthy (field "name" data)); simpl; [discriminate|].
                 intros [= <-]; eauto.
              ** intros [= <-].
                 destruct (reverse_proxy_loop_error _ _ _ Hrec Hl) as [c ->]; eauto.
           ++ simpl. destruct (truthy (field "name" data)); simpl; [discriminate|].
              intros [= <-]; eauto.
        -- intros [= <-]. eapply dashy_error; eauto.
      * intros [= <-]. destruct (ui_port_loop_error _ _ _ _ Hrec Hu) as [c ->]; eauto.
  - simpl. destruct (truthy (field "is_reverse_proxy" data)).
    + destruct (reverse_proxy_loop d edited) as [[]|] eqn:Hl; simpl.
      * destruct (truthy (field "name" data)); simpl; [discriminate|].
        intros [= <-]; eauto.
      * intros [= <-].
        destruct (reverse_proxy_loop_error _ _ _ Hrec Hl) as [c ->]; eauto.
    + simpl. destruct (truthy (field "name" data)); simpl; [discriminate|].
      intros [= <-]; eauto.
Qed.

Section Outcomes.
Context {json : JsonLib}.

Lemma checks_of_error c d e :
  records_only d -> record_call c -> checks_of c d = Raise e ->
  exists m, e = ValueError m.
Proof.
  intros Hrec Hc. destruct c as [id data|id data|id]; simpl in *.
  - unfold add_checks. destruct (id_checks id true d) as [[]|] eqn:Hid; simpl.
    + now apply record_checks_error.
    + intros [= <-]. eapply id_checks_error, Hid.
  - unfold update_checks. destruct (id_checks id false d) as [[]|] eqn:Hid; simpl.
    + now apply record_checks_error.
    + intros [= <-]. eapply id_checks_error, Hid.
  - unfold delete_checks. destruct (negb (Dict.mem id d)); [|discriminate].
    intros [= <-]. eauto.
Qed.

(** A call runs its checks and, when they pass, commits. *)
Lemma run_checks c st :
  run c st =
    match checks_of c (components_data st) with
    | Raise e => (Raise e, st)
    | Ok _ =>
        _save_data (with_data st
          match c with
          | Create component_id data | Update component_id data =>
              Dict.set component_id data (components_data st)
          | Delete component_id => Dict.del component_id (components_data st)
          end)
    end.
Proof.
  destruct c; simpl.
  - apply add_component_run.
  - apply update_component_run.
  - apply delete_component_run.
Qed.

(** When its checks pass, Create is the save of the store with the record
    in it: it succeeds when that save does, and with its state. *)
Lemma add_component_saves component_id data st :
  id_checks component_id true (components_data st) = Ok tt ->
  accepted data None (components_data st) ->
  add_checks component_id data (components_data st) = Ok tt /\
  forall st',
    _save_data (with_data st (Dict.set component_id data (components_data st)))
      = (Ok tt, st') ->
    add_component component_id data st = (Ok tt, st') /\
    components_data st' = Dict.set component_id data (components_data st).
Proof.
  intros Hid Hacc. apply record_checks_ok in Hacc.
  assert (Hck : add_checks component_id data (components_data st) = Ok tt)
    by (unfold add_checks; rewrite Hid; simpl; exact Hacc).
  split; [exact Hck|].
  intros st' Hs. rewrite add_component_run, Hck. split; [exact Hs|].
  apply save_data_frame in Hs. apply Hs.
Qed.

(** The same for Update. *)
Lemma update_component_saves component_id data st :
  id_checks component_id false (components_data st) = Ok tt ->
  accepted data (Some component_id) (components_data st) ->
  update_checks component_id data (components_data st) = Ok tt /\
  forall st',
    _save_data (with_data st (Dict.set component_id data (components_data st)))
      = (Ok tt, st') ->
    update_component component_id data st = (Ok tt, st') /\
    components_data st' = Dict.set component_id data (components_data st).
Proof.
  intros Hid Hacc. apply record_checks_ok in Hacc.
  assert (Hck : update_checks component_id data (components_data st) = Ok tt)
    by (unfold update_checks; rewrite Hid; simpl; exact Hacc).
  split; [exact Hck|].
  intros st' Hs. rewrite update_component_run, Hck. split; [exact Hs|].
  apply save_data_frame in Hs. apply Hs.
Qed.

(** With the causes of a successful save spelled out: the dump of the new
    store returns and both paths can be written. *)
Lemma add_component_succeeds component_id data st text :
  id_checks component_id true (components_data st) = Ok tt ->
  accepted data None (components_data st) ->
  can_persist st ->
  json_dump (PDict (Dict.set component_id data (components_data st))) = Dumped text ->
  exists w,
    add_component component_id data st =
      (Ok tt, mkState (filepath st)
                (Dict.set component_id data (components_data st)) w).
Proof.
  intros Hid Hacc [Ht Hp] Hd.
  destruct (save_data_ok
              (with_data st (Dict.set component_id data (components_data st))) text
              Hd Ht Hp) as [w [E _]].
  exists w. now apply (add_component_saves component_id data st Hid Hacc).
Qed.

Lemma update_component_succeeds component_id data st text :
  id_checks component_id false (components_data st) = Ok tt ->
  accepted data (Some component_id) (components_data st) ->
  can_persist st ->
  json_dump (PDict (Dict.set component_id data (components_data st))) = Dumped text ->
  exists w,
    update_component component_id data st =
      (Ok tt, mkState (filepath st)
                (Dict.set component_id data (components_data st)) w).
Proof.
  intros Hid Hacc [Ht Hp] Hd.
  destruct (save_data_ok
              (with_data st (Dict.set component_id data (components_data st))) text
              Hd Ht Hp) as [w [E _]].
  exists w. now apply (update_component_saves component_id data st Hid Hacc).
Qed.

End Outcomes.

(** * The specification, claim by claim *)

Section Claims.
Context {json : JsonLib}.

(** C2.  When a validation step of Create, Update or Delete fails, the call
    raises that error and the whole state -- the in-memory map and the file
    system -- is what it was before the call; over a store of records and
    for a record argument the error is a [ValueError].  In particular Update
    and Delete of an identifier that is not in the store raise a [ValueError]
    and change nothing. *)
Theorem failed_validation_leaves_state st c :
  (forall e, checks_of c (components_data st) = Raise e ->
     run c st = (Raise e, st) /\
     (records_only (components_data st) -> record_call c ->
      exists m, e = ValueError m)) /\
  (Dict.mem (target c) (components_data st) = false ->
   match c with
   | Create _ _ => True
   | Update _ _ | Delete _ => exists m, run c st = (Raise (ValueError m), st)
   end).
Proof.
  split.
  - intros e He. split.
    + rewrite run_checks, He. reflexivity.
    + intros Hrec Hc. eapply checks_of_error; eauto.
  - intros Hmem. destruct c as [id data|id data|id]; simpl in *; trivial.
    + rewrite update_component_run. unfold update_checks.
      destruct (id_checks id false (components_data st)) as [[]|] eqn:Hid.
      * apply id_checks_ok in Hid. destruct Hid as [_ [_ Hm]].
        simpl in Hm. congruence.
      * destruct (id_checks_error _ _ _ _ Hid) as [m ->]. simpl. eauto.
    + rewrite delete_component_run. unfold delete_checks. rewrite Hmem. simpl. eauto.
Qed.

(** C9.  A call about [component_id] leaves every other identifier as it
    was: [get_component] returns for it what it returned before the call,
    whether the call succeeded or not. *)
Theorem other_records_unchanged c st r st' other :
  run c st = (r, st') -> other <> target c ->
  fst (get_component other st') = fst (get_component other st).
Proof.
  intros Hrun Hne. unfold get_component, reading. simpl.
  rewrite run_checks in Hrun.
  destruct (checks_of c (components_data st)).
  - apply save_data_frame in Hrun. destruct Hrun as [-> _]. simpl.
    destruct c; simpl in *.
    + now rewrite DictFacts.get_set_other.
    + now rewrite DictFacts.get_set_other.
    + now rewrite DictFacts.get_del_other.
  - now injection Hrun as _ <-.
Qed.

(** C6.  [ComponentManager(path)]: with no file at [path] the manager starts
    with an empty store; with a file that parses to a JSON object it starts
    with that object; with a file that does not parse, or parses to anything
    but an object, construction raises a [ValueError] and there is no
    manager. *)
Theorem load_behaviour path w :
  (Dict.get path (files w) = None ->
   __init__ path w = Ok (mkState path [] w)) /\
  (forall text data,
     Dict.get path (files w) = Some text -> json_load text = Some (PDict data) ->
     __init__ path w = Ok (mkState path data w)) /\
  (forall text,
     Dict.get path (files w) = Some text ->
     json_load text = None \/ (exists v, json_load text = Some v /\ is_dict v = false) ->
     exists m, __init__ path w = Raise (ValueError m)).
Proof.
  unfold __init__, _load_data. repeat split.
  - intros ->. reflexivity.
  - intros text data -> ->. reflexivity.
  - intros text -> [-> | [v [-> Hv]]]; [simpl; eauto|].
    destruct v; try discriminate; simpl; eauto.
Qed.

Lemma record_checks_fault data edited d m :
  has_ui data = true ->
  _validate_dashy_tile_fields data = Raise (ValueError m) ->
  exists e, record_checks data edited d = Raise e /\
            (no_port_clash d (field "ui_port" data) edited -> e = ValueError m).
Proof.
  intros Hui Hv. assert (Hd : is_dict data = true) by now apply has_ui_is_dict.
  unfold record_checks. rewrite !(py_get_of_dict _ _ Hd). simpl.
  unfold has_ui in Hui. rewrite Hui, Hv.
  destruct (is_none (field "ui_port" data)); simpl; [eauto|].
  destruct (ui_port_loop d (field "ui_port" data) edited) as [[]|e] eqn:Hl; simpl; [eauto|].
  exists e. split; [reflexivity|]. intros Hc. apply ui_port_loop_ok in Hc. congruence.
Qed.

Lemma ui_fault_violates data : ui_fault data -> exists f, violates data f.
Proof.
  intros [H|H|H|H|H|H|H].
  - exists "ui_port". constructor. rewrite H. intros [? _]. discriminate.
  - exists "protocol". constructor. rewrite H. intros [?|?]; discriminate.
  - exists "icon". constructor. now rewrite H.
  - exists "dashy_tile_section". constructor. now rewrite H.
  - exists "dashy_tile_url_suffix". now constructor.
  - exists "protocol". now constructor.
  - exists "ui_port". now constructor.
Qed.

(** C5.  A record with [has_ui] true in which [ui_port], [protocol], [icon]
    or [dashy_tile_section] is missing, [dashy_tile_url_suffix] is absent,
    the protocol is neither ['http'] nor ['https'], or the port is not an
    integer from 1 to 65535, is refused: [_validate_dashy_tile_fields] raises
    a [ValueError] whose message names a field that breaks its constraint,
    and Create and Update of such a record always raise and change nothing.
    The error they raise is that same [ValueError] whenever the identifier
    rules and the port-uniqueness rule, which are checked first, are met. *)
Theorem ui_group_fault_refused data :
  has_ui data = true -> ui_fault data ->
  exists m f,
    _validate_dashy_tile_fields data = Raise (ValueError m) /\
    message_field m = Some f /\ violates data f /\
    forall st component_id,
      (exists e, add_component component_id data st = (Raise e, st) /\
                 (records_only (components_data st) -> exists m', e = ValueError m')) /\
      (exists e, update_component component_id data st = (Raise e, st) /\
                 (records_only (components_data st) -> exists m', e = ValueError m')) /\
      (id_checks component_id true (components_data st) = Ok tt ->
       no_port_clash (components_data st) (field "ui_port" data) None ->
       add_component component_id data st = (Raise (ValueError m), st)) /\
      (id_checks component_id false (components_data st) = Ok tt ->
       no_port_clash (components_data st) (field "ui_port" data) (Some component_id) ->
       update_component component_id data st = (Raise (ValueError m), st)).
Proof.
  intros Hui Hf. assert (Hd : is_dict data = true) by now apply has_ui_is_dict.
  destruct (ui_fault_violates _ Hf) as [f0 Hv0].
  destruct (dashy_cases data Hd Hui) as [[_ Hok]|[m [f [E [Hm Hv]]]]].
  { exfalso. eapply violates_not_ok; eauto. }
  exists m, f. repeat split; trivial.
  - destruct (record_checks_fault data None (components_data st) m Hui E) as [e [He _]].
    rewrite add_component_run. unfold add_checks.
    destruct (id_checks component_id true (components_data st)) as [[]|e0] eqn:Hid; simpl.
    + rewrite He. exists e. split; [reflexivity|]. intros Hrec.
      eapply record_checks_error; eauto.
    + exists e0. split; [reflexivity|]. intros _. eapply id_checks_error, Hid.
  - destruct (record_checks_fault data (Some component_id) (components_data st) m Hui E)
      as [e [He _]].
    rewrite update_component_run. unfold update_checks.
    destruct (id_checks component_id false (components_data st)) as [[]|e0] eqn:Hid; simpl.
    + rewrite He. exists e. split; [reflexivity|]. intros Hrec.
      eapply record_checks_error; eauto.
    + exists e0. split; [reflexivity|]. intros _. eapply id_checks_error, Hid.
  - intros Hid Hc.
    destruct (record_checks_fault data None (components_data st) m Hui E) as [e [He Hem]].
    rewrite add_component_run. unfold add_checks. rewrite Hid. simpl.
    now rewrite He, (Hem Hc).
  - intros Hid Hc.
    destruct (record_checks_fault data (Some component_id) (components_data st) m Hui E)
      as [e [He Hem]].
    rewrite update_component_run. unfold update_checks. rewrite Hid. simpl.
    now rewrite He, (Hem Hc).
Qed.

(** The port loop never looks at the port of a record without a web
    interface. *)
Lemma ui_port_loop_filter d port edited :
  records_only d ->
  ui_port_loop d port edited =
  ui_port_loop (filter (fun kv => has_ui (snd kv)) d) port edited.
Proof.
  unfold records_only. induction d as [|[k0 v0] d IH]; simpl; trivial.
  intros Hrec. assert (Hd : is_dict v0 = true) by (eapply Hrec; now left).
  assert (IH' : ui_port_loop d port edited =
                ui_port_loop (filter (fun kv => has_ui (snd kv)) d) port edited)
    by (apply IH; eauto).
  unfold has_ui at 1.
  destruct (truthy (field "has_ui" v0)) eqn:Hui; simpl.
  - destruct (is_edited k0 edited); trivial.
    rewrite !(py_get_of_dict _ _ Hd). simpl. rewrite Hui.
    now destruct (py_eq (field "ui_port" v0) port).
  - destruct (is_edited k0 edited); trivial.
    rewrite !(py_get_of_dict _ _ Hd). simpl. now rewrite Hui.
Qed.

(** C10.  The port-uniqueness check compares the new port with the records
    whose [has_ui] is true and with no others.  When a stored record without
    a web interface carries the very port of a new record with one, the check
    passes as long as no record with a web interface has that port; and when
    the remaining rules are met every check of Create and of Update passes,
    so that the call succeeds whenever the save of the new store does. *)
Theorem port_of_record_without_ui_is_free st data other r :
  records_only (components_data st) ->
  In (other, r) (components_data st) ->
  has_ui r = false ->
  py_eq (field "ui_port" r) (field "ui_port" data) = true ->
  has_ui data = true ->
  ui_group_ok data ->
  truthy (field "name" data) = true ->
  forall component_id edited,
    (forall k v, In (k, v) (components_data st) -> is_edited k edited = false ->
       has_ui v = true -> py_eq (field "ui_port" v) (field "ui_port" data) = false) ->
    (is_reverse_proxy data = true -> no_other_proxy (components_data st) edited) ->
    ui_port_loop (components_data st) (field "ui_port" data) edited = Ok tt /\
    (edited = None ->
     id_checks component_id true (components_data st) = Ok tt ->
     add_checks component_id data (components_data st) = Ok tt /\
     forall st',
       _save_data (with_data st (Dict.set component_id data (components_data st)))
         = (Ok tt, st') ->
       add_component component_id data st = (Ok tt, st') /\
       components_data st' = Dict.set component_id data (components_data st)) /\
    (edited = Some component_id ->
     id_checks component_id false (components_data st) = Ok tt ->
     update_checks component_id data (components_data st) = Ok tt /\
     forall st',
       _save_data (with_data st (Dict.set component_id data (components_data st)))
         = (Ok tt, st') ->
       update_component component_id data st = (Ok tt, st') /\
       components_data st' = Dict.set component_id data (components_data st)).
Proof.
  intros Hrec Hin Hr Heq Hui Hg Hn component_id edited Hfree Hproxy.
  assert (Hc : no_port_clash (components_data st) (field "ui_port" data) edited).
  { intros k v Hk He. split; [eapply Hrec; eauto|]. intros Hv. eapply Hfree; eauto. }
  assert (Hacc : accepted data edited (components_data st)).
  { constructor; trivial; [now apply has_ui_is_dict|]. intros _. now split. }
  split; [now apply ui_port_loop_ok|]. split.
  - intros -> Hid. now apply add_component_saves.
  - intros -> Hid. now apply update_component_saves.
Qed.

(** C3.  In a store that satisfies the invariants, the checks Update makes
    for a stored record skip that record: its own port passes the uniqueness
    loop and its own proxy flag passes the singleton loop.  So for a well
    formed record that keeps the stored [ui_port] (both with [has_ui] true)
    and is a reverse proxy only if the stored record is one, every check of
    Update passes, and Update succeeds whenever the save of the store with
    that record in it does. *)
Theorem update_keeping_own_port_and_proxy st component_id old data :
  store_ok (components_data st) ->
  Dict.get component_id (components_data st) = Some old ->
  (has_ui old = true ->
   ui_port_loop (components_data st) (field "ui_port" old) (Some component_id) = Ok tt) /\
  (is_reverse_proxy old = true ->
   reverse_proxy_loop (components_data st) (Some component_id) = Ok tt) /\
  (is_dict data = true ->
   truthy (field "name" data) = true ->
   (has_ui data = true ->
    ui_group_ok data /\ has_ui old = true /\
    py_eq (field "ui_port" old) (field "ui_port" data) = true) ->
   (is_reverse_proxy data = true -> is_reverse_proxy old = true) ->
   update_checks component_id data (components_data st) = Ok tt /\
   forall st',
     _save_data (with_data st (Dict.set component_id data (components_data st)))
       = (Ok tt, st') ->
     update_component component_id data st = (Ok tt, st') /\
     components_data st' = Dict.set component_id data (components_data st)).
Proof.
  intros [Hrec [Hu Hid] H2 H3 H4 H5] Hget.
  assert (Hold : In (component_id, old) (components_data st))
    by now apply DictFacts.get_in.
  assert (Hne : forall k, is_edited k (Some component_id) = false -> k <> component_id).
  { intros k Hk. simpl in Hk. now apply String.eqb_neq. }
  assert (Hport : has_ui old = true ->
                  no_port_clash (components_data st) (field "ui_port" old)
                    (Some component_id)).
  { intros Ho k v Hk He. split; [eapply Hrec; eauto|]. intros Hv.
    eapply H2; eauto. }
  assert (Hprox : is_reverse_proxy old = true ->
                  no_other_proxy (components_data st) (Some component_id)).
  { intros Ho k v Hk He. split; [eapply Hrec; eauto|].
    destruct (is_reverse_proxy v) eqn:Hv; trivial.
    exfalso. apply (Hne _ He). eapply H3; eauto. }
  split; [intros Ho; now apply ui_port_loop_ok, Hport|].
  split; [intros Ho; now apply reverse_proxy_loop_ok, Hprox|].
  intros Hd Hn Hui Hpx.
  apply update_component_saves.
  - apply id_checks_ok. assert (Hm : re_match_id component_id = true).
    { apply Hid. eapply DictFacts.in_keys, Hold. }
    repeat split; trivial.
    + now apply re_match_id_nonempty.
    + unfold Dict.mem. now rewrite Hget.
  - constructor; trivial.
    + intros Hnew. destruct (Hui Hnew) as [Hg [Ho Heq]]. split; trivial.
      intros k v Hk He. destruct (Hport Ho k v Hk He) as [Hdv Hc].
      split; trivial. intros Hv.
      rewrite <- (py_eq_int_congr (field "ui_port" old) (field "ui_port" data)); auto.
      * apply (H4 _ _ Hold Ho).
      * apply Hg.
    + intros Hnew. apply Hprox. auto.
Qed.

End Claims.

(** C8 as worded: writing through what [get_all_components] returned
    leaves the manager's mapping alone.  It does not: on the empty manager
    the write puts an entry into [self.components_data], under a key that no
    Create would accept and with a value that is not a record. *)
Lemma get_all_components_write_through :
  get_all_components empty_manager = (Ok ManagerData, empty_manager) /\
  ref_setitem ManagerData "Not An Id" (PInt 7) empty_manager
    = (Ok ManagerData,
       mkState "components_metadata.json" [("Not An Id", PInt 7)] (mkFs [] [])) /\
  components_data
    (snd (ref_setitem ManagerData "Not An Id" (PInt 7) empty_manager))
    <> components_data empty_manager /\
  fst (add_component "Not An Id" (PInt 7) empty_manager) = Raise (ValueError IdCharset).
Proof.
  split; [reflexivity|]. split; [reflexivity|]. split; [discriminate|reflexivity].
Qed.

(** C8, amended.  [get_all_components] returns the manager's own mapping,
    not a copy and not a read-only view: the reference denotes the full
    mapping, and a write through it lands in [self.components_data] without
    any check, is what [get_component] then returns, and is not persisted. *)
Theorem get_all_components_is_the_store st :
  get_all_components st = (Ok ManagerData, st) /\
  deref ManagerData st = (Ok (components_data st), st) /\
  forall key value,
    exists st2,
      ref_setitem ManagerData key value st = (Ok ManagerData, st2) /\
      components_data st2 = Dict.set key value (components_data st) /\
      fst (get_component key st2) = Ok value /\
      fs st2 = fs st.
Proof.
  split; [reflexivity|]. split; [reflexivity|].
  intros key value. eexists. split; [reflexivity|].
  simpl. repeat split. unfold get_component, reading. simpl.
  now rewrite DictFacts.get_set_same.
Qed.

(** A write through a copy would have stayed with the caller. *)
Lemma detached_write_stays_out d key value st :
  ref_setitem (Detached d) key value st = (Ok (Detached (Dict.set key value d)), st).
Proof. reflexivity. Qed.

(** ** Identifiers *)

(** An identifier of class characters only is accepted by Create when nothing
    else stands in the way (the first half of C4). *)
Lemma create_with_valid_identifier component_id data st :
  component_id <> "" -> all_id_chars component_id = true ->
  Dict.mem component_id (components_data st) = false ->
  accepted data None (components_data st) ->
  add_checks component_id data (components_data st) = Ok tt /\
  forall st',
    _save_data (with_data st (Dict.set component_id data (components_data st)))
      = (Ok tt, st') ->
    add_component component_id data st = (Ok tt, st') /\
    components_data st' = Dict.set component_id data (components_data st).
Proof.
  intros Hne Hall Hmem Hacc. apply add_component_saves; trivial.
  apply id_checks_ok. repeat split; trivial. now apply re_match_id_complete.
Qed.

(** An identifier the pattern does not match is refused by Create and by
    Update, with the message about the allowed characters. *)
Lemma unmatched_identifier_refused component_id data st :
  component_id <> "" -> re_match_id component_id = false ->
  add_component component_id data st = (Raise (ValueError IdCharset), st) /\
  update_component component_id data st = (Raise (ValueError IdCharset), st).
Proof.
  intros Hne Hm. rewrite add_component_run, update_component_run.
  unfold add_checks, update_checks, id_checks.
  destruct (String.eqb_spec component_id ""); [contradiction|].
  rewrite Hm. simpl. auto.
Qed.

(** The pattern lets one trailing newline through: whenever [w] would be
    accepted as a new identifier, so is [w] followed by a newline. *)
Lemma trailing_newline_matched w :
  w <> "" -> all_id_chars w = true ->
  re_match_id (w ++ String newline "") = true /\
  all_id_chars (w ++ String newline "") = false.
Proof.
  destruct w as [|c w]; [congruence|]. intros _. unfold all_id_chars. simpl.
  rewrite andb_true_iff. intros [Hc Hw]. rewrite Hc. simpl. split.
  - induction w as [|c' w IH]; simpl in *; trivial.
    apply andb_true_iff in Hw. destruct Hw as [Hc' Hw]. rewrite Hc'. auto.
  - induction w as [|c' w IH]; simpl in *; trivial.
    apply andb_true_iff in Hw. destruct Hw as [Hc' Hw]. rewrite Hc'. auto.
Qed.

(** C4.  Create accepts the identifier ["svc\n"], whose last character is a
    newline and so is none of the lowercase letters, digits and the hyphen:
    [$] in the pattern also matches just before a final newline. *)
Theorem create_accepts_trailing_newline :
  all_id_chars svc_newline = false /\
  exists w, add_component svc_newline plain empty_manager =
              (Ok tt, mkState "components_metadata.json" [(svc_newline, plain)] w).
Proof.
  split; [reflexivity|]. eexists. vm_compute. reflexivity.
Qed.

(** C1.  A store reached from the empty one by a successful Create in which
    an identifier is not made of lowercase letters, digits and hyphens only:
    I1 fails in it. *)
Theorem reachable_store_breaks_I1 :
  exists st,
    reachable st /\
    run (Create svc_newline plain) empty_manager = (Ok tt, st) /\
    ~ I1 (components_data st).
Proof.
  exists (snd (run (Create svc_newline plain) empty_manager)).
  split; [|split].
  - eapply reach_call; [apply reach_empty|].
    apply surjective_pairing.
  - vm_compute. reflexivity.
  - intros [_ H]. specialize (H svc_newline (or_introl eq_refl)).
    destruct H as [_ H]. vm_compute in H. discriminate.
Qed.

(** ** Persisting and loading *)

Section RoundTrip.
Context {json : JsonLib} {law : JsonRoundTrip json}.

(** C7.  After [_save_data] has succeeded, a manager constructed on the same
    path and file system is the manager that saved: its mapping is, entry
    for entry and field for field, the mapping that was persisted. *)
Theorem persist_then_load st st' :
  well_keyed (PDict (components_data st)) = true ->
  _save_data st = (Ok tt, st') ->
  __init__ (filepath st') (fs st') = Ok st' /\
  components_data st' = components_data st.
Proof.
  intros Hwk. unfold _save_data, write_file, os_replace.
  destruct (json_dump (PDict (components_data st))) as [text|written] eqn:Hd;
    (destruct (writable (filepath st ++ ".tmp") (fs st)); [|discriminate]);
    [|discriminate].
  simpl. rewrite DictFacts.get_set_same.
  destruct (writable (filepath st) _); [|discriminate].
  intros [= <-]. simpl. split; [|reflexivity].
  unfold __init__, _load_data. simpl.
  rewrite DictFacts.get_set_same, (load_dump _ _ Hwk Hd). reflexivity.
Qed.

End RoundTrip.

(** ** The JSON text of a value decodes to the value *)

Module PyJsonFacts.
Import PyJson.

Lemma append_assoc (a b c : string) : (a ++ b) ++ c = a ++ (b ++ c).
Proof. induction a as [|x a IH]; simpl; congruence. Qed.

Lemma length_append (a b : string) :
  String.length (a ++ b) = String.length a + String.length b.
Proof. induction a as [|x a IH]; simpl; congruence. Qed.

(** *** White space *)

Lemma skip_ws_head c rest : is_ws c = false -> skip_ws (String c rest) = String c rest.
Proof. intros H. simpl. now rewrite H. Qed.

Lemma skip_ws_spaces n s : skip_ws (spaces n ++ s) = skip_ws s.
Proof. induction n as [|n IH]; simpl; trivial. Qed.

Lemma skip_ws_nl level s : skip_ws (nl level ++ s) = skip_ws s.
Proof. unfold nl. simpl. apply skip_ws_spaces. Qed.

(** *** Integers *)

Lemma delimited_not_float rest : delimited rest = true -> starts_float rest = false.
Proof.
  destruct rest as [|c [|b tail]]; simpl; trivial.
  rewrite orb_true_iff. intros [H|H]; apply Ascii.eqb_eq in H; subst; reflexivity.
Qed.

Lemma span_digits_uint d rest :
  match rest with String c _ => is_digit c = false | EmptyString => True end ->
  span_digits (NilEmpty.string_of_uint d ++ rest) = (NilEmpty.string_of_uint d, rest).
Proof.
  intros Hr. induction d; simpl; try (rewrite IHd; reflexivity).
  destruct rest as [|c rest]; simpl; trivial. now rewrite Hr.
Qed.

Lemma delimited_not_digit rest :
  delimited rest = true ->
  match rest with String c _ => is_digit c = false | EmptyString => True end.
Proof.
  destruct rest as [|c rest]; simpl; trivial.
  rewrite orb_true_iff. intros [H|H]; apply Ascii.eqb_eq in H; subst; reflexivity.
Qed.

Lemma nzhead_not_D0 d : match nzhead d with D0 _ => False | _ => True end.
Proof. induction d; simpl; trivial. Qed.

Lemma to_uint_normal p : unorm (Pos.to_uint p) = Pos.to_uint p.
Proof.
  rewrite <- (DecimalPos.Unsigned.to_of (Pos.to_uint p)).
  now rewrite DecimalPos.Unsigned.of_to.
Qed.

Lemma to_uint_head p : match Pos.to_uint p with D0 _ | Nil => False | _ => True end.
Proof.
  generalize (to_uint_normal p) (nzhead_not_D0 (Pos.to_uint p))
             (DecimalPos.Unsigned.to_uint_nonzero p).
  unfold unorm. destruct (nzhead (Pos.to_uint p)); intros <-; simpl; trivial.
  intros _ H. now apply H.
Qed.

Lemma parse_int_part_pos p rest :
  delimited rest = true ->
  parse_int_part (NilEmpty.string_of_uint (Pos.to_uint p) ++ rest) = Some (Zpos p, rest).
Proof.
  intros Hr. generalize (to_uint_head p).
  assert (Hv : Z.of_uint (Pos.to_uint p) = Zpos p).
  { unfold Z.of_uint. now rewrite DecimalPos.Unsigned.of_to. }
  assert (Hs := span_digits_uint (Pos.to_uint p) rest (delimited_not_digit _ Hr)).
  assert (Hu := NilEmpty.usu (Pos.to_uint p)).
  unfold parse_int_part.
  destruct (Pos.to_uint p) eqn:E; intros Hh; try contradiction;
    cbn [NilEmpty.string_of_uint append] in *;
    cbn [Ascii.eqb Bool.eqb is_digit nat_of_ascii];
    (rewrite Hs, Hu, Hv; reflexivity).
Qed.

Lemma string_of_uint_nonnil d :
  d <> Nil -> NilZero.string_of_uint d = NilEmpty.string_of_uint d.
Proof. destruct d; trivial. congruence. Qed.

Lemma parse_number_dump n rest :
  delimited rest = true -> parse_number (dump_int n ++ rest) = Some (PInt n, rest).
Proof.
  intros Hr. unfold dump_int, parse_number. destruct n as [|p|p]; simpl.
  - now rewrite (delimited_not_float _ Hr).
  - rewrite string_of_uint_nonnil by apply DecimalPos.Unsigned.to_uint_nonnil.
    generalize (parse_int_part_pos p rest Hr) (to_uint_head p).
    destruct (Pos.to_uint p); try contradiction; intros H _;
      cbn [NilEmpty.string_of_uint append] in *; cbn [Ascii.eqb Bool.eqb];
      rewrite H, (delimited_not_float _ Hr); reflexivity.
  - rewrite string_of_uint_nonnil by apply DecimalPos.Unsigned.to_uint_nonnil.
    now rewrite parse_int_part_pos, (delimited_not_float _ Hr).
Qed.

(** *** Strings *)

Lemma parse_escape_char c tail :
  parse_string_body (escape_char c ++ tail) = prepend c (parse_string_body tail).
Proof.
  destruct c as [[] [] [] [] [] [] [] []]; reflexivity.
Qed.

Lemma parse_string_escape s rest :
  parse_string_body (escape s ++ String dquote rest) = Some (s, rest).
Proof.
  induction s as [|c s IH]; [reflexivity|].
  cbn [escape]. rewrite append_assoc, parse_escape_char, IH. reflexivity.
Qed.

Lemma dump_str_append s rest :
  dump_str s ++ rest = String dquote (escape s ++ String dquote rest).
Proof. unfold dump_str. cbn [append]. now rewrite append_assoc. Qed.

(** *** The first character of a value *)

Lemma dump_int_head n :
  exists c r, dump_int n = String c r /\ (c = "-"%char \/ is_digit c = true).
Proof.
  unfold dump_int. destruct n as [|p|p]; simpl.
  - exists "0"%char, "". auto.
  - generalize (to_uint_head p). destruct (Pos.to_uint p); try contradiction;
      intros _; cbn [NilZero.string_of_uint NilEmpty.string_of_uint];
      do 2 eexists; (split; [reflexivity|right; reflexivity]).
  - do 2 eexists. split; [reflexivity|now left].
Qed.

Lemma number_head_plain c :
  c = "-"%char \/ is_digit c = true ->
  is_ws c = false /\ Ascii.eqb c "]" = false.
Proof.
  destruct c as [[] [] [] [] [] [] [] []]; intros [H|H]; try discriminate; auto.
Qed.

Lemma dump_head level v :
  exists c r, dump level v = String c r /\ is_ws c = false /\ Ascii.eqb c "]" = false.
Proof.
  destruct v as [|[]|n|s|[|x xs]|[|[k x] xs]];
    try (do 2 eexists; split; [reflexivity|split; reflexivity]).
  destruct (dump_int_head n) as [c [r [E Hc]]].
  exists c, r. split; [exact E|]. now apply number_head_plain.
Qed.

Lemma skip_ws_dump level v rest : skip_ws (dump level v ++ rest) = dump level v ++ rest.
Proof.
  destruct (dump_head level v) as [c [r [-> [Hc _]]]]. now apply skip_ws_head.
Qed.

Lemma parse_value_number fuel c r :
  c = "-"%char \/ is_digit c = true ->
  parse_value (S fuel) (String c r) = parse_number (String c r).
Proof.
  destruct c as [[] [] [] [] [] [] [] []]; intros [H|H]; try discriminate; reflexivity.
Qed.

(** *** Objects *)

Lemma set_fresh (k : string) (v : pyval) (acc : Dict.dict pyval) :
  existsb (String.eqb k) (Dict.keys acc) = false ->
  Dict.set k v acc = (acc ++ [(k, v)])%list.
Proof.
  induction acc as [|[k0 v0] acc IH]; simpl; trivial.
  rewrite orb_false_iff. intros [H1 H2].
  rewrite String.eqb_sym, H1. now rewrite IH.
Qed.

Lemma dict_of_pairs_distinct (d acc : Dict.dict pyval) :
  distinct (Dict.keys (acc ++ d)%list) = true ->
  fold_left (fun m kv => Dict.set (fst kv) (snd kv) m) d acc = (acc ++ d)%list.
Proof.
  revert acc. induction d as [|[k v] d IH]; intros acc H; simpl.
  - now rewrite app_nil_r.
  - assert (E : (acc ++ (k, v) :: d = (acc ++ [(k, v)]) ++ d)%list)
      by now rewrite <- app_assoc.
    rewrite E in *. rewrite set_fresh; [now apply IH|].
    clear IH E. induction acc as [|[k0 v0] acc IHa]; simpl in *; trivial.
    apply andb_true_iff in H. destruct H as [H1 H2].
    rewrite (IHa H2), orb_false_r.
    apply negb_true_iff in H1. unfold Dict.keys in H1.
    rewrite !map_app, existsb_app in H1. simpl in H1.
    rewrite !orb_false_iff in H1. destruct H1 as [H1 _].
    rewrite existsb_app in H1. simpl in H1. rewrite !orb_false_iff in H1.
    destruct H1 as [_ [H1 _]]. now rewrite String.eqb_sym.
Qed.

(** *** Values *)

Lemma parse_elements_eq f s :
  parse_elements (S f) s =
    match parse_value f s with
    | Some (v, tail) =>
        match skip_ws tail with
        | String c rest =>
            if Ascii.eqb c "]" then Some ([v], rest)
            else if Ascii.eqb c "," then
              match parse_elements f (skip_ws rest) with
              | Some (vs, tail') => Some (v :: vs, tail')
              | None => None
              end
            else None
        | EmptyString => None
        end
    | None => None
    end.
Proof. reflexivity. Qed.

Lemma parse_members_eq f s :
  parse_members (S f) s =
    match parse_string_body s with
    | Some (key, tail) =>
        match skip_ws tail with
        | String c rest =>
            if Ascii.eqb c ":" then
              match parse_value f (skip_ws rest) with
              | Some (v, tail1) =>
                  match skip_ws tail1 with
                  | String c1 rest1 =>
                      if Ascii.eqb c1 "}" then Some ([(key, v)], rest1)
                      else if Ascii.eqb c1 "," then
                        match skip_ws rest1 with
                        | String c2 rest2 =>
                            if Ascii.eqb c2 dquote then
                              match parse_members f rest2 with
                              | Some (kvs, tail2) => Some ((key, v) :: kvs, tail2)
                              | None => None
                              end
                            else None
                        | EmptyString => None
                        end
                      else None
                  | EmptyString => None
                  end
              | None => None
              end
            else None
        | EmptyString => None
        end
    | None => None
    end.
Proof. reflexivity. Qed.

Lemma parse_value_list f rest :
  parse_value (S f) (String "[" rest) =
    match skip_ws rest with
    | String c1 rest1 =>
        if Ascii.eqb c1 "]" then Some (PList [], rest1)
        else
          match parse_elements f (String c1 rest1) with
          | Some (items, tail) => Some (PList items, tail)
          | None => None
          end
    | EmptyString => None
    end.
Proof. reflexivity. Qed.

Lemma parse_value_dict f rest :
  parse_value (S f) (String "{" rest) =
    match skip_ws rest with
    | String c1 rest1 =>
        if Ascii.eqb c1 "}" then Some (PDict [], rest1)
        else if Ascii.eqb c1 dquote then
          match parse_members f rest1 with
          | Some (pairs, tail) =>
              Some (PDict (fold_left (fun d kv => Dict.set (fst kv) (snd kv) d)
                                     pairs []), tail)
          | None => None
          end
        else None
    | EmptyString => None
    end.
Proof. reflexivity. Qed.

Lemma parse_value_string f rest :
  parse_value (S f) (String dquote rest) =
    match parse_string_body rest with
    | Some (str, tail) => Some (PStr str, tail)
    | None => None
    end.
Proof. reflexivity. Qed.

Lemma delimited_joined {A : Type} (item : A -> string) s level close xs :
  delimited (joined item (String "," s) (nl level ++ close) xs) = true.
Proof. destruct xs; reflexivity. Qed.

Lemma parse_elements_dump xs :
  forall x level rest fuel,
    decodes x -> well_keyed x = true ->
    Forall decodes xs -> forallb well_keyed xs = true ->
    S (size x) + fold_right (fun x acc => S (size x) + acc) 0 xs <= fuel ->
    parse_elements fuel
      (dump (S level) x ++
       joined (dump (S level)) (String "," (nl (S level))) (nl level ++ String "]" rest) xs)
    = Some (x :: xs, rest).
Proof.
  induction xs as [|y ys IH]; intros x level rest fuel Hx Hwx Hxs Hwxs Hf;
    (destruct fuel as [|f]; [simpl in Hf; lia|]);
    rewrite parse_elements_eq;
    (rewrite (Hx Hwx); [|apply delimited_joined|simpl in Hf; lia]).
  - cbn [joined]. rewrite skip_ws_nl. reflexivity.
  - cbn [joined]. cbn [append]. rewrite skip_ws_head by reflexivity.
    cbn [Ascii.eqb Bool.eqb].
    rewrite skip_ws_nl, skip_ws_dump.
    inversion Hxs as [|? ? Hy Hys]; subst.
    simpl in Hwxs. apply andb_true_iff in Hwxs. destruct Hwxs as [Hwy Hwys].
    rewrite (IH y level rest f Hy Hwy Hys Hwys); [reflexivity|].
    simpl in Hf |- *. lia.
Qed.

Lemma parse_members_dump xs :
  forall k x level rest fuel,
    decodes x -> well_keyed x = true ->
    Forall (fun kv => decodes (snd kv)) xs ->
    forallb (fun kv => well_keyed (snd kv)) xs = true ->
    S (size x) + fold_right (fun kv acc => S (size (snd kv)) + acc) 0 xs <= fuel ->
    parse_members fuel
      (escape k ++
       String dquote
         (String ":" (String " "
            (dump (S level) x ++
             joined (fun kv => dump_str (fst kv) ++ ": " ++ dump (S level) (snd kv))
                    (String "," (nl (S level))) (nl level ++ String "}" rest) xs))))
    = Some ((k, x) :: xs, rest).
Proof.
  induction xs as [|[k' y] ys IH]; intros k x level rest fuel Hx Hwx Hxs Hwxs Hf;
    (destruct fuel as [|f]; [simpl in Hf; lia|]);
    rewrite parse_members_eq, parse_string_escape;
    rewrite skip_ws_head by reflexivity; cbn [Ascii.eqb Bool.eqb];
    change (skip_ws (String " " ?s)) with (skip_ws s);
    rewrite skip_ws_dump;
    (rewrite (Hx Hwx); [|apply delimited_joined|simpl in Hf; lia]).
  - cbn [joined]. rewrite skip_ws_nl. reflexivity.
  - cbn [joined fst snd]. rewrite !append_assoc, dump_str_append. cbn [append].
    rewrite skip_ws_head by reflexivity. cbn [Ascii.eqb Bool.eqb].
    rewrite skip_ws_nl. rewrite skip_ws_head by reflexivity.
    change (Ascii.eqb dquote dquote) with true. cbv iota.
    inversion Hxs as [|? ? Hy Hys]; subst.
    simpl in Hwxs. apply andb_true_iff in Hwxs. destruct Hwxs as [Hwy Hwys].
    assert (Hf' : S (size y) + fold_right (fun kv acc => S (size (snd kv)) + acc) 0 ys <= f)
      by (simpl in Hf |- *; lia).
    specialize (IH k' y level rest f Hy Hwy Hys Hwys Hf'). cbn [append] in IH.
    rewrite IH. reflexivity.
Qed.

Lemma joined_append {A : Type} (item : A -> string) sep close xs rest :
  joined item sep close xs ++ rest = joined item sep (close ++ rest) xs.
Proof.
  induction xs as [|y ys IH]; cbn [joined]; trivial.
  now rewrite !append_assoc, IH.
Qed.

(** Printing then scanning a value gives the value back and stops where the
    text of the value stops. *)
Lemma parse_value_dump v : decodes v.
Proof.
  induction v as [|b|n|s|l IH|d IH] using pyval_induction;
    intros Hwk level rest fuel Hr Hf;
    (destruct fuel as [|f]; [simpl in Hf; lia|]).
  - reflexivity.
  - destruct b; reflexivity.
  - cbn [dump]. destruct (dump_int_head n) as [c [r [E Hc]]].
    rewrite E. cbn [append]. rewrite parse_value_number by exact Hc.
    change (String c (r ++ rest)) with (String c r ++ rest). rewrite <- E.
    now apply parse_number_dump.
  - cbn [dump]. rewrite dump_str_append, parse_value_string, parse_string_escape.
    reflexivity.
  - destruct l as [|x xs]; [reflexivity|].
    change (dump level (PList (x :: xs)))
      with ("[" ++ nl (S level) ++ dump (S level) x ++
            joined (dump (S level)) ("," ++ nl (S level)) (nl level ++ "]") xs).
    rewrite !append_assoc, joined_append, append_assoc. cbn [append].
    rewrite parse_value_list, skip_ws_nl, skip_ws_dump.
    inversion IH as [|? ? Hx Hxs]; subst.
    simpl in Hwk. apply andb_true_iff in Hwk. destruct Hwk as [Hwx Hwxs].
    assert (Hp := parse_elements_dump xs x level rest f Hx Hwx Hxs Hwxs).
    destruct (dump_head (S level) x) as [c [r [E [_ Hb]]]].
    rewrite E in *. cbn [append] in *. rewrite Hb, Hp; [reflexivity|].
    simpl in Hf |- *. lia.
  - destruct d as [|[k x] xs]; [reflexivity|].
    change (dump level (PDict ((k, x) :: xs)))
      with ("{" ++ nl (S level) ++ dump_str k ++ ": " ++ dump (S level) x ++
            joined (fun kv => dump_str (fst kv) ++ ": " ++ dump (S level) (snd kv))
                   ("," ++ nl (S level)) (nl level ++ "}") xs).
    rewrite !append_assoc, joined_append, append_assoc, dump_str_append. cbn [append].
    rewrite parse_value_dict, skip_ws_nl. rewrite skip_ws_head by reflexivity.
    change (Ascii.eqb dquote "}") with false.
    change (Ascii.eqb dquote dquote) with true. cbv iota.
    inversion IH as [|? ? Hx Hxs]; subst. simpl in Hx.
    simpl in Hwk. rewrite !andb_true_iff in Hwk.
    destruct Hwk as [[Hk Hd] [Hwx Hwxs]].
    assert (Hf' : S (size x) + fold_right (fun kv acc => S (size (snd kv)) + acc) 0 xs <= f)
      by (simpl in Hf |- *; lia).
    assert (Hp := parse_members_dump xs k x level rest f Hx Hwx Hxs Hwxs Hf').
    cbn [append] in Hp. rewrite Hp.
    rewrite (dict_of_pairs_distinct ((k, x) :: xs) []); [reflexivity|].
    simpl. now rewrite Hk, Hd.
Qed.

(** *** The fuel [load] gives is enough *)

Lemma joined_length {A : Type} (item : A -> string) (m : A -> nat) c s close xs :
  Forall (fun y => m y <= String.length (item y)) xs ->
  fold_right (fun y acc => S (m y) + acc) 0 xs
  <= String.length (joined item (String c s) close xs).
Proof.
  induction 1 as [|y ys Hy _ IH]; cbn [joined fold_right]; [lia|].
  cbn [append String.length]. rewrite !length_append. lia.
Qed.

Lemma size_le_length v : forall level, 1 <= size v <= String.length (dump level v).
Proof.
  induction v as [|b|n|s|l IH|d IH] using pyval_induction; intros level.
  - simpl. lia.
  - destruct b; simpl; lia.
  - destruct (dump_head level (PInt n)) as [c [r [E _]]]. rewrite E. simpl. lia.
  - simpl. lia.
  - destruct l as [|x xs]; [simpl; lia|].
    change (dump level (PList (x :: xs)))
      with ("[" ++ nl (S level) ++ dump (S level) x ++
            joined (dump (S level)) ("," ++ nl (S level)) (nl level ++ "]") xs).
    inversion IH as [|? ? Hx Hxs]; subst.
    cbn [size fold_right]. cbn [append String.length nl].
    rewrite !length_append. split; [lia|].
    assert (Hj := joined_length (dump (S level)) size "," (nl (S level))
                    (nl level ++ "]") xs).
    cbn [append] in Hj.
    specialize (Hx (S level)).
    assert (Forall (fun y => size y <= String.length (dump (S level) y)) xs).
    { eapply Forall_impl; [|exact Hxs]. intros y Hy. apply Hy. }
    specialize (Hj H). cbn [nl append] in Hj. lia.
  - destruct d as [|[k x] xs]; [simpl; lia|].
    change (dump level (PDict ((k, x) :: xs)))
      with ("{" ++ nl (S level) ++ dump_str k ++ ": " ++ dump (S level) x ++
            joined (fun kv => dump_str (fst kv) ++ ": " ++ dump (S level) (snd kv))
                   ("," ++ nl (S level)) (nl level ++ "}") xs).
    inversion IH as [|? ? Hx Hxs]; subst. simpl in Hx.
    cbn [size fold_right snd]. cbn [append String.length nl].
    rewrite !length_append. split; [lia|].
    assert (Hj := joined_length
                    (fun kv => dump_str (fst kv) ++ ": " ++ dump (S level) (snd kv))
                    (fun kv => size (snd kv)) "," (nl (S level))
                    (nl level ++ "}") xs).
    cbn [append] in Hj.
    specialize (Hx (S level)).
    assert (Forall (fun kv : string * pyval =>
                      size (snd kv)
                      <= String.length (dump_str (fst kv) ++ ": " ++ dump (S level) (snd kv)))
                   xs).
    { eapply Forall_impl; [|exact Hxs]. intros y Hy. simpl in Hy.
      rewrite !length_append. specialize (Hy (S level)). lia. }
    specialize (Hj H). cbn [nl append] in Hj.
    cbn [String.length]. rewrite !length_append. lia.
Qed.

Lemma append_empty (s : string) : s ++ "" = s.
Proof. induction s as [|c s IH]; simpl; congruence. Qed.

Lemma load_dump_value v : well_keyed v = true -> load (dump 0 v) = Some v.
Proof.
  intros Hwk. unfold load.
  rewrite <- (append_empty (dump 0 v)) at 2. rewrite skip_ws_dump.
  rewrite (parse_value_dump v Hwk 0 "" (S (String.length (dump 0 v)))); trivial.
  generalize (size_le_length v 0). lia.
Qed.

End PyJsonFacts.

#[export] Instance py_json_round_trip : JsonRoundTrip py_json.
Proof.
  intros v text Hwk. simpl. unfold PyJson.dump_to_file.
  destruct (PyJson.stops 0 v); [discriminate|].
  intros [= <-]. apply PyJsonFacts.load_dump_value, Hwk.
Qed.

(** ** The claims on sample managers *)

(** Without the exclusion a record with a web interface would clash with
    itself: the loop run as on the add path rejects its own port. *)
Lemma own_port_clashes_without_exclusion `{JsonLib} d component_id old :
  In (component_id, old) d -> has_ui old = true ->
  isinstance_int (field "ui_port" old) = true ->
  ui_port_loop d (field "ui_port" old) None <> Ok tt.
Proof.
  intros Hin Hui Hint Hl. apply ui_port_loop_ok in Hl.
  destruct (Hl _ _ Hin eq_refl) as [_ Hc].
  rewrite (py_eq_int_refl _ Hint) in Hc. specialize (Hc Hui). discriminate.
Qed.

(** [sample_manager] holds what two Creates on the empty manager leave. *)
Lemma sample_store_ok : store_ok (components_data sample_manager).
Proof.
  change (components_data sample_manager)
    with (components_data
            (snd (run (Create "backup" backup)
                    (snd (run (Create "nginx" nginx) empty_manager))))).
  apply reachable_store_ok.
  eapply reach_call; [|apply surjective_pairing].
  eapply reach_call; [|apply surjective_pairing].
  apply reach_empty.
Qed.

(** C2 on [sample_manager]: deleting an unknown identifier and creating a
    known one. *)
Lemma failed_validation_leaves_state_witness :
  checks_of (Delete "ghost") (components_data sample_manager)
    = Raise (ValueError (DeleteUnknown "ghost")) /\
  run (Delete "ghost") sample_manager
    = (Raise (ValueError (DeleteUnknown "ghost")), sample_manager) /\
  run (Create "nginx" plain) sample_manager
    = (Raise (ValueError (IdExists "nginx")), sample_manager).
Proof.
  split; [reflexivity|]. split.
  - apply (proj1 (failed_validation_leaves_state sample_manager (Delete "ghost"))).
    reflexivity.
  - apply (proj1 (failed_validation_leaves_state sample_manager (Create "nginx" plain))).
    reflexivity.
Defined.

(** C3 on [sample_manager]: [nginx] renamed, port 80 and the proxy flag kept. *)
Lemma update_keeping_own_port_and_proxy_witness :
  Dict.get "nginx" (components_data sample_manager) = Some nginx /\
  exists w, update_component "nginx" nginx_renamed sample_manager =
              (Ok tt, mkState "components_metadata.json"
                        [("nginx", nginx_renamed); ("backup", backup)] w).
Proof.
  split; [reflexivity|].
  assert (Hui : has_ui nginx_renamed = true ->
                ui_group_ok nginx_renamed /\ has_ui nginx = true /\
                py_eq (field "ui_port" nginx) (field "ui_port" nginx_renamed) = true).
  { intros _. split; [|split; reflexivity].
    constructor; try reflexivity.
    - split; [reflexivity|]. simpl. lia.
    - now left.
    - discriminate. }
  destruct (proj2 (proj2 (update_keeping_own_port_and_proxy sample_manager "nginx" nginx
                            nginx_renamed sample_store_ok eq_refl))
                  eq_refl eq_refl Hui (fun _ => eq_refl)) as [_ Hsave].
  eexists. eapply Hsave. reflexivity.
Defined.

(** C5 on a record with a web interface and no protocol. *)
Lemma ui_group_fault_refused_witness :
  has_ui grafana_no_protocol = true /\
  field "protocol" grafana_no_protocol = PNone /\
  _validate_dashy_tile_fields grafana_no_protocol = Raise (ValueError ProtocolRequired) /\
  add_component "grafana" grafana_no_protocol sample_manager
    = (Raise (ValueError ProtocolRequired), sample_manager) /\
  exists m f,
    _validate_dashy_tile_fields grafana_no_protocol = Raise (ValueError m) /\
    message_field m = Some f /\ violates grafana_no_protocol f.
Proof.
  split; [reflexivity|]. split; [reflexivity|]. split; [reflexivity|].
  split; [reflexivity|].
  destruct (ui_group_fault_refused grafana_no_protocol eq_refl
              (fault_protocol_missing grafana_no_protocol eq_refl)) as [m [f [E [Hm [Hv _]]]]].
  exists m, f. auto.
Defined.

(** Ports 0 and 70000 are out of range; an empty URL suffix is accepted. *)
Example port_bounds :
  _validate_dashy_tile_fields (grafana_on (PInt 0)) = Raise (ValueError PortRange) /\
  _validate_dashy_tile_fields (grafana_on (PInt 70000)) = Raise (ValueError PortRange) /\
  _validate_dashy_tile_fields (grafana_on (PInt 1)) = Ok tt /\
  _validate_dashy_tile_fields (grafana_on (PInt 65535)) = Ok tt /\
  _validate_dashy_tile_fields (grafana_on (PStr "8080")) = Raise (ValueError PortRange) /\
  _validate_dashy_tile_fields nginx = Ok tt.
Proof. repeat split. Qed.

(** [bool] is a subclass of [int]: [True] passes [isinstance(_, int)] and
    compares as 1, [False] as 0. *)
Example port_booleans :
  _validate_dashy_tile_fields (grafana_on (PBool true)) = Ok tt /\
  _validate_dashy_tile_fields (grafana_on (PBool false)) = Raise (ValueError PortRange).
Proof. split; reflexivity. Qed.

(** The scenario of the specification: [nginx] is created on the empty
    store and is then the only entry; a second reverse proxy is refused. *)
Example nginx_then_traefik :
  exists w,
    add_component "nginx" nginx empty_manager
      = (Ok tt, mkState "components_metadata.json" [("nginx", nginx)] w) /\
    add_component "traefik" (PDict [("name", PStr "Traefik"); ("is_reverse_proxy", PBool true)])
      (mkState "components_metadata.json" [("nginx", nginx)] w)
      = (Raise (ValueError (ProxyTaken "nginx")),
         mkState "components_metadata.json" [("nginx", nginx)] w).
Proof. eexists. split; vm_compute; reflexivity. Qed.

(** C6 with no file, an empty object, an array and a broken document. *)
Lemma load_behaviour_witness :
  __init__ "components_metadata.json" (mkFs [] []) = Ok empty_manager /\
  __init__ "components_metadata.json" (mkFs [("components_metadata.json", "{}")] [])
    = Ok (mkState "components_metadata.json" []
            (mkFs [("components_metadata.json", "{}")] [])) /\
  (exists m, __init__ "components_metadata.json"
               (mkFs [("components_metadata.json", "[1, 2]")] [])
             = Raise (ValueError m)) /\
  (exists m, __init__ "components_metadata.json"
               (mkFs [("components_metadata.json", "{ oops")] [])
             = Raise (ValueError m)).
Proof.
  split; [|split; [|split]].
  - apply (proj1 (load_behaviour "components_metadata.json" (mkFs [] []))).
    reflexivity.
  - apply (proj1 (proj2 (load_behaviour "components_metadata.json"
                           (mkFs [("components_metadata.json", "{}")] []))) "{}" []);
      reflexivity.
  - apply (proj2 (proj2 (load_behaviour "components_metadata.json"
                           (mkFs [("components_metadata.json", "[1, 2]")] []))) "[1, 2]");
      [reflexivity|].
    right. exists (PList [PInt 1; PInt 2]). split; reflexivity.
  - apply (proj2 (proj2 (load_behaviour "components_metadata.json"
                           (mkFs [("components_metadata.json", "{ oops")] []))) "{ oops");
      [reflexivity|].
    left. reflexivity.
Defined.

(** C7 on [sample_manager], with the JSON text [PyJson] writes and reads. *)
Lemma persist_then_load_witness :
  fst (_save_data sample_manager) = Ok tt /\
  __init__ "components_metadata.json" (fs (snd (_save_data sample_manager)))
    = Ok (snd (_save_data sample_manager)) /\
  components_data (snd (_save_data sample_manager)) = components_data sample_manager.
Proof.
  split; [reflexivity|].
  exact (persist_then_load sample_manager (snd (_save_data sample_manager))
           eq_refl eq_refl).
Defined.

(** C9 on [sample_manager]: creating [grafana] leaves [nginx] alone. *)
Lemma other_records_unchanged_witness :
  "nginx" <> "grafana" /\
  fst (run (Create "grafana" grafana) sample_manager) = Ok tt /\
  fst (get_component "nginx" (snd (run (Create "grafana" grafana) sample_manager)))
    = fst (get_component "nginx" sample_manager).
Proof.
  split; [discriminate|]. split; [reflexivity|].
  apply (other_records_unchanged (Create "grafana" grafana) sample_manager
           (fst (run (Create "grafana" grafana) sample_manager))).
  - apply surjective_pairing.
  - discriminate.
Defined.

(** C10 on [sample_manager]: [backup] has no web interface and carries port
    8080, which [grafana] then takes. *)
Lemma port_of_record_without_ui_is_free_witness :
  has_ui backup = false /\
  field "ui_port" backup = field "ui_port" grafana /\
  exists w, add_component "grafana" grafana sample_manager =
              (Ok tt, mkState "components_metadata.json"
                        [("nginx", nginx); ("backup", backup); ("grafana", grafana)] w).
Proof.
  split; [reflexivity|]. split; [reflexivity|].
  assert (Hg : ui_group_ok grafana).
  { constructor; try reflexivity.
    - split; [reflexivity|]. simpl. lia.
    - now right.
    - discriminate. }
  assert (Hfree : forall k v, In (k, v) (components_data sample_manager) ->
            is_edited k None = false -> has_ui v = true ->
            py_eq (field "ui_port" v) (field "ui_port" grafana) = false).
  { intros k v [[= <- <-]|[[= <- <-]|[]]] _ Hv; [reflexivity|discriminate]. }
  assert (Hproxy : is_reverse_proxy grafana = true ->
                     no_other_proxy (components_data sample_manager) None)
    by discriminate.
  destruct (proj1 (proj2 (port_of_record_without_ui_is_free sample_manager grafana
                            "backup" backup
                            (ok_records _ sample_store_ok)
                            (or_intror (or_introl eq_refl)) eq_refl eq_refl eq_refl
                            Hg eq_refl
                            "grafana" None Hfree Hproxy))
                  eq_refl eq_refl) as [_ Hsave].
  eexists. eapply Hsave. reflexivity.
Defined.

(** * More of the manager *)

(** ** Keys *)

Lemma keys_set_fresh {V : Type} k (v : V) d :
  Dict.mem k d = false -> Dict.keys (Dict.set k v d) = (Dict.keys d ++ [k])%list.
Proof.
  unfold Dict.mem. induction d as [|[k0 v0] d IH]; simpl; trivial.
  destruct (String.eqb k0 k); [discriminate|]. intros H. simpl. now rewrite IH.
Qed.

Lemma keys_set_present {V : Type} k (v : V) d :
  Dict.mem k d = true -> Dict.keys (Dict.set k v d) = Dict.keys d.
Proof.
  unfold Dict.mem. induction d as [|[k0 v0] d IH]; simpl; [discriminate|].
  destruct (String.eqb_spec k0 k) as [->|Hk]; simpl; trivial.
  intros H. now rewrite IH.
Qed.

Lemma keys_del_uniq {V : Type} k (d : Dict.dict V) :
  Dict.uniq d ->
  Dict.keys (Dict.del k d) = filter (fun x => negb (String.eqb x k)) (Dict.keys d).
Proof.
  unfold Dict.uniq. induction d as [|[k0 v0] d IH]; simpl; trivial.
  intros Hu. inversion Hu as [|? ? Hnot Hu']; subst.
  destruct (String.eqb_spec k0 k) as [->|Hk]; simpl.
  - clear IH Hu Hu'. induction d as [|[k1 v1] d IH]; simpl in *; trivial.
    destruct (String.eqb_spec k1 k) as [->|Hk1]; simpl; [tauto|].
    rewrite <- IH; tauto.
  - now rewrite IH.
Qed.

Lemma tmp_path_differs (path : string) : path ++ ".tmp" <> path.
Proof.
  intros H. apply (f_equal String.length) in H.
  rewrite PyJsonFacts.length_append in H. simpl in H. lia.
Qed.

Section ManagerExtras.
Context {json : JsonLib}.

(** [_save_data] succeeds exactly when the dump of the store returns and
    both paths can be written. *)
Lemma save_data_succeeds_iff st :
  fst (_save_data st) = Ok tt <->
  can_persist st /\ dumps (PDict (components_data st)).
Proof.
  unfold can_persist, dumps, _save_data, write_file, os_replace.
  destruct (json_dump (PDict (components_data st))) as [text|written].
  - destruct (writable (filepath st ++ ".tmp") (fs st)); simpl.
    + rewrite DictFacts.get_set_same. unfold writable. simpl.
      destruct (negb (existsb (String.eqb (filepath st)) (unwritable (fs st)))); simpl.
      * split; eauto.
      * split; [discriminate|]. intros [[_ H] _]. discriminate.
    + split; [discriminate|]. intros [[H _] _]. discriminate.
  - split.
    + destruct (writable (filepath st ++ ".tmp") (fs st)); discriminate.
    + intros [_ [text H]]. discriminate.
Qed.

Lemma run_ok_inv c st st' :
  run c st = (Ok tt, st') ->
  checks_of c (components_data st) = Ok tt /\
  _save_data (with_data st (committed c (components_data st))) = (Ok tt, st').
Proof.
  rewrite run_checks. destruct (checks_of c (components_data st)) as [[]|e].
  - intros H. split; [reflexivity|destruct c; exact H].
  - discriminate.
Qed.

Lemma run_ok_get c st st' :
  run c st = (Ok tt, st') ->
  match c with
  | Create component_id data | Update component_id data =>
      fst (get_component component_id st') = Ok data /\
      Dict.get component_id (components_data st') = Some data
  | Delete _ => True
  end.
Proof.
  intros H. apply run_ok_inv in H. destruct H as [_ H].
  apply save_data_frame in H. destruct H as [E _].
  destruct c as [id data|id data|id]; trivial;
    unfold get_component, reading; simpl in *; rewrite E;
    rewrite DictFacts.get_set_same; auto.
Qed.

(** X1.  What a successful Create or Update stored is what Get returns: the
    record handed in, whole, with nothing of an earlier record under that
    identifier left in it. *)
Theorem stored_record_is_returned component_id data st st' :
  add_component component_id data st = (Ok tt, st') \/
  update_component component_id data st = (Ok tt, st') ->
  fst (get_component component_id st') = Ok data /\
  Dict.get component_id (components_data st') = Some data.
Proof.
  intros [H|H].
  - exact (run_ok_get (Create component_id data) st st' H).
  - exact (run_ok_get (Update component_id data) st st' H).
Qed.

(** X2.  After a successful Delete the identifier is gone: it was in the
    store, it is not any more, and Get returns [None] for it. *)
Theorem deleted_record_is_gone component_id st st' :
  Dict.uniq (components_data st) ->
  delete_component component_id st = (Ok tt, st') ->
  Dict.mem component_id (components_data st) = true /\
  Dict.mem component_id (components_data st') = false /\
  fst (get_component component_id st') = Ok PNone.
Proof.
  intros Hu H. apply (run_ok_inv (Delete component_id)) in H.
  destruct H as [Hc H]. apply save_data_frame in H. destruct H as [E _].
  simpl in *. unfold delete_checks in Hc.
  destruct (Dict.mem component_id (components_data st)); [|discriminate].
  split; [reflexivity|].
  unfold get_component, reading, Dict.mem. simpl. rewrite E.
  now rewrite (DictFacts.get_del_same _ _ Hu).
Qed.

(** X3.  An identifier can be created once: after a successful Create, a
    second Create under the same identifier raises "already exists" whatever
    record it brings, changes nothing, and Get still returns the first
    record. *)
Theorem second_create_refused component_id data st st' :
  add_component component_id data st = (Ok tt, st') ->
  forall other_data,
    add_component component_id other_data st'
      = (Raise (ValueError (IdExists component_id)), st') /\
    fst (get_component component_id st') = Ok data.
Proof.
  intros H other_data.
  destruct (run_ok_get (Create component_id data) st st' H) as [Hg Hd].
  split; trivial.
  apply (run_ok_inv (Create component_id data)) in H. destruct H as [Hc _].
  simpl in Hc. unfold add_checks in Hc.
  destruct (id_checks component_id true (components_data st)) as [[]|] eqn:Hid;
    [|discriminate].
  apply id_checks_ok in Hid. destruct Hid as [Hne [Hm _]].
  rewrite add_component_run. unfold add_checks, id_checks.
  destruct (String.eqb_spec component_id ""); [contradiction|].
  rewrite Hm. unfold Dict.mem. rewrite Hd. reflexivity.
Qed.

(** X4.  The identifiers of the store after a successful call: Create puts
    the new one behind all the others, Update leaves the list and its order
    as they were, Delete takes out the deleted one and nothing else. *)
Theorem identifiers_after_call c st st' :
  run c st = (Ok tt, st') ->
  match c with
  | Create component_id _ =>
      Dict.keys (components_data st')
      = (Dict.keys (components_data st) ++ [component_id])%list
  | Update _ _ => Dict.keys (components_data st') = Dict.keys (components_data st)
  | Delete component_id =>
      Dict.uniq (components_data st) ->
      Dict.keys (components_data st')
      = filter (fun k => negb (String.eqb k component_id)) (Dict.keys (components_data st))
  end.
Proof.
  intros H. apply run_ok_inv in H. destruct H as [Hc H].
  apply save_data_frame in H. destruct H as [E _]. rewrite E.
  destruct c as [id data|id data|id]; simpl in *.
  - unfold add_checks in Hc.
    destruct (id_checks id true (components_data st)) as [[]|] eqn:Hid; [|discriminate].
    apply id_checks_ok in Hid. now apply keys_set_fresh.
  - unfold update_checks in Hc.
    destruct (id_checks id false (components_data st)) as [[]|] eqn:Hid; [|discriminate].
    apply id_checks_ok in Hid. now apply keys_set_present.
  - intros Hu. now apply keys_del_uniq.
Qed.

(** X5.  When the checks pass and the save does not get through -- a path
    cannot be written, or the dump of the new store raises -- the call raises
    the save error, yet the in-memory store already holds the change; the
    document at [filepath] is what it was. *)
Theorem failed_persist_keeps_change c st :
  checks_of c (components_data st) = Ok tt ->
  ~ (can_persist st /\ dumps (PDict (committed c (components_data st)))) ->
  exists st',
    run c st = (Raise (ValueError (SaveFailed (filepath st))), st') /\
    components_data st' = committed c (components_data st) /\
    filepath st' = filepath st /\
    Dict.get (filepath st) (files (fs st')) = Dict.get (filepath st) (files (fs st)).
Proof.
  intros Hc Hp. rewrite run_checks, Hc.
  assert (E : with_data st
                match c with
                | Create component_id data | Update component_id data =>
                    Dict.set component_id data (components_data st)
                | Delete component_id => Dict.del component_id (components_data st)
                end = with_data st (committed c (components_data st)))
    by (destruct c; reflexivity).
  rewrite E. clear E.
  assert (Hdoc : forall text,
            Dict.get (filepath st)
              (Dict.set (filepath st ++ ".tmp") text (files (fs st)))
            = Dict.get (filepath st) (files (fs st))).
  { intros text. apply DictFacts.get_set_other. intros H. symmetry in H.
    exact (tmp_path_differs _ H). }
  unfold can_persist, dumps in Hp. unfold _save_data, write_file, os_replace. simpl.
  destruct (json_dump (PDict (committed c (components_data st)))) as [text|written];
    (destruct (writable (filepath st ++ ".tmp") (fs st)) eqn:Ht; simpl;
     [|eexists; split; [reflexivity|]; simpl; auto]).
  - rewrite DictFacts.get_set_same. unfold writable in *. simpl.
    destruct (negb (existsb (String.eqb (filepath st)) (unwritable (fs st)))) eqn:Hw.
    + exfalso. apply Hp. eauto.
    + eexists. split; [reflexivity|]. simpl. repeat split. apply Hdoc.
  - eexists. split; [reflexivity|]. simpl. repeat split. apply Hdoc.
Qed.

(** X6.  A successful [_save_data] leaves the document at [filepath] -- the
    whole text [json.dump] wrote for the store --, no side file, every other
    path with the text it had, and the in-memory store and the write
    permissions as they were. *)
Theorem save_replaces_only_the_document st st' :
  Dict.uniq (files (fs st)) ->
  _save_data st = (Ok tt, st') ->
  (exists text,
     json_dump (PDict (components_data st)) = Dumped text /\
     Dict.get (filepath st) (files (fs st')) = Some text) /\
  Dict.get (filepath st ++ ".tmp") (files (fs st')) = None /\
  (forall path, path <> filepath st -> path <> filepath st ++ ".tmp" ->
     Dict.get path (files (fs st')) = Dict.get path (files (fs st))) /\
  components_data st' = components_data st /\
  unwritable (fs st') = unwritable (fs st).
Proof.
  intros Hu. unfold _save_data, write_file, os_replace.
  destruct (json_dump (PDict (components_data st))) as [text|written];
    (destruct (writable (filepath st ++ ".tmp") (fs st)); [|discriminate]);
    [|discriminate].
  simpl. rewrite DictFacts.get_set_same.
  destruct (writable (filepath st) _); [|discriminate].
  intros [= <-]. simpl. split; [|repeat split].
  - exists text. split; [reflexivity|]. apply DictFacts.get_set_same.
  - rewrite DictFacts.get_set_other by apply tmp_path_differs.
    apply DictFacts.get_del_same. now apply DictFacts.uniq_set.
  - intros path H1 H2.
    rewrite DictFacts.get_set_other by exact H1.
    rewrite DictFacts.get_del_other by exact H2.
    now apply DictFacts.get_set_other.
Qed.

(** X7.  A Create, Update or Delete succeeds exactly when its checks pass
    and the save gets through, that is, [json.dump] returns on the store as
    the call leaves it and both paths of the save can be written.  The
    checks: for Create the identifier is matched by the pattern and new, for
    Update it is matched and known, for Delete it is known; the record is
    accepted against the other records. *)
Theorem call_succeeds_exactly_when st :
  (forall component_id data,
     (exists st', add_component component_id data st = (Ok tt, st')) <->
     (re_match_id component_id = true /\
      Dict.mem component_id (components_data st) = false /\
      accepted data None (components_data st) /\
      can_persist st /\
      dumps (PDict (Dict.set component_id data (components_data st))))) /\
  (forall component_id data,
     (exists st', update_component component_id data st = (Ok tt, st')) <->
     (re_match_id component_id = true /\
      Dict.mem component_id (components_data st) = true /\
      accepted data (Some component_id) (components_data st) /\
      can_persist st /\
      dumps (PDict (Dict.set component_id data (components_data st))))) /\
  (forall component_id,
     (exists st', delete_component component_id st = (Ok tt, st')) <->
     (Dict.mem component_id (components_data st) = true /\
      can_persist st /\
      dumps (PDict (Dict.del component_id (components_data st))))).
Proof.
  assert (Hsave : forall d, (exists st', _save_data (with_data st d) = (Ok tt, st'))
                            <-> can_persist st /\ dumps (PDict d)).
  { intros d. rewrite <- (save_data_succeeds_iff (with_data st d)). split.
    - intros [st' H]. now rewrite H.
    - intros H. destruct (_save_data (with_data st d)) as [r st'] eqn:E.
      simpl in H. subst. eauto. }
  split; [|split].
  - intros component_id data. split.
    + intros [st' H]. rewrite add_component_run in H. unfold add_checks in H.
      destruct (id_checks component_id true (components_data st)) as [[]|] eqn:Hid;
        [|discriminate]. simpl in H.
      destruct (record_checks data None (components_data st)) as [[]|] eqn:Hr;
        [|discriminate].
      apply id_checks_ok in Hid. apply record_checks_ok in Hr.
      destruct Hid as [_ [Hm Hn]].
      split; [exact Hm|]. split; [exact Hn|]. split; [exact Hr|].
      apply (Hsave (Dict.set component_id data (components_data st))). eauto.
    + intros [Hm [Hn [Hacc Hp]]].
      apply Hsave in Hp. destruct Hp as [st' Hs].
      exists st'. apply (add_component_saves component_id data st); trivial.
      apply id_checks_ok. repeat split; trivial. now apply re_match_id_nonempty.
  - intros component_id data. split.
    + intros [st' H]. rewrite update_component_run in H. unfold update_checks in H.
      destruct (id_checks component_id false (components_data st)) as [[]|] eqn:Hid;
        [|discriminate]. simpl in H.
      destruct (record_checks data (Some component_id) (components_data st))
        as [[]|] eqn:Hr; [|discriminate].
      apply id_checks_ok in Hid. apply record_checks_ok in Hr.
      destruct Hid as [_ [Hm Hn]].
      split; [exact Hm|]. split; [exact Hn|]. split; [exact Hr|].
      apply (Hsave (Dict.set component_id data (components_data st))). eauto.
    + intros [Hm [Hn [Hacc Hp]]].
      apply Hsave in Hp. destruct Hp as [st' Hs].
      exists st'. apply (update_component_saves component_id data st); trivial.
      apply id_checks_ok. repeat split; trivial. now apply re_match_id_nonempty.
  - intros component_id. split.
    + intros [st' H]. rewrite delete_component_run in H. unfold delete_checks in H.
      destruct (Dict.mem component_id (components_data st)); [|discriminate].
      split; [reflexivity|].
      apply (Hsave (Dict.del component_id (components_data st))). eauto.
    + intros [Hm Hp]. rewrite delete_component_run. unfold delete_checks. rewrite Hm.
      simpl. now apply Hsave.
Qed.

(** X8.  Calls keep the invariants of a store that has them, whether the
    store came from the empty one or from a file, however many calls are made
    and whether each succeeds, is refused or fails to persist: the values stay
    records, the identifiers stay unique and matched by the pattern, I2, I3,
    I4 and I5 stay true. *)
Theorem calls_preserve_invariants cs st :
  store_ok (components_data st) ->
  store_ok (components_data (run_all cs st)).
Proof.
  revert st. induction cs as [|c cs IH]; intros st Hok; simpl; [exact Hok|].
  apply IH. destruct (run c st) as [r st'] eqn:E. simpl.
  exact (run_store_ok c st r st' Hok E).
Qed.

End ManagerExtras.

(** ** Conflicts with another record *)

Lemma py_eq_int_value a x :
  isinstance_int a = true ->
  (py_eq a x = true <-> isinstance_int x = true /\ int_value x = int_value a).
Proof.
  destruct a as [|b|n| | |]; try discriminate; intros _;
    destruct x as [|y|m| | |]; simpl;
    try (split; [discriminate|intros [H _]; discriminate]).
  - destruct b, y; simpl; split; try discriminate; auto; intros [_ H]; discriminate.
  - rewrite Z.eqb_eq. split; [intros <-; auto|intros [_ H]; auto].
  - rewrite Z.eqb_eq. split; [intros ->; auto|intros [_ H]; auto].
  - rewrite Z.eqb_eq. split; [intros ->; auto|intros [_ H]; auto].
Qed.

Lemma py_eq_int_same a b x :
  isinstance_int a = true -> isinstance_int b = true ->
  py_eq a x = true -> py_eq b x = true -> py_eq a b = true.
Proof.
  intros Ha Hb H1 H2.
  apply (py_eq_int_value a x Ha) in H1. apply (py_eq_int_value b x Hb) in H2.
  apply (py_eq_int_value a b Ha). split; [exact Hb|].
  destruct H1 as [_ H1], H2 as [_ H2]. congruence.
Qed.

Lemma py_eq_int_not_none a x :
  isinstance_int a = true -> py_eq a x = true -> x <> PNone.
Proof. destruct a; try discriminate; intros _; destruct x; simpl; congruence. Qed.

Section Conflicts.
Context {json : JsonLib}.

(** The component the port loop names holds the port. *)
Lemma ui_port_loop_names_holder d port edited e :
  records_only d -> ui_port_loop d port edited = Raise e ->
  exists comp_id comp_data,
    e = ValueError (PortInUse port comp_id) /\ In (comp_id, comp_data) d /\
    is_edited comp_id edited = false /\ has_ui comp_data = true /\
    py_eq (field "ui_port" comp_data) port = true.
Proof.
  unfold records_only. induction d as [|[k0 v0] d IH]; simpl; [discriminate|].
  intros Hrec. assert (Hd : is_dict v0 = true) by (eapply Hrec; now left).
  assert (IH' : ui_port_loop d port edited = Raise e ->
                exists comp_id comp_data,
                  e = ValueError (PortInUse port comp_id) /\ In (comp_id, comp_data) d /\
                  is_edited comp_id edited = false /\ has_ui comp_data = true /\
                  py_eq (field "ui_port" comp_data) port = true) by (apply IH; eauto).
  assert (Hstep : ui_port_loop d port edited = Raise e ->
                  exists comp_id comp_data,
                    e = ValueError (PortInUse port comp_id) /\
                    ((k0, v0) = (comp_id, comp_data) \/ In (comp_id, comp_data) d) /\
                    is_edited comp_id edited = false /\ has_ui comp_data = true /\
                    py_eq (field "ui_port" comp_data) port = true).
  { intros H. destruct (IH' H) as [k [v [? [? ?]]]]. exists k, v. auto. }
  destruct (is_edited k0 edited) eqn:He; [exact Hstep|].
  rewrite !(py_get_of_dict _ _ Hd). simpl.
  destruct (truthy (field "has_ui" v0)) eqn:Hui; [|exact Hstep].
  destruct (py_eq (field "ui_port" v0) port) eqn:Heq; [|exact Hstep].
  intros [= <-]. exists k0, v0. auto.
Qed.

(** The component the proxy loop names is a reverse proxy. *)
Lemma reverse_proxy_loop_names_holder d edited e :
  records_only d -> reverse_proxy_loop d edited = Raise e ->
  exists comp_id comp_data,
    e = ValueError (ProxyTaken comp_id) /\ In (comp_id, comp_data) d /\
    is_edited comp_id edited = false /\ is_reverse_proxy comp_data = true.
Proof.
  unfold records_only. induction d as [|[k0 v0] d IH]; simpl; [discriminate|].
  intros Hrec. assert (Hd : is_dict v0 = true) by (eapply Hrec; now left).
  assert (Hstep : reverse_proxy_loop d edited = Raise e ->
                  exists comp_id comp_data,
                    e = ValueError (ProxyTaken comp_id) /\
                    ((k0, v0) = (comp_id, comp_data) \/ In (comp_id, comp_data) d) /\
                    is_edited comp_id edited = false /\
                    is_reverse_proxy comp_data = true).
  { intros H. destruct (IH ltac:(eauto) H) as [k [v [? [? ?]]]]. exists k, v. auto. }
  destruct (is_edited k0 edited) eqn:He; [exact Hstep|].
  rewrite !(py_get_of_dict _ _ Hd). simpl.
  destruct (truthy (field "is_reverse_proxy" v0)) eqn:Hp; [|exact Hstep].
  intros [= <-]. exists k0, v0. auto.
Qed.

(** Once the part about the web interface has passed, what is left of the
    checks on the record is the proxy loop and the name. *)
Lemma record_checks_after_ui data edited d :
  is_dict data = true ->
  (has_ui data = true ->
   no_port_clash d (field "ui_port" data) edited /\ ui_group_ok data) ->
  record_checks data edited d =
    (do _ <- (if is_reverse_proxy data then reverse_proxy_loop d edited else Ok tt);
     if negb (truthy (field "name" data)) then Raise (ValueError NameRequired) else Ok tt).
Proof.
  intros Hd Hui. unfold record_checks. rewrite !(py_get_of_dict _ _ Hd). simpl.
  fold (has_ui data) (is_reverse_proxy data).
  assert (E1 : (if has_ui data
                then do _ <- (if is_none (field "ui_port" data) then Ok tt
                              else ui_port_loop d (field "ui_port" data) edited);
                     _validate_dashy_tile_fields data
                else Ok tt) = Ok tt).
  { destruct (has_ui data) eqn:E; [|reflexivity].
    destruct (Hui eq_refl) as [Hc Hg].
    apply ui_port_loop_ok in Hc. rewrite Hc.
    destruct (is_none (field "ui_port" data)); simpl; apply dashy_ok; split; trivial. }
  rewrite E1. reflexivity.
Qed.

(** X9.  A port held by another record with a web interface cannot be taken:
    in a store that satisfies the invariants, Create and Update of a record
    with a web interface on that port raise "already in use" naming the
    holder and change nothing -- before any field of the UI group is looked
    at. *)
Theorem taken_port_refused st holder r data :
  store_ok (components_data st) ->
  In (holder, r) (components_data st) ->
  has_ui r = true -> has_ui data = true ->
  py_eq (field "ui_port" r) (field "ui_port" data) = true ->
  forall component_id,
    (id_checks component_id true (components_data st) = Ok tt ->
     add_component component_id data st
       = (Raise (ValueError (PortInUse (field "ui_port" data) holder)), st)) /\
    (id_checks component_id false (components_data st) = Ok tt ->
     component_id <> holder ->
     update_component component_id data st
       = (Raise (ValueError (PortInUse (field "ui_port" data) holder)), st)).
Proof.
  intros [Hrec Hids H2 H3 H4 H5] Hin Hr Hui Heq component_id.
  assert (Hd : is_dict data = true) by now apply has_ui_is_dict.
  assert (Hint : isinstance_int (field "ui_port" r) = true) by apply (H4 _ _ Hin Hr).
  assert (Hloop : forall edited, is_edited holder edited = false ->
            record_checks data edited (components_data st)
            = Raise (ValueError (PortInUse (field "ui_port" data) holder))).
  { intros edited He. unfold record_checks. rewrite !(py_get_of_dict _ _ Hd). simpl.
    unfold has_ui in Hui. rewrite Hui.
    destruct (is_none (field "ui_port" data)) eqn:Hn.
    { apply is_none_true in Hn. exfalso.
      exact (py_eq_int_not_none _ _ Hint Heq Hn). }
    destruct (ui_port_loop (components_data st) (field "ui_port" data) edited)
      as [[]|e] eqn:Hl.
    - apply ui_port_loop_ok in Hl. destruct (Hl _ _ Hin He) as [_ Hc].
      rewrite (Hc Hr) in Heq. discriminate.
    - destruct (ui_port_loop_names_holder _ _ _ _ Hrec Hl)
        as [k [v [-> [Hk [_ [Hv Hkeq]]]]]].
      simpl. destruct (String.eqb_spec k holder) as [->|Hne]; [reflexivity|].
      exfalso. assert (Hf := H2 _ _ _ _ Hk Hin Hne Hv Hr).
      rewrite (py_eq_int_same _ _ _ (proj1 (ui_port_ok _ (H4 _ _ Hk Hv))) Hint Hkeq Heq)
        in Hf. discriminate. }
  split.
  - intros Hid. rewrite add_component_run. unfold add_checks. rewrite Hid. simpl.
    now rewrite (Hloop None eq_refl).
  - intros Hid Hne. rewrite update_component_run. unfold update_checks. rewrite Hid.
    simpl. rewrite (Hloop (Some component_id)); [reflexivity|].
    simpl. apply String.eqb_neq. congruence.
Qed.

(** X10.  There is one reverse proxy at most: in a store that satisfies the
    invariants and has one, Create and Update of another record that asks to
    be the reverse proxy raise "already selected as a reverse proxy" naming
    it and change nothing, once the identifier and the UI group have passed. *)
Theorem second_proxy_refused st holder r data :
  store_ok (components_data st) ->
  In (holder, r) (components_data st) ->
  is_reverse_proxy r = true ->
  is_dict data = true -> is_reverse_proxy data = true ->
  forall component_id,
    (id_checks component_id true (components_data st) = Ok tt ->
     (has_ui data = true ->
      no_port_clash (components_data st) (field "ui_port" data) None /\
      ui_group_ok data) ->
     add_component component_id data st
       = (Raise (ValueError (ProxyTaken holder)), st)) /\
    (id_checks component_id false (components_data st) = Ok tt ->
     component_id <> holder ->
     (has_ui data = true ->
      no_port_clash (components_data st) (field "ui_port" data) (Some component_id) /\
      ui_group_ok data) ->
     update_component component_id data st
       = (Raise (ValueError (ProxyTaken holder)), st)).
Proof.
  intros [Hrec Hids H2 H3 H4 H5] Hin Hr Hd Hp component_id.
  assert (Hloop : forall edited, is_edited holder edited = false ->
            reverse_proxy_loop (components_data st) edited
            = Raise (ValueError (ProxyTaken holder))).
  { intros edited He.
    destruct (reverse_proxy_loop (components_data st) edited) as [[]|e] eqn:Hl.
    - apply reverse_proxy_loop_ok in Hl. destruct (Hl _ _ Hin He) as [_ Hc].
      congruence.
    - destruct (reverse_proxy_loop_names_holder _ _ _ Hrec Hl)
        as [k [v [-> [Hk [_ Hv]]]]].
      now rewrite (H3 _ _ _ _ Hk Hin Hv Hr). }
  split.
  - intros Hid Hui. rewrite add_component_run. unfold add_checks. rewrite Hid. simpl.
    rewrite (record_checks_after_ui _ _ _ Hd Hui), Hp, (Hloop None eq_refl).
    reflexivity.
  - intros Hid Hne Hui. rewrite update_component_run. unfold update_checks.
    rewrite Hid. simpl.
    rewrite (record_checks_after_ui _ _ _ Hd Hui), Hp, Hloop; [reflexivity|].
    simpl. apply String.eqb_neq. congruence.
Qed.

(** X11.  A record without a name -- the key missing, [None] or the empty
    string -- is never stored: Create and Update raise and change nothing,
    and for Create as for Update the error is "Component name is required."
    when the identifier, the UI group and the proxy rule, which are checked
    before, have passed. *)
Theorem nameless_record_refused data :
  truthy (field "name" data) = false ->
  forall st component_id,
    (exists e, add_component component_id data st = (Raise e, st)) /\
    (exists e, update_component component_id data st = (Raise e, st)) /\
    (is_dict data = true ->
     (has_ui data = true ->
      no_port_clash (components_data st) (field "ui_port" data) None /\
      ui_group_ok data) ->
     (is_reverse_proxy data = true -> no_other_proxy (components_data st) None) ->
     id_checks component_id true (components_data st) = Ok tt ->
     add_component component_id data st = (Raise (ValueError NameRequired), st)) /\
    (is_dict data = true ->
     (has_ui data = true ->
      no_port_clash (components_data st) (field "ui_port" data) (Some component_id) /\
      ui_group_ok data) ->
     (is_reverse_proxy data = true ->
      no_other_proxy (components_data st) (Some component_id)) ->
     id_checks component_id false (components_data st) = Ok tt ->
     update_component component_id data st = (Raise (ValueError NameRequired), st)).
Proof.
  intros Hn st component_id.
  assert (Hrc : forall edited, exists e,
            record_checks data edited (components_data st) = Raise e).
  { intros edited.
    destruct (record_checks data edited (components_data st)) as [[]|e] eqn:Hr; [|eauto].
    apply record_checks_ok in Hr. destruct Hr as [_ _ _ Hname]. congruence. }
  assert (Hname : forall edited,
            is_dict data = true ->
            (has_ui data = true ->
             no_port_clash (components_data st) (field "ui_port" data) edited /\
             ui_group_ok data) ->
            (is_reverse_proxy data = true -> no_other_proxy (components_data st) edited) ->
            record_checks data edited (components_data st)
            = Raise (ValueError NameRequired)).
  { intros edited Hd Hui Hp. rewrite (record_checks_after_ui _ _ _ Hd Hui).
    assert (E : (if is_reverse_proxy data
                 then reverse_proxy_loop (components_data st) edited else Ok tt) = Ok tt).
    { destruct (is_reverse_proxy data); [|reflexivity].
      now apply reverse_proxy_loop_ok, Hp. }
    rewrite E. simpl. now rewrite Hn. }
  split; [|split; [|split]].
  - rewrite add_component_run. unfold add_checks.
    destruct (id_checks component_id true (components_data st)) as [[]|e]; simpl; [|eauto].
    destruct (Hrc None) as [e ->]. eauto.
  - rewrite update_component_run. unfold update_checks.
    destruct (id_checks component_id false (components_data st)) as [[]|e]; simpl; [|eauto].
    destruct (Hrc (Some component_id)) as [e ->]. eauto.
  - intros Hd Hui Hp Hid. rewrite add_component_run. unfold add_checks.
    rewrite Hid. simpl. now rewrite (Hname None Hd Hui Hp).
  - intros Hd Hui Hp Hid. rewrite update_component_run. unfold update_checks.
    rewrite Hid. simpl. now rewrite (Hname (Some component_id) Hd Hui Hp).
Qed.

End Conflicts.

(** X12.  The identifiers [_validate_component_id] lets through are exactly
    the non-empty runs of lowercase letters, digits and hyphens, and those
    runs followed by one newline. *)
Theorem identifier_pattern_exact s :
  re_match_id s = true <->
  exists w, w <> "" /\ all_id_chars w = true /\ (s = w \/ s = w ++ String newline "").
Proof.
  split; [apply re_match_id_shape|].
  intros [w [Hne [Hw [-> | ->]]]].
  - now apply re_match_id_complete.
  - now apply trailing_newline_matched.
Qed.

(** ** Calls one after another *)

Section Sequences.
Context {json : JsonLib}.

(** X13.  Deleting the holder of a port frees the port: in a store that
    satisfies the invariants, once the record that held it is deleted, a
    well-formed record with a web interface on that port passes every check
    of Create -- under a new identifier or under the identifier just
    deleted -- and Create succeeds whenever the save of the new store does. *)
Theorem delete_frees_port st st1 holder r component_id data :
  store_ok (components_data st) ->
  In (holder, r) (components_data st) ->
  has_ui r = true -> has_ui data = true -> ui_group_ok data ->
  py_eq (field "ui_port" r) (field "ui_port" data) = true ->
  truthy (field "name" data) = true ->
  (is_reverse_proxy data = true ->
   no_other_proxy (Dict.del holder (components_data st)) None) ->
  re_match_id component_id = true ->
  Dict.mem component_id (components_data st) = false \/ component_id = holder ->
  delete_component holder st = (Ok tt, st1) ->
  components_data st1 = Dict.del holder (components_data st) /\
  add_checks component_id data (components_data st1) = Ok tt /\
  forall st2,
    _save_data (with_data st1 (Dict.set component_id data (components_data st1)))
      = (Ok tt, st2) ->
    add_component component_id data st1 = (Ok tt, st2) /\
    components_data st2
      = Dict.set component_id data (Dict.del holder (components_data st)).
Proof.
  intros [Hrec [Hu Hid] H2 H3 H4 H5] Hin Hr Hui Hg Heq Hn Hp Hm Hnew Hdel.
  apply (run_ok_inv (Delete holder)) in Hdel. destruct Hdel as [_ Hsave].
  apply save_data_frame in Hsave. destruct Hsave as [Ed Ef]. simpl in Ed, Ef.
  split; [exact Ed|].
  destruct (add_component_saves component_id data st1) as [Hck Hs].
  - apply id_checks_ok. repeat split; trivial.
    + now apply re_match_id_nonempty.
    + rewrite Ed. simpl. unfold Dict.mem.
      destruct Hnew as [Hnew| ->].
      * destruct (Dict.get component_id (Dict.del holder (components_data st))) eqn:Eg;
          trivial.
        apply DictFacts.get_in, (DictFacts.in_del _ _ _ _ Hu) in Eg.
        destruct Eg as [_ Eg]. apply DictFacts.in_keys in Eg.
        now apply DictFacts.mem_false_not_in in Hnew.
      * now rewrite (DictFacts.get_del_same _ _ Hu).
  - rewrite Ed. constructor; trivial.
    + now apply has_ui_is_dict.
    + intros _. split; trivial. intros k v Hk _.
      apply (DictFacts.in_del _ _ _ _ Hu) in Hk. destruct Hk as [Hne Hk].
      split; [eapply Hrec; eauto|]. intros Hv.
      rewrite <- (py_eq_int_congr (field "ui_port" r) (field "ui_port" data)); trivial.
      * eapply H2; eauto.
      * apply (H4 _ _ Hin Hr).
      * apply Hg.
  - split; [exact Hck|]. intros st2 H. destruct (Hs st2 H) as [E1 E2].
    split; [exact E1|]. now rewrite E2, Ed.
Qed.

End Sequences.

Section Restart.
Context {json : JsonLib} {law : JsonRoundTrip json}.

Lemma saved_document_loads st st' :
  well_keyed (PDict (components_data st)) = true ->
  _save_data st = (Ok tt, st') ->
  __init__ (filepath st') (fs st') = Ok st'.
Proof.
  intros Hwk. unfold _save_data, write_file, os_replace.
  destruct (json_dump (PDict (components_data st))) as [text|written] eqn:Hd;
    (destruct (writable (filepath st ++ ".tmp") (fs st)); [|discriminate]);
    [|discriminate].
  simpl. rewrite DictFacts.get_set_same.
  destruct (writable (filepath st) _); [|discriminate].
  intros [= <-]. unfold __init__, _load_data. simpl.
  rewrite DictFacts.get_set_same, (load_dump _ _ Hwk Hd). reflexivity.
Qed.

(** X14.  After every successful Create, Update or Delete the document on
    disk is the store in memory: a manager constructed on the same path right
    after the call is the manager that made it. *)
Theorem restart_after_call c st st' :
  run c st = (Ok tt, st') ->
  well_keyed (PDict (components_data st')) = true ->
  __init__ (filepath st') (fs st') = Ok st'.
Proof.
  intros H Hwk. apply run_ok_inv in H. destruct H as [_ H].
  assert (E := save_data_frame _ _ _ H). destruct E as [E _].
  apply (saved_document_loads _ _ ltac:(rewrite <- E; exact Hwk) H).
Qed.

End Restart.

(** * The web application *)

Section ManagerErrors.
Context {json : JsonLib}.

Lemma run_raise_inv c st e st' :
  records_only (components_data st) -> record_call c ->
  run c st = (Raise e, st') ->
  exists m, e = ValueError m /\ (m = SaveFailed (filepath st) \/ st' = st).
Proof.
  intros Hrec Hc. rewrite run_checks.
  destruct (checks_of c (components_data st)) as [[]|e0] eqn:Hck.
  - intros H. apply save_data_raises in H. rewrite H. simpl. eauto.
  - intros [= <- <-]. destruct (checks_of_error _ _ _ Hrec Hc Hck) as [m ->]. eauto.
Qed.

(** X15.  Over a store of records and for a record argument the manager
    raises nothing but [ValueError], which is all its callers catch; and
    unless the error is the save error, the state is what it was. *)
Theorem manager_raises_value_errors st e st' :
  records_only (components_data st) ->
  (forall component_id data,
     is_dict data = true ->
     add_component component_id data st = (Raise e, st') \/
     update_component component_id data st = (Raise e, st') ->
     exists m, e = ValueError m /\ (m = SaveFailed (filepath st) \/ st' = st)) /\
  (forall component_id,
     delete_component component_id st = (Raise e, st') ->
     exists m, e = ValueError m /\ (m = SaveFailed (filepath st) \/ st' = st)).
Proof.
  intros Hrec. split.
  - intros component_id data Hd [H|H].
    + exact (run_raise_inv (Create component_id data) st e st' Hrec Hd H).
    + exact (run_raise_inv (Update component_id data) st e st' Hrec Hd H).
  - intros component_id H.
    exact (run_raise_inv (Delete component_id) st e st' Hrec I H).
Qed.

End ManagerErrors.

Lemma form_get_text key form : text_or_none (form_get key form).
Proof.
  unfold form_get, text_or_none. destruct (Dict.get key form); [right|left]; eauto.
Qed.

Section ViewFacts.
Context {json : JsonLib} {ints : IntLib}.

(** X16.  The record a view builds from a form is a dict whose fields have
    the types of the data model: texts or [None], booleans for the flags, an
    integer or [None] for the port; [has_ui] tells whether the box was ticked,
    and when it was not, no key of the UI group is in the record. *)
Theorem form_record_typed form data :
  form_component_data form = Built data ->
  form_typed data /\
  field "has_ui" data = PBool (Dict.mem "has_ui" form) /\
  exists items,
    data = PDict items /\ Dict.uniq items /\
    (Dict.mem "has_ui" form = false ->
     forall key,
       In key ["ui_port"; "protocol"; "icon"; "dashy_tile_section";
               "dashy_tile_url_suffix"; "status_check"] ->
       Dict.get key items = None).
Proof.
  unfold form_component_data.
  assert (Hu5 : forall a b c d e : pyval,
            Dict.uniq [("name", a); ("description", b); ("default_selected", c);
                       ("has_ui", d); ("is_reverse_proxy", e)]).
  { intros. unfold Dict.uniq. simpl.
    repeat constructor; simpl; intuition discriminate. }
  assert (Hu11 : forall a b c d e f g h i j k : pyval,
            Dict.uniq [("name", a); ("description", b); ("default_selected", c);
                       ("has_ui", d); ("is_reverse_proxy", e); ("ui_port", f);
                       ("protocol", g); ("icon", h); ("dashy_tile_section", i);
                       ("dashy_tile_url_suffix", j); ("status_check", k)]).
  { intros. unfold Dict.uniq. simpl.
    repeat constructor; simpl; intuition discriminate. }
  destruct (Dict.mem "has_ui" form) eqn:Hui.
  - assert (Hrest : forall port,
              (port = PNone \/ exists n, port = PInt n) ->
              forall d,
                d = PDict
                  (Dict.set "status_check" (PBool (Dict.mem "status_check" form))
                  (Dict.set "dashy_tile_url_suffix" (form_get "dashy_tile_url_suffix" form)
                  (Dict.set "dashy_tile_section" (form_get "dashy_tile_section" form)
                  (Dict.set "icon" (form_get "icon" form)
                  (Dict.set "protocol" (form_get "protocol" form)
                  (Dict.set "ui_port" port
                    [("name", form_get "name" form);
                     ("description", form_get "description" form);
                     ("default_selected", PBool (Dict.mem "default_selected" form));
                     ("has_ui", PBool true);
                     ("is_reverse_proxy", PBool (Dict.mem "is_reverse_proxy" form))]))))))
                ->
                form_typed d /\ field "has_ui" d = PBool true /\
                exists items, d = PDict items /\ Dict.uniq items /\
                  (true = false ->
                   forall key,
                     In key ["ui_port"; "protocol"; "icon"; "dashy_tile_section";
                             "dashy_tile_url_suffix"; "status_check"] ->
                     Dict.get key items = None)).
    { intros port Hport d ->. split; [|split].
      - constructor; try reflexivity; try apply form_get_text;
          unfold field, is_flag; simpl; eauto.
      - reflexivity.
      - eexists. split; [reflexivity|]. split; [apply Hu11|discriminate]. }
    destruct (Dict.get "ui_port" form) as [literal|].
    + destruct (truthy (PStr literal)).
      * destruct (py_int literal) as [n|]; [|discriminate].
        intros [= <-]. apply (Hrest (PInt n)); eauto.
      * intros [= <-]. apply (Hrest PNone); auto.
    + intros [= <-]. apply (Hrest PNone); auto.
  - intros [= <-]. split; [|split].
    + constructor; try reflexivity; try apply form_get_text;
        unfold field, is_flag, text_or_none; simpl; eauto.
    + reflexivity.
    + eexists. split; [reflexivity|]. split; [apply Hu5|].
      intros _ key Hk. simpl in Hk.
      repeat (destruct Hk as [<-|Hk]; [reflexivity|]). contradiction.
Qed.

Lemma form_record_shape form data :
  form_component_data form = Built data -> form_typed data.
Proof.
  unfold form_component_data.
  destruct (Dict.mem "has_ui" form).
  - destruct (Dict.get "ui_port" form) as [literal|];
      [destruct (truthy (PStr literal)); [destruct (py_int literal); [|discriminate]|]|];
      intros [= <-];
      (constructor; try reflexivity; try apply form_get_text;
       unfold field, is_flag; simpl; eauto).
  - intros [= <-].
    constructor; try reflexivity; try apply form_get_text;
      unfold field, is_flag, text_or_none; simpl; eauto.
Qed.

Lemma truthy_text v : text_or_none v -> truthy v = true -> exists s, v = PStr s /\ s <> "".
Proof.
  intros [->|[s ->]]; simpl; [discriminate|].
  intros H. exists s. split; trivial. intros ->. discriminate.
Qed.

(** X17.  A record that came from a form and has passed the checks has the
    types of the data model, not only truthy values: its name is a non-empty
    string, and with [has_ui] its port is an integer from 1 to 65535, its
    protocol ['http'] or ['https'], its icon and section non-empty strings
    and its URL suffix a string. *)
Theorem accepted_form_record_typed form data edited d :
  form_component_data form = Built data ->
  accepted data edited d ->
  (exists s, field "name" data = PStr s /\ s <> "") /\
  (has_ui data = true -> ui_group_typed data).
Proof.
  intros Hb [Hd Hui Hp Hn]. assert (Ht := form_record_shape _ _ Hb).
  destruct Ht as [_ Tn _ _ _ Tport Tpr Ti Ts Tx].
  split; [now apply truthy_text|].
  intros H. destruct (Hui H) as [_ [[Hint Hrange] Hpr Hi Hs Hx]].
  constructor; trivial.
  - destruct Tport as [E|[n E]]; rewrite E in *; [discriminate|]. eauto.
  - now apply truthy_text.
  - now apply truthy_text.
  - destruct Tx as [E|[s E]]; [contradiction|eauto].
Qed.



(** X19.  A port that [int] refuses crashes the view: with [has_ui] ticked
    and a non-empty port text that is no integer literal, a POST to [/add], or
    to [/edit/<id>] of a stored record, ends in the [ValueError] of [int],
    outside the [try]; nothing is flashed and nothing is changed. *)
Theorem bad_port_text_crashes req a literal :
  method req = POST ->
  Dict.mem "has_ui" (form req) = true ->
  Dict.get "ui_port" (form req) = Some literal ->
  literal <> "" ->
  py_int literal = None ->
  add_view req a = (Crashed (IntRaised literal), a) /\
  forall component_id component,
    Dict.get component_id (components_data (manager a)) = Some component ->
    truthy component = true ->
    edit_view component_id req a = (Crashed (IntRaised literal), a).
Proof.
  intros Hm Hui Hport Hne Hint.
  assert (Hb : form_component_data (form req) = BadInt literal).
  { unfold form_component_data. rewrite Hui, Hport, Hint. simpl.
    destruct (String.eqb_spec literal ""); [contradiction|reflexivity]. }
  split.
  - unfold add_view. now rewrite Hm, Hb.
  - intros component_id component Hget Ht.
    unfold edit_view, get_component, reading. rewrite Hget, Ht, Hm, Hb.
    simpl. now destruct a.
Qed.

(** X20.  [/delete/<id>] is always answered with the redirect to the index
    and exactly one flashed message: the success message when the manager
    deleted the record, the manager's message when it raised; for an
    identifier that is not in the store the message is "not found for
    deletion" and nothing else changes. *)
Theorem delete_always_redirects component_id a :
  (exists text category m,
     delete_view component_id a =
       (Responded (Redirect "index"),
        mkApp m (flashes a ++ [mkFlash text category])) /\
     ((text = Deleted component_id /\ category = "success" /\
       delete_component component_id (manager a) = (Ok tt, m)) \/
      (exists e, text = DeleteFailed e /\ category = "danger" /\
                 delete_component component_id (manager a) = (Raise (ValueError e), m)))) /\
  (Dict.mem component_id (components_data (manager a)) = false ->
   delete_view component_id a =
     (Responded (Redirect "index"),
      flash (DeleteFailed (DeleteUnknown component_id)) "danger" a)).
Proof.
  split.
  - unfold delete_view.
    destruct (delete_component component_id (manager a)) as [[[]|e] m] eqn:E.
    + do 3 eexists. split; [reflexivity|]. left. auto.
    + assert (Hv : exists msg, e = ValueError msg).
      { rewrite delete_component_run in E. unfold delete_checks in E.
        destruct (negb (Dict.mem component_id (components_data (manager a)))).
        - injection E as <- _. eauto.
        - apply save_data_raises in E. eauto. }
      destruct Hv as [msg ->]. do 3 eexists. split; [reflexivity|]. right. eauto.
  - intros Hmem. unfold delete_view. rewrite delete_component_run.
    unfold delete_checks. rewrite Hmem. simpl. now destruct a.
Qed.

(** X21.  [/edit/<id>] for an identifier that is not in the store, by GET or
    by POST and whatever the form, is answered with the redirect to the index
    and the "not found" message; the form is not read and the manager is not
    called. *)
Theorem edit_unknown_redirects component_id req a :
  Dict.mem component_id (components_data (manager a)) = false ->
  edit_view component_id req a =
    (Responded (Redirect "index"), flash (NotFound component_id) "danger" a).
Proof.
  unfold Dict.mem, edit_view, get_component, reading.
  destruct (Dict.get component_id (components_data (manager a))); [discriminate|].
  intros _. simpl. now destruct a.
Qed.

(** X22.  No request to [/edit/<id>] adds, removes, renames or reorders an
    identifier: whatever it answers, the identifiers of the store are the
    ones it found. *)
Theorem edit_keeps_identifiers component_id req a :
  Dict.keys (components_data (manager (snd (edit_view component_id req a))))
  = Dict.keys (components_data (manager a)).
Proof.
  unfold edit_view, get_component, reading.
  destruct (Dict.get component_id (components_data (manager a))) as [component|];
    [|reflexivity].
  destruct (negb (truthy component)); [reflexivity|].
  destruct (method req); [reflexivity|].
  destruct (form_component_data (form req)) as [updated_data|literal]; [|reflexivity].
  assert (Hk : Dict.keys (components_data
                 (snd (update_component component_id updated_data (manager a))))
               = Dict.keys (components_data (manager a))).
  { rewrite update_component_run. unfold update_checks.
    destruct (id_checks component_id false (components_data (manager a)))
      as [[]|] eqn:Hid; [|reflexivity].
    simpl. destruct (record_checks _ _ _) as [[]|]; [|reflexivity].
    destruct (_save_data _) as [r st'] eqn:Hs.
    apply save_data_frame in Hs. destruct Hs as [E _]. simpl in *. rewrite E.
    apply id_checks_ok in Hid. now apply keys_set_present. }
  destruct (update_component component_id updated_data (manager a)) as [[[]|[e|x y]] m];
    exact Hk.
Qed.

Lemma dashy_message data m :
  is_dict data = true -> _validate_dashy_tile_fields data = Raise (ValueError m) ->
  about_record m = true.
Proof.
  intros Hd. destruct (has_ui data) eqn:Hui.
  - destruct (dashy_cases data Hd Hui) as [[E _]|[m0 [f [E [Hf _]]]]]; rewrite E.
    + discriminate.
    + intros [= <-]. destruct m0; try discriminate; reflexivity.
  - unfold _validate_dashy_tile_fields. rewrite (py_get_of_dict _ _ Hd). simpl.
    unfold has_ui in Hui. rewrite Hui. discriminate.
Qed.

Lemma record_checks_message data edited d m :
  records_only d -> is_dict data = true ->
  record_checks data edited d = Raise (ValueError m) -> about_record m = true.
Proof.
  intros Hrec Hd. unfold record_checks.
  rewrite !(py_get_of_dict _ _ Hd). simpl.
  assert (Htail :
    (do _ <- (if truthy (field "is_reverse_proxy" data)
              then reverse_proxy_loop d edited else Ok tt);
     if negb (truthy (field "name" data)) then Raise (ValueError NameRequired)
     else Ok tt) = Raise (ValueError m) -> about_record m = true).
  { destruct (truthy (field "is_reverse_proxy" data)).
    - destruct (reverse_proxy_loop d edited) as [[]|e] eqn:Hl; simpl.
      + destruct (truthy (field "name" data)); simpl; [discriminate|].
        now intros [= <-].
      + destruct (reverse_proxy_loop_error _ _ _ Hrec Hl) as [c ->].
        now intros [= <-].
    - simpl. destruct (truthy (field "name" data)); simpl; [discriminate|].
      now intros [= <-]. }
  destruct (truthy (field "has_ui" data)); [|exact Htail].
  destruct (is_none (field "ui_port" data)); simpl.
  - destruct (_validate_dashy_tile_fields data) as [[]|e] eqn:Hv; simpl;
      [exact Htail|].
    intros [= ->]. now apply (dashy_message data).
  - destruct (ui_port_loop d (field "ui_port" data) edited) as [[]|e] eqn:Hu; simpl.
    + destruct (_validate_dashy_tile_fields data) as [[]|e] eqn:Hv; simpl;
        [exact Htail|].
      intros [= ->]. now apply (dashy_message data).
    + destruct (ui_port_loop_error _ _ _ _ Hrec Hu) as [c ->]. now intros [= <-].
Qed.

(** A stored record that has a name is not empty, so [not component] is
    false for it. *)
Lemma named_record_truthy r :
  is_dict r = true -> truthy (field "name" r) = true -> truthy r = true.
Proof.
  destruct r as [| | | | |items]; try discriminate.
  destruct items; [discriminate|reflexivity].
Qed.

(** X24.  In a store that satisfies the invariants, [/edit/<id>] of a stored
    identifier never answers "not found".  A GET renders the form with the
    stored record and changes nothing.  A POST whose form could be read
    either updates the record, redirects to the index and flashes the success
    message, or renders the form again with the data that was sent and the
    manager's message -- which is then one about the record or the save
    error, never one about the identifier -- and the store is untouched
    unless it is the save error. *)
Theorem edit_stored_answered component_id component req a :
  store_ok (components_data (manager a)) ->
  Dict.get component_id (components_data (manager a)) = Some component ->
  (method req = GET ->
   edit_view component_id req a =
     (Responded (RenderForm component (PStr component_id) "edit"), a)) /\
  (forall data,
     method req = POST -> form_component_data (form req) = Built data ->
     (exists m,
        update_component component_id data (manager a) = (Ok tt, m) /\
        edit_view component_id req a =
          (Responded (Redirect "index"),
           flash (Updated component_id) "success" (mkApp m (flashes a)))) \/
     (exists e m,
        update_component component_id data (manager a) = (Raise (ValueError e), m) /\
        edit_view component_id req a =
          (Responded (RenderForm data (PStr component_id) "edit"),
           flash (UpdateFailed e) "danger" (mkApp m (flashes a))) /\
        ((e = SaveFailed (filepath (manager a)) /\
          components_data m = Dict.set component_id data (components_data (manager a))) \/
         (about_record e = true /\ m = manager a)))).
Proof.
  intros Hok Hget.
  assert (Hin : In (component_id, component) (components_data (manager a)))
    by now apply DictFacts.get_in.
  assert (Ht : truthy component = true).
  { apply named_record_truthy.
    - eapply (ok_records _ Hok), Hin.
    - eapply (ok_name _ Hok), Hin. }
  assert (Hid : id_checks component_id false (components_data (manager a)) = Ok tt).
  { apply id_checks_ok. destruct (ok_ids _ Hok) as [_ Hm].
    assert (Hre : re_match_id component_id = true)
      by (eapply Hm, DictFacts.in_keys, Hin).
    split; [now apply re_match_id_nonempty|]. split; [exact Hre|].
    unfold Dict.mem. now rewrite Hget. }
  unfold edit_view, get_component, reading. rewrite Hget. simpl. rewrite Ht. simpl.
  split.
  - intros ->. now destruct a.
  - intros data -> Hb. rewrite Hb.
    assert (Hd : is_dict data = true) by (destruct (form_record_shape _ _ Hb); trivial).
    rewrite update_component_run. unfold update_checks. rewrite Hid. simpl.
    destruct (record_checks data (Some component_id) (components_data (manager a)))
      as [[]|e] eqn:Hck.
    + destruct (_save_data _) as [[[]|e] m] eqn:Hs.
      * left. eexists. split; reflexivity.
      * assert (He := save_data_raises _ _ _ Hs). simpl in He. subst e.
        apply save_data_frame in Hs. destruct Hs as [Em _].
        right. do 2 eexists. split; [reflexivity|]. split; [reflexivity|].
        left. split; [reflexivity|exact Em].
    + destruct (record_checks_error _ _ _ _ (ok_records _ Hok) Hd Hck) as [msg ->].
      right. exists msg, (manager a). split; [reflexivity|]. split; [reflexivity|].
      right. split; [|reflexivity].
      eapply record_checks_message; [apply (ok_records _ Hok)|exact Hd|exact Hck].
Qed.

End ViewFacts.

Section Boot.
Context {json : JsonLib} {law : JsonRoundTrip json}.

(** X23.  How the process starts.  With no document it serves an empty
    store and has written the document of the empty store -- the text
    [json.dump] writes for [{}] --, from which the next start serves the
    empty store again; with a document that holds a JSON object it serves
    that object and writes nothing; with a document that does not parse or
    holds anything else it exits with status 1.  With no document and a path
    that cannot be written, or a dump that raises, the exception of the
    [__main__] block is caught by nothing and the application is not
    served. *)
Theorem start_behaviour w :
  (Dict.get COMPONENTS_METADATA_FILE (files w) = None ->
   writable COMPONENTS_METADATA_FILE w = true ->
   forall text, json_dump (PDict []) = Dumped text ->
   exists w',
     start w = Serving (mkApp (mkState COMPONENTS_METADATA_FILE [] w') []) /\
     Dict.get COMPONENTS_METADATA_FILE (files w') = Some text /\
     start w' = Serving (mkApp (mkState COMPONENTS_METADATA_FILE [] w') [])) /\
  (forall text data,
     Dict.get COMPONENTS_METADATA_FILE (files w) = Some text ->
     json_load text = Some (PDict data) ->
     start w = Serving (mkApp (mkState COMPONENTS_METADATA_FILE data w) [])) /\
  (forall text,
     Dict.get COMPONENTS_METADATA_FILE (files w) = Some text ->
     json_load text = None \/ (exists v, json_load text = Some v /\ is_dict v = false) ->
     start w = Exited 1) /\
  (Dict.get COMPONENTS_METADATA_FILE (files w) = None ->
   (writable COMPONENTS_METADATA_FILE w = false ->
    start w = Aborted (OSRaised COMPONENTS_METADATA_FILE)) /\
   (writable COMPONENTS_METADATA_FILE w = true ->
    forall written, json_dump (PDict []) = DumpRaised written ->
    start w = Aborted (JsonRaised COMPONENTS_METADATA_FILE))).
Proof.
  split; [|split; [|split]].
  - intros Hget Hw text Hd. unfold start, module_body, __init__, _load_data, write_file.
    rewrite Hget. cbn [and_then fs manager files negb]. unfold Dict.mem.
    rewrite Hget, Hd, Hw. cbn [negb].
    exists (mkFs (Dict.set COMPONENTS_METADATA_FILE text (files w)) (unwritable w)).
    split; [reflexivity|]. cbn [files].
    rewrite DictFacts.get_set_same. split; [reflexivity|].
    rewrite (load_dump (PDict []) text eq_refl Hd).
    cbn [and_then fs manager files negb].
    now rewrite DictFacts.get_set_same.
  - intros text data Hget Hl. unfold start, module_body, __init__, _load_data.
    rewrite Hget, Hl. simpl. unfold Dict.mem. now rewrite Hget.
  - intros text Hget Hl. unfold start, module_body, __init__, _load_data.
    rewrite Hget. destruct Hl as [-> | [v [-> Hv]]]; [reflexivity|].
    destruct v; try discriminate; reflexivity.
  - intros Hget. unfold start, module_body, __init__, _load_data, write_file.
    rewrite Hget. cbn [and_then fs manager files negb]. unfold Dict.mem.
    rewrite Hget. cbn [negb]. split.
    + intros Hw. rewrite Hw. now destruct (json_dump (PDict [])).
    + intros Hw written Hd. now rewrite Hd, Hw.
Qed.

End Boot.

(** * The further properties on sample managers and requests *)

(** X1: [grafana] created on [sample_manager] is what Get returns. *)
Lemma stored_record_is_returned_witness :
  fst (add_component "grafana" grafana sample_manager) = Ok tt /\
  fst (get_component "grafana" (snd (add_component "grafana" grafana sample_manager)))
    = Ok grafana.
Proof.
  split; [reflexivity|].
  apply (stored_record_is_returned "grafana" grafana sample_manager
           (snd (add_component "grafana" grafana sample_manager))).
  left. reflexivity.
Defined.

(** X2: [backup] deleted from [sample_manager]. *)
Lemma deleted_record_is_gone_witness :
  fst (delete_component "backup" sample_manager) = Ok tt /\
  fst (get_component "backup" (snd (delete_component "backup" sample_manager)))
    = Ok PNone.
Proof.
  split; [reflexivity|].
  apply (deleted_record_is_gone "backup" sample_manager
           (snd (delete_component "backup" sample_manager))).
  - apply sample_store_ok.
  - reflexivity.
Defined.

(** X3: a second [grafana] after the first. *)
Lemma second_create_refused_witness :
  fst (add_component "grafana" grafana sample_manager) = Ok tt /\
  fst (add_component "grafana" plain
         (snd (add_component "grafana" grafana sample_manager)))
    = Raise (ValueError (IdExists "grafana")).
Proof.
  split; [reflexivity|].
  assert (E : add_component "grafana" grafana sample_manager
              = (Ok tt, snd (add_component "grafana" grafana sample_manager)))
    by reflexivity.
  rewrite (proj1 (second_create_refused "grafana" grafana sample_manager
                    (snd (add_component "grafana" grafana sample_manager))
                    E plain)).
  reflexivity.
Defined.

(** X4: the identifiers after [grafana] is created on [sample_manager]. *)
Lemma identifiers_after_call_witness :
  Dict.keys (components_data (snd (run (Create "grafana" grafana) sample_manager)))
  = ["nginx"; "backup"; "grafana"].
Proof.
  exact (identifiers_after_call (Create "grafana" grafana) sample_manager
           (snd (run (Create "grafana" grafana) sample_manager)) eq_refl).
Defined.

(** X5: Create on a manager whose document cannot be written, and Create
    of a record the dump raises on, with both paths writable. *)
Lemma failed_persist_keeps_change_witness :
  (~ can_persist readonly_manager /\
   exists st',
     run (Create "svc" plain) readonly_manager
       = (Raise (ValueError (SaveFailed "components_metadata.json")), st') /\
     components_data st' = [("svc", plain)]) /\
  (can_persist empty_manager /\
   ~ dumps (PDict [("svc", oversized)]) /\
   exists st',
     run (Create "svc" oversized) empty_manager
       = (Raise (ValueError (SaveFailed "components_metadata.json")), st') /\
     components_data st' = [("svc", oversized)] /\
     Dict.get "components_metadata.json" (files (fs st')) = None).
Proof.
  split.
  - assert (Hp : ~ can_persist readonly_manager) by (intros [_ H]; discriminate H).
    split; [exact Hp|].
    destruct (failed_persist_keeps_change (Create "svc" plain) readonly_manager
                eq_refl (fun H => Hp (proj1 H))) as [st' [E [Hd _]]].
    exists st'. split; [exact E|exact Hd].
  - assert (Hr : exists written,
              json_dump (PDict [("svc", oversized)]) = DumpRaised written)
      by (eexists; vm_compute; reflexivity).
    assert (Hd : ~ dumps (PDict [("svc", oversized)])).
    { intros [text H]. destruct Hr as [written Hr]. rewrite Hr in H. discriminate H. }
    split; [split; reflexivity|]. split; [exact Hd|].
    destruct (failed_persist_keeps_change (Create "svc" oversized) empty_manager
                eq_refl (fun H => Hd (proj2 H))) as [st' [E [Hs [_ Hdoc]]]].
    exists st'. split; [exact E|]. split; [exact Hs|exact Hdoc].
Defined.

(** X6: [sample_manager] saved. *)
Lemma save_replaces_only_the_document_witness :
  fst (_save_data sample_manager) = Ok tt /\
  Dict.get "components_metadata.json.tmp" (files (fs (snd (_save_data sample_manager))))
    = None.
Proof.
  split; [reflexivity|].
  assert (Hu : Dict.uniq (files (fs sample_manager))) by (vm_compute; constructor).
  exact (proj1 (proj2 (save_replaces_only_the_document sample_manager
                         (snd (_save_data sample_manager)) Hu eq_refl))).
Defined.

(** X8: three calls on [sample_manager], one of them refused. *)
Lemma calls_preserve_invariants_witness :
  store_ok (components_data
              (run_all [Create "grafana" grafana; Create "nginx" plain; Delete "backup"]
                       sample_manager)).
Proof.
  apply (calls_preserve_invariants
           [Create "grafana" grafana; Create "nginx" plain; Delete "backup"]
           sample_manager sample_store_ok).
Defined.

(** X9: port 80 is [nginx]'s. *)
Lemma taken_port_refused_witness :
  add_component "grafana" (grafana_on (PInt 80)) sample_manager
    = (Raise (ValueError (PortInUse (PInt 80) "nginx")), sample_manager).
Proof.
  apply (proj1 (taken_port_refused sample_manager "nginx" nginx (grafana_on (PInt 80))
                  sample_store_ok (or_introl eq_refl) eq_refl eq_refl eq_refl
                  "grafana")).
  reflexivity.
Defined.

(** X10: [nginx] is the reverse proxy. *)
Lemma second_proxy_refused_witness :
  add_component "traefik" traefik sample_manager
    = (Raise (ValueError (ProxyTaken "nginx")), sample_manager).
Proof.
  apply (proj1 (second_proxy_refused sample_manager "nginx" nginx traefik
                  sample_store_ok (or_introl eq_refl) eq_refl eq_refl eq_refl
                  "traefik")).
  - reflexivity.
  - discriminate.
Defined.

(** X11: a record whose name is the empty string. *)
Lemma nameless_record_refused_witness :
  truthy (field "name" nameless) = false /\
  add_component "svc" nameless sample_manager
    = (Raise (ValueError NameRequired), sample_manager) /\
  update_component "backup" nameless sample_manager
    = (Raise (ValueError NameRequired), sample_manager).
Proof.
  split; [reflexivity|]. split.
  - apply (proj1 (proj2 (proj2
             (nameless_record_refused nameless eq_refl sample_manager "svc")))).
    + reflexivity.
    + discriminate.
    + discriminate.
    + reflexivity.
  - apply (proj2 (proj2 (proj2
             (nameless_record_refused nameless eq_refl sample_manager "backup")))).
    + reflexivity.
    + discriminate.
    + discriminate.
    + reflexivity.
Defined.

(** X13: [nginx] deleted, then its identifier and its port taken again. *)
Lemma delete_frees_port_witness :
  fst (delete_component "nginx" sample_manager) = Ok tt /\
  exists w,
    add_component "nginx" (grafana_on (PInt 80))
      (snd (delete_component "nginx" sample_manager)) =
      (Ok tt, mkState "components_metadata.json"
                [("backup", backup); ("nginx", grafana_on (PInt 80))] w).
Proof.
  split; [reflexivity|].
  assert (Hg : ui_group_ok (grafana_on (PInt 80))).
  { constructor; try reflexivity.
    - split; [reflexivity|]. simpl. lia.
    - now right.
    - discriminate. }
  assert (Hp : is_reverse_proxy (grafana_on (PInt 80)) = true ->
               no_other_proxy (Dict.del "nginx" (components_data sample_manager)) None)
    by discriminate.
  assert (Hdel : delete_component "nginx" sample_manager
                 = (Ok tt, snd (delete_component "nginx" sample_manager)))
    by reflexivity.
  destruct (delete_frees_port sample_manager
              (snd (delete_component "nginx" sample_manager))
              "nginx" nginx "nginx" (grafana_on (PInt 80))
              sample_store_ok (or_introl eq_refl) eq_refl eq_refl Hg eq_refl eq_refl Hp
              eq_refl (or_intror eq_refl) Hdel) as [_ [_ Hsave]].
  eexists. eapply Hsave. reflexivity.
Defined.

(** X14: a manager constructed after [grafana] was created. *)
Lemma restart_after_call_witness :
  fst (run (Create "grafana" grafana) sample_manager) = Ok tt /\
  __init__ "components_metadata.json"
    (fs (snd (run (Create "grafana" grafana) sample_manager)))
    = Ok (snd (run (Create "grafana" grafana) sample_manager)).
Proof.
  split; [reflexivity|].
  assert (Hrun : run (Create "grafana" grafana) sample_manager
                 = (Ok tt, snd (run (Create "grafana" grafana) sample_manager)))
    by reflexivity.
  exact (restart_after_call (Create "grafana" grafana) sample_manager
           (snd (run (Create "grafana" grafana) sample_manager)) Hrun eq_refl).
Defined.

(** X15: the error of a duplicate Create on [sample_manager]. *)
Lemma manager_raises_value_errors_witness :
  add_component "nginx" plain sample_manager
    = (Raise (ValueError (IdExists "nginx")), sample_manager) /\
  exists m, ValueError (IdExists "nginx") = ValueError m /\
            (m = SaveFailed "components_metadata.json" \/ sample_manager = sample_manager).
Proof.
  split; [reflexivity|].
  apply (proj1 (manager_raises_value_errors sample_manager
                  (ValueError (IdExists "nginx")) sample_manager
                  (ok_records _ sample_store_ok)) "nginx" plain eq_refl).
  left. reflexivity.
Defined.

(** X16: the record built from [grafana_form]. *)
Lemma form_record_typed_witness :
  form_component_data grafana_form = Built grafana_form_record /\
  form_typed grafana_form_record /\
  field "has_ui" grafana_form_record = PBool true.
Proof.
  assert (Hb : form_component_data grafana_form = Built grafana_form_record)
    by reflexivity.
  split; [exact Hb|].
  destruct (form_record_typed grafana_form grafana_form_record Hb) as [Ht [Hu _]].
  split; [exact Ht|exact Hu].
Defined.

(** X17: the record of [grafana_form], accepted on [sample_manager]. *)
Lemma accepted_form_record_typed_witness :
  record_checks grafana_form_record None (components_data sample_manager) = Ok tt /\
  ui_group_typed grafana_form_record.
Proof.
  assert (Hb : form_component_data grafana_form = Built grafana_form_record)
    by reflexivity.
  assert (Hr : record_checks grafana_form_record None (components_data sample_manager)
               = Ok tt) by reflexivity.
  split; [exact Hr|].
  apply (accepted_form_record_typed grafana_form grafana_form_record None
           (components_data sample_manager) Hb).
  - now apply record_checks_ok.
  - reflexivity.
Defined.


(** X19: [bad_port_form] posted to [/add] and to [/edit/nginx]. *)
Lemma bad_port_text_crashes_witness :
  py_int "eighty" = None /\
  add_view (mkRequest POST bad_port_form) sample_app
    = (Crashed (IntRaised "eighty"), sample_app) /\
  edit_view "nginx" (mkRequest POST bad_port_form) sample_app
    = (Crashed (IntRaised "eighty"), sample_app).
Proof.
  split; [reflexivity|].
  assert (Hint : py_int "eighty" = None) by reflexivity.
  destruct (bad_port_text_crashes (mkRequest POST bad_port_form) sample_app "eighty"
              eq_refl eq_refl eq_refl ltac:(discriminate) Hint) as [Ha He].
  split; [exact Ha|].
  apply (He "nginx" nginx); reflexivity.
Defined.

(** X21: [/edit/ghost] on [sample_app]. *)
Lemma edit_unknown_redirects_witness :
  edit_view "ghost" (mkRequest POST grafana_form) sample_app
    = (Responded (Redirect "index"), flash (NotFound "ghost") "danger" sample_app).
Proof.
  apply (edit_unknown_redirects "ghost" (mkRequest POST grafana_form) sample_app).
  reflexivity.
Defined.

(** X23: the first start, with no document and a writable directory. *)
Lemma start_behaviour_witness :
  (exists w',
     start (mkFs [] []) = Serving (mkApp (mkState "components_metadata.json" [] w') []) /\
     Dict.get "components_metadata.json" (files w') = Some "{}" /\
     start w' = Serving (mkApp (mkState "components_metadata.json" [] w') [])) /\
  start (mkFs [("components_metadata.json", "{}")] []) =
    Serving (mkApp (mkState "components_metadata.json" []
                      (mkFs [("components_metadata.json", "{}")] [])) []) /\
  start (mkFs [("components_metadata.json", "[]")] []) = Exited 1 /\
  start (mkFs [] ["components_metadata.json"])
    = Aborted (OSRaised "components_metadata.json").
Proof.
  split; [|split; [|split]].
  - exact (proj1 (start_behaviour (mkFs [] [])) eq_refl eq_refl "{}" eq_refl).
  - apply (proj1 (proj2 (start_behaviour
                           (mkFs [("components_metadata.json", "{}")] []))) "{}" []);
      reflexivity.
  - apply (proj1 (proj2 (proj2 (start_behaviour
                                  (mkFs [("components_metadata.json", "[]")] [])))) "[]");
      [reflexivity|].
    right. exists (PList []). split; reflexivity.
  - exact (proj1 (proj2 (proj2 (proj2 (start_behaviour
                                         (mkFs [] ["components_metadata.json"]))))
                    eq_refl) eq_refl).
Defined.

(** X24: [/edit/nginx] on [sample_app], by GET and with [grafana_form]. *)
Lemma edit_stored_answered_witness :
  edit_view "nginx" (mkRequest GET []) sample_app
    = (Responded (RenderForm nginx (PStr "nginx") "edit"), sample_app) /\
  fst (edit_view "nginx" (mkRequest POST grafana_form) sample_app)
    = Responded (Redirect "index") /\
  flashes (snd (edit_view "nginx" (mkRequest POST grafana_form) sample_app))
    = [mkFlash (Updated "nginx") "success"].
Proof.
  assert (Hget : Dict.get "nginx" (components_data (manager sample_app)) = Some nginx)
    by reflexivity.
  split.
  - apply (proj1 (edit_stored_answered "nginx" nginx (mkRequest GET []) sample_app
                    sample_store_ok Hget)).
    reflexivity.
  - assert (Hb : form_component_data (form (mkRequest POST grafana_form))
                 = Built grafana_form_record) by reflexivity.
    destruct (proj2 (edit_stored_answered "nginx" nginx (mkRequest POST grafana_form)
                       sample_app sample_store_ok Hget)
                    grafana_form_record eq_refl Hb)
      as [[m [_ E]]|[e [m [Hm _]]]].
    + rewrite E. split; reflexivity.
    + discriminate Hm.
Defined.
